(** * pdfaraby: the conversion orchestrator, result cache, statistics,
    retention sweeper, tool endpoints and download route of [src/app.py],
    embedded in Rocq.

    The Flask handlers are translated as computations in a small
    state-and-exception monad over an explicit [world]: the module-level
    [conversion_stats] dictionary, the two artifact folders, the Redis store
    and the log.  Everything that [app.py] obtains from a collaborator
    (wall clock, engines, python-docx, werkzeug, uuid, hashlib, filesystem
    faults, Redis faults) is read from an [oracle] record, so that every
    handler is an executable function of request, configuration, oracle and
    world. *)

From Stdlib Require Import ZArith QArith Qround String Ascii List.
From Stdlib Require Import DecimalString.
From stdpp Require Import base decidable option list gmap strings.
Import ListNotations.

Local Open Scope Z_scope.
Local Open Scope string_scope.

(** ** Python string helpers used by [app.py] *)

Module PyStr.

(** [c in s] for a one-character needle. *)
Fixpoint contains (c : ascii) (s : string) : bool :=
  match s with
  | EmptyString => false
  | String a s' => if Ascii.eqb a c then true else contains c s'
  end.

(** [s.rfind(c)]: index of the last occurrence, [None] for -1. *)
Fixpoint rfind (c : ascii) (s : string) : option nat :=
  match s with
  | EmptyString => None
  | String a s' =>
      match rfind c s' with
      | Some i => Some (S i)
      | None => if Ascii.eqb a c then Some O else None
      end
  end.

(** [s[:i]] and [s[i:]]. *)
Definition take (i : nat) (s : string) : string := String.substring 0 i s.
Definition drop (i : nat) (s : string) : string :=
  String.substring i (String.length s - i) s.

(** [s.rsplit(c, 1)]. *)
Definition rsplit1 (c : ascii) (s : string) : list string :=
  match rfind c s with
  | Some i => [take i s; drop (S i) s]
  | None => [s]
  end.

(** [s.lower()] on the ASCII range.  Bytes of non-ASCII characters are left
    alone; no non-ASCII character lowers to a letter of an accepted
    extension, so membership in [ALLOWED_EXTENSIONS] is decided exactly. *)
Definition lower_ascii (a : ascii) : ascii :=
  let n := nat_of_ascii a in
  if (Nat.leb 65 n && Nat.leb n 90)%bool then ascii_of_nat (n + 32) else a.

Fixpoint lower (s : string) : string :=
  match s with
  | EmptyString => EmptyString
  | String a s' => String (lower_ascii a) (lower s')
  end.

(** The inner loop of [genericpath._splitext]: is there a character other
    than the extension separator in [p[from:dot]]? *)
Fixpoint has_non_dot (s : string) (n : nat) : bool :=
  match n, s with
  | O, _ => false
  | S n', String a s' => if Ascii.eqb a "." then has_non_dot s' n' else true
  | S _, EmptyString => false
  end.

(** [os.path.splitext(p)] with separator [/]. *)
Definition splitext (p : string) : string * string :=
  match rfind "." p with
  | None => (p, EmptyString)
  | Some dot =>
      let start := match rfind "/" p with Some i => S i | None => O end in
      if (Nat.ltb dot start) then (p, EmptyString)
      else if has_non_dot (drop start p) (dot - start)
           then (take dot p, drop dot p)
           else (p, EmptyString)
  end.

(** Truth value of a string: non-empty. *)
Definition truthy (s : string) : bool :=
  match s with EmptyString => false | String _ _ => true end.

End PyStr.

(** ** Configuration computed when the module is imported *)

(** The accepted upload extensions. *)
Definition ALLOWED_EXTENSIONS : gset string := {[ "pdf"; "png"; "jpg"; "jpeg" ]}.

Definition CACHE_TTL : Z := 3600.

(** Availability flags of the optional imports and of the Redis client. *)
Record config := Config {
  PDF2DOCX_AVAILABLE : bool;
  ASPOSE_AVAILABLE : bool;
  ARABIC_SUPPORT : bool;
  cache_available : bool;
  redis_client : bool            (* [redis_client] is not [None] *)
}.

(** [allowed_file(filename)]. *)
Definition allowed_file (filename : string) : bool :=
  PyStr.contains "." filename &&
  match PyStr.rsplit1 "." filename !! 1%nat with
  | Some ext => bool_decide (PyStr.lower ext ∈ ALLOWED_EXTENSIONS)
  | None => false
  end.


(** ** Exceptions *)

(** The Python exceptions that can travel through the handlers.
    [HTTPException code message] is what [api.abort(code, message)] raises:
    the werkzeug exception of that status whose [data] carries [message]. *)
Inductive exn :=
| HTTPException (code : Z) (message : string)
| KeyError (key : string)
| ZeroDivisionError
| Exception_ (msg : string)          (* [raise Exception(msg)] *)
| RedisError (detail : string)       (* raised by the Redis client *)
| EngineError (detail : string)      (* raised by pdf2docx or Aspose *)
| OSError (detail : string)          (* raised by a filesystem call *)
| DocxError (detail : string).       (* raised by python-docx or the reshaper *)

Inductive result (A : Type) :=
| Ok (a : A)
| Raise (e : exn).
Arguments Ok {A} a.
Arguments Raise {A} e.

(** ** The world the handlers act on *)

Inductive folder_id := UPLOAD_FOLDER | CONVERTED_FOLDER.

(** A directory entry: regular file or not, modification time (seconds),
    bytes. *)
Record fentry := FEntry {
  f_isfile : bool;
  f_mtime : Q;
  f_data : string
}.

(** A folder in [os.listdir] order. *)
Definition folder := list (string * fentry).

(** The module-level dictionary [conversion_stats]. *)
Record stats := Stats {
  total_conversions : Z;
  successful_conversions : Z;
  failed_conversions : Z;
  average_processing_time : Q;
  engine_usage : gmap string Z
}.

Inductive level := INFO | WARNING | ERROR.

(** Instrumentation, not program state: the calls whose number the
    specification talks about. *)
Inductive call :=
| CallUpdateStats (success : bool) (engine : string)
| CallEngine (engine : string)
| CallSleep (seconds : Z).

(** The local variables of [Convert.post] that its [except] clause reads:
    [engine] ([None] while unbound) and [pdf_path] (a name in the upload
    folder). *)
Record frame := Frame {
  v_engine : option string;
  v_pdf_path : option string
}.

Record world := World {
  conversion_stats : stats;
  uploads : folder;
  converted : folder;
  redis_kv : gmap string (string * Q);   (* key -> value, instant of expiry *)
  redis_total : option Z;                (* the key pdfaraby:total_conversions,
                                            an integer: only INCR writes it *)
  log : list (level * string);
  tick : nat;                            (* clock readings taken so far *)
  calls : list call;
  locals : frame
}.

(** ** The collaborators *)

Inductive engine_result :=
| EngRaise (detail : string)             (* the engine raised *)
| EngDone (output : option string).      (* it returned; bytes written, if any *)

(** A Word document as python-docx exposes it to [apply_rtl_to_docx]. *)
Record paragraph := Paragraph {
  runs : list string;                    (* [run.text] of each run *)
  pPr : list (string * string)           (* children appended to [w:pPr] *)
}.
Definition document := list paragraph.

Record oracle := Oracle {
  clock : nat -> Q;                      (* the k-th reading of the wall clock *)
  http_str : Z -> string;                (* [str(e)] of an aborted request *)
  secure_filename : string -> string;    (* werkzeug.utils.secure_filename *)
  uuid8 : string;                        (* [str(uuid.uuid4())[:8]] *)
  md5_hexdigest : string -> string;      (* hashlib.md5 of the bytes *)
  save_fault : option string;            (* [file.save] raising *)
  remove_fault : folder_id -> string -> option string;  (* [os.remove] raising *)
  redis_get_fault : option string;
  redis_setex_fault : option string;
  redis_incr_fault : option string;
  pdf2docx_convert : string -> engine_result;
  aspose_load_fault : string -> option string;   (* [ap.Document(path)] raising *)
  aspose_convert : string -> engine_result;      (* [document.save] *)
  docx_parse : string -> option document;  (* [None]: [Document(path)] raises *)
  docx_render : document -> string;
  docx_save_fault : option string;       (* [doc.save] raising *)
  reshape : string -> option string;     (* [None]: the reshaper raises *)
  is_blank : string -> bool;             (* [not run.text.strip()] *)
  memory_mb : option string;             (* psutil reading, [None] when it raises *)
  format_2f : Q -> string                (* the format specification [:.2f] *)
}.

(** [str(e)]. *)
Definition str_exn (o : oracle) (e : exn) : string :=
  match e with
  | HTTPException code _ => http_str o code
  | KeyError key => "'" ++ key ++ "'"
  | ZeroDivisionError => "float division by zero"
  | Exception_ msg => msg
  | RedisError d | EngineError d | OSError d | DocxError d => d
  end.

(** ** Field updates *)

Definition set_stats (f : stats -> stats) (w : world) : world :=
  World (f (conversion_stats w)) (uploads w) (converted w) (redis_kv w)
        (redis_total w) (log w) (tick w) (calls w) (locals w).
Definition set_uploads (f : folder -> folder) (w : world) : world :=
  World (conversion_stats w) (f (uploads w)) (converted w) (redis_kv w)
        (redis_total w) (log w) (tick w) (calls w) (locals w).
Definition set_converted (f : folder -> folder) (w : world) : world :=
  World (conversion_stats w) (uploads w) (f (converted w)) (redis_kv w)
        (redis_total w) (log w) (tick w) (calls w) (locals w).
Definition set_redis_kv (f : gmap string (string * Q) -> gmap string (string * Q))
    (w : world) : world :=
  World (conversion_stats w) (uploads w) (converted w) (f (redis_kv w))
        (redis_total w) (log w) (tick w) (calls w) (locals w).
Definition set_redis_total (f : option Z -> option Z) (w : world) : world :=
  World (conversion_stats w) (uploads w) (converted w) (redis_kv w)
        (f (redis_total w)) (log w) (tick w) (calls w) (locals w).
Definition set_log (f : list (level * string) -> list (level * string))
    (w : world) : world :=
  World (conversion_stats w) (uploads w) (converted w) (redis_kv w)
        (redis_total w) (f (log w)) (tick w) (calls w) (locals w).
Definition set_tick (f : nat -> nat) (w : world) : world :=
  World (conversion_stats w) (uploads w) (converted w) (redis_kv w)
        (redis_total w) (log w) (f (tick w)) (calls w) (locals w).
Definition set_calls (f : list call -> list call) (w : world) : world :=
  World (conversion_stats w) (uploads w) (converted w) (redis_kv w)
        (redis_total w) (log w) (tick w) (f (calls w)) (locals w).
Definition set_locals (f : frame -> frame) (w : world) : world :=
  World (conversion_stats w) (uploads w) (converted w) (redis_kv w)
        (redis_total w) (log w) (tick w) (calls w) (f (locals w)).

Definition folder_of (d : folder_id) (w : world) : folder :=
  match d with UPLOAD_FOLDER => uploads w | CONVERTED_FOLDER => converted w end.
Definition set_folder (d : folder_id) (f : folder -> folder) : world -> world :=
  match d with UPLOAD_FOLDER => set_uploads f | CONVERTED_FOLDER => set_converted f end.

(** ** Folders as association lists *)

Fixpoint flookup (name : string) (l : folder) : option fentry :=
  match l with
  | [] => None
  | (n, e) :: l' => if String.eqb n name then Some e else flookup name l'
  end.

(** Create or overwrite [name]; a new name goes to the end of the listing. *)
Fixpoint fwrite (name : string) (e : fentry) (l : folder) : folder :=
  match l with
  | [] => [(name, e)]
  | (n, e') :: l' =>
      if String.eqb n name then (n, e) :: l' else (n, e') :: fwrite name e l'
  end.

Fixpoint fremove (name : string) (l : folder) : folder :=
  match l with
  | [] => []
  | (n, e) :: l' =>
      if String.eqb n name then fremove name l' else (n, e) :: fremove name l'
  end.

(** [os.path.exists(os.path.join(folder, name))]. *)
Definition fexists (name : string) (l : folder) : bool :=
  match flookup name l with Some _ => true | None => false end.

(** ** The state-and-exception monad *)

Definition M (A : Type) : Type := world -> result A * world.

Definition ret {A} (a : A) : M A := fun w => (Ok a, w).
Definition raise {A} (e : exn) : M A := fun w => (Raise e, w).
Definition bind {A B} (c : M A) (k : A -> M B) : M B :=
  fun w => match c w with
           | (Ok a, w') => k a w'
           | (Raise e, w') => (Raise e, w')
           end.
(** [try: c  except Exception as e: h e]; what [c] did before raising stays
    done. *)
Definition try_except {A} (c : M A) (h : exn -> M A) : M A :=
  fun w => match c w with
           | (Ok a, w') => (Ok a, w')
           | (Raise e, w') => h e w'
           end.
Definition get_world : M world := fun w => (Ok w, w).
Definition modify (f : world -> world) : M unit := fun w => (Ok tt, f w).

Declare Scope py_scope.
Delimit Scope py_scope with py.
Notation "'let*' x ':=' c 'in' k" := (bind c (fun x => k))
  (at level 10, x name, c at level 100, k at level 200) : py_scope.
Notation "c '>>' k" := (bind c (fun _ => k))
  (at level 100, k at level 200, right associativity) : py_scope.
Local Open Scope py_scope.

Fixpoint for_each {A} (l : list A) (body : A -> M unit) : M unit :=
  match l with
  | [] => ret tt
  | x :: l' => body x >> for_each l' body
  end.

(** ** Responses *)

(** The dictionary returned by [Convert.post]; [processing_time] is absent
    from the cached answer.  ([api.marshal_with] later keeps only the fields
    of [response_model]; the model stops at the returned dictionary.) *)
Record response := Response {
  r_success : bool;
  r_message : string;
  r_filename : string;
  r_engine_used : string;
  r_download_url : string;
  r_processing_time : option string;
  r_cached : bool
}.

(** The multipart field [file] and the form field [engine]. *)
Record file_storage := FileStorage {
  filename : string;
  content : string
}.
Record request := Request {
  files_file : option file_storage;      (* [request.files.get('file')] *)
  form_engine : option string            (* [request.form.get('engine')] *)
}.

(** The dictionary returned by [Stats.get]. *)
Record stats_response := StatsResponse {
  sr_conversion_stats : stats;
  sr_user_count : Z;
  sr_cache_available : bool;
  sr_uptime : Q;
  sr_memory_usage : string
}.

(** What Redis holds under [key] at instant [now]: the value, unless the key
    is absent or its TTL has run out. *)
Definition live_value (now : Q) (kv : gmap string (string * Q)) (key : string)
    : option string :=
  match kv !! key with
  | Some (v, expiry) => if Qle_bool expiry now then None else Some v
  | None => None
  end.

(** [int(x)] of a float: truncation toward zero. *)
Definition py_int (x : Q) : Z := Z.quot (Qnum x) (Zpos (Qden x)).

Section Handlers.

Context (cfg : config) (o : oracle).
(** [app_start_time], read once at import. *)
Context (app_start_time : Q).

(** *** Primitive effects *)

Definition time_time : M Q :=
  fun w => (Ok (clock o (tick w)), set_tick S w).
(** [datetime.now()], as seconds. *)
Definition datetime_now : M Q := time_time.

Definition logger (lv : level) (msg : string) : M unit :=
  modify (set_log (fun l => (l ++ [(lv, msg)])%list)).

Definition record (c : call) : M unit :=
  modify (set_calls (fun l => (l ++ [c])%list)).

(** [api.abort(code, message)]. *)
Definition abort {A} (code : Z) (message : string) : M A :=
  raise (HTTPException code message).

Definition path_exists (d : folder_id) (name : string) : M bool :=
  fun w => (Ok (fexists name (folder_of d w)), w).

(** Writing [data] to [name] stamps it with the current clock reading. *)
Definition write_file (d : folder_id) (name data : string) : M unit :=
  fun w => (Ok tt, set_folder d (fwrite name (FEntry true (clock o (tick w)) data)) w).

(** [open(path, "rb").read()]. *)
Definition read_file (d : folder_id) (name : string) : M string :=
  fun w => match flookup name (folder_of d w) with
           | Some e => (Ok (f_data e), w)
           | None => (Raise (OSError ("No such file or directory: " ++ name)), w)
           end.

(** [os.remove(path)]. *)
Definition os_remove (d : folder_id) (name : string) : M unit :=
  fun w => match flookup name (folder_of d w) with
           | None => (Raise (OSError ("No such file or directory: " ++ name)), w)
           | Some _ =>
               match remove_fault o d name with
               | Some detail => (Raise (OSError detail), w)
               | None => (Ok tt, set_folder d (fremove name) w)
               end
           end.

(** [os.path.getmtime(path)]. *)
Definition getmtime (d : folder_id) (name : string) : M Q :=
  fun w => match flookup name (folder_of d w) with
           | Some e => (Ok (f_mtime e), w)
           | None => (Raise (OSError ("No such file or directory: " ++ name)), w)
           end.

(** [os.path.isfile(path)]. *)
Definition isfile (d : folder_id) (name : string) : M bool :=
  fun w => (Ok match flookup name (folder_of d w) with
               | Some e => f_isfile e
               | None => false
               end, w).

(** [os.listdir(folder)]. *)
Definition listdir (d : folder_id) : M (list string) :=
  fun w => (Ok (map fst (folder_of d w)), w).

(** *** Redis *)

(** [redis_client.get(key)] on a conversion key. *)
Definition redis_get (key : string) : M (option string) :=
  fun w => match redis_get_fault o with
           | Some detail => (Raise (RedisError detail), w)
           | None => (Ok (live_value (clock o (tick w)) (redis_kv w) key), w)
           end.

(** [redis_client.setex(key, ttl, value)]. *)
Definition redis_setex (key : string) (ttl : Z) (value : string) : M unit :=
  fun w => match redis_setex_fault o with
           | Some detail => (Raise (RedisError detail), w)
           | None =>
               (Ok tt, set_redis_kv
                         (insert key (value, clock o (tick w) + inject_Z ttl)%Q) w)
           end.

(** [redis_client.incr('pdfaraby:total_conversions')]. *)
Definition redis_incr_total : M Z :=
  fun w => match redis_incr_fault o with
           | Some detail => (Raise (RedisError detail), w)
           | None =>
               let n := default 0 (redis_total w) + 1 in
               (Ok n, set_redis_total (fun _ => Some n) w)
           end.

(** [redis_client.get('pdfaraby:total_conversions')]. *)
Definition redis_get_total : M (option Z) :=
  fun w => match redis_get_fault o with
           | Some detail => (Raise (RedisError detail), w)
           | None => (Ok (redis_total w), w)
           end.

(** *** Helper functions of [app.py] *)

(** [clean_filename(filename)]. *)
Definition clean_filename (filename : string) : string :=
  let secure_name := secure_filename o filename in
  let secure_name :=
    if PyStr.truthy secure_name then secure_name else "document.pdf" in
  let unique_id := uuid8 o in
  let '(name, ext) := PyStr.splitext secure_name in
  let name := if PyStr.truthy name then name else "document" in
  let ext := if PyStr.truthy ext then ext else ".pdf" in
  name ++ "_" ++ unique_id ++ ext.

Definition incr_total (s : stats) : stats :=
  Stats (total_conversions s + 1) (successful_conversions s)
        (failed_conversions s) (average_processing_time s) (engine_usage s).
Definition incr_successful (s : stats) : stats :=
  Stats (total_conversions s) (successful_conversions s + 1)
        (failed_conversions s) (average_processing_time s) (engine_usage s).
Definition incr_failed (s : stats) : stats :=
  Stats (total_conversions s) (successful_conversions s)
        (failed_conversions s + 1) (average_processing_time s) (engine_usage s).
Definition put_usage (u : gmap string Z) (s : stats) : stats :=
  Stats (total_conversions s) (successful_conversions s)
        (failed_conversions s) (average_processing_time s) u.
Definition put_average (a : Q) (s : stats) : stats :=
  Stats (total_conversions s) (successful_conversions s)
        (failed_conversions s) a (engine_usage s).
Definition put_total (n : Z) (s : stats) : stats :=
  Stats n (successful_conversions s)
        (failed_conversions s) (average_processing_time s) (engine_usage s).

(** [update_stats(success, engine, processing_time)].  The subscript
    [conversion_stats['engine_usage'][engine]] raises [KeyError] for a
    name that is not a key of the dictionary. *)
Definition update_stats (success : bool) (engine : string)
    (processing_time : Q) : M unit :=
  record (CallUpdateStats success engine) >>
  modify (set_stats incr_total) >>
  modify (set_stats (if success then incr_successful else incr_failed)) >>
  (let* w := get_world in
   match engine_usage (conversion_stats w) !! engine with
   | None => raise (KeyError engine)
   | Some n =>
       modify (set_stats (put_usage (<[engine := n + 1]>
                                       (engine_usage (conversion_stats w)))))
   end) >>
  (if redis_client cfg then
     try_except (let* _ := redis_incr_total in ret tt)
                (fun e => logger WARNING ("فشل في تحديث Redis: " ++ str_exn o e))
   else ret tt) >>
  let* w := get_world in
  let s := conversion_stats w in
  if Z.eqb (total_conversions s) 1 then
    modify (set_stats (put_average processing_time))
  else if Z.eqb (total_conversions s) 0 then
    raise ZeroDivisionError
  else
    modify (set_stats (put_average
      ((average_processing_time s * inject_Z (total_conversions s - 1)
        + processing_time) / inject_Z (total_conversions s))%Q)).

(** [get_file_hash(file_path)], for a file of the upload folder. *)
Definition get_file_hash (name : string) : M string :=
  let* data := read_file UPLOAD_FOLDER name in
  ret (md5_hexdigest o data).

Definition cache_key (file_hash engine : string) : string :=
  "pdf_convert:" ++ file_hash ++ ":" ++ engine.

(** [get_cached_result(file_hash, engine)]. *)
Definition get_cached_result (file_hash engine : string) : M (option string) :=
  if negb (cache_available cfg) || negb (redis_client cfg) then ret None
  else
    let* cached_data := redis_get (cache_key file_hash engine) in
    match cached_data with
    | Some v =>
        if PyStr.truthy v then
          logger INFO ("تم العثور على نتيجة محفوظة للملف: " ++ file_hash) >>
          ret (Some v)
        else ret None
    | None => ret None
    end.

(** [set_cached_result(file_hash, engine, result_filename)]. *)
Definition set_cached_result (file_hash engine result_filename : string) : M unit :=
  if negb (cache_available cfg) || negb (redis_client cfg) then ret tt
  else redis_setex (cache_key file_hash engine) CACHE_TTL result_filename.

(** The body of the paragraph loop of [apply_rtl_to_docx]: reshape every
    non-blank run, ignoring a run whose reshaping raises, then append the
    right-alignment element. *)
Definition rtl_run (text : string) : string :=
  if is_blank o text then text
  else match reshape o text with
       | Some reshaped_text => reshaped_text
       | None => text
       end.

Definition rtl_paragraph (p : paragraph) : paragraph :=
  Paragraph (if ARABIC_SUPPORT cfg then map rtl_run (runs p) else runs p)
            (pPr p ++ [("w:jc", "right")])%list.

(** [Document(docx_path)]. *)
Definition docx_open (name : string) : M document :=
  let* data := read_file CONVERTED_FOLDER name in
  match docx_parse o data with
  | Some doc => ret doc
  | None => raise (DocxError ("Package not found or not a Word file: " ++ name))
  end.

(** [doc.save(docx_path)]. *)
Definition docx_save (doc : document) (name : string) : M unit :=
  match docx_save_fault o with
  | Some detail => raise (DocxError detail)
  | None => write_file CONVERTED_FOLDER name (docx_render o doc)
  end.

(** [apply_rtl_to_docx(docx_path)]. *)
Definition apply_rtl_to_docx (docx_path : string) : M bool :=
  try_except
    (let* doc := docx_open docx_path in
     let doc := map rtl_paragraph doc in
     docx_save doc docx_path >>
     logger INFO "تم تطبيق إصلاحات اللغة العربية (Reshape + Bidi) بنجاح" >>
     ret true)
    (fun e =>
       logger ERROR ("خطأ في معالجة النص العربي: " ++ str_exn o e) >>
       ret false).

(** *** The engines *)

(** [Converter(pdf_path)], [cv.convert(docx_path, multi_processing=False)],
    [cv.close()]. *)
Definition run_pdf2docx (pdf_path docx_path : string) : M unit :=
  record (CallEngine "standard") >>
  let* data := read_file UPLOAD_FOLDER pdf_path in
  match pdf2docx_convert o data with
  | EngRaise detail => raise (EngineError detail)
  | EngDone None => ret tt
  | EngDone (Some bytes) => write_file CONVERTED_FOLDER docx_path bytes
  end.

(** [ap.Document(pdf_path)]. *)
Definition aspose_load (pdf_path : string) : M string :=
  record (CallEngine "high_quality") >>
  let* data := read_file UPLOAD_FOLDER pdf_path in
  match aspose_load_fault o data with
  | Some detail => raise (EngineError detail)
  | None => ret data
  end.

(** [document.save(docx_path, save_options)], [document.close()]. *)
Definition aspose_save (data docx_path : string) : M unit :=
  match aspose_convert o data with
  | EngRaise detail => raise (EngineError detail)
  | EngDone None => ret tt
  | EngDone (Some bytes) => write_file CONVERTED_FOLDER docx_path bytes
  end.

(** The four copies of
    [if apply_rtl_to_docx(docx_path): logger.info(..) else: logger.warning(..)]. *)
Definition rtl_step (docx_path ok_msg fail_msg : string) : M unit :=
  let* ok := apply_rtl_to_docx docx_path in
  if ok then logger INFO ok_msg else logger WARNING fail_msg.

(** [logger.info(f"...{process.memory_info().rss / 1024 / 1024:.2f} MB")]. *)
Definition memory_log (prefix : string) : M unit :=
  match memory_mb o with
  | Some m => logger INFO (prefix ++ m ++ " MB")
  | None => raise (OSError "psutil")
  end.

(** *** [Stats.get] *)

Definition Stats_get : M stats_response :=
  let memory_usage :=
    match memory_mb o with Some m => m ++ " MB" | None => "غير متاح" end in
  let base_count := 1250 in
  let* now := time_time in
  let time_growth := py_int ((now - 1703700000) / 600)%Q in
  (if redis_client cfg then
     try_except
       (let* cached_total := redis_get_total in
        match cached_total with
        | Some real_total => modify (set_stats (put_total real_total))
        | None => ret tt
        end)
       (fun _ => ret tt)
   else ret tt) >>
  let* w := get_world in
  let display_count :=
    base_count + time_growth + total_conversions (conversion_stats w) in
  let* now' := datetime_now in
  ret (StatsResponse (conversion_stats w) display_count (cache_available cfg)
                     (now' - app_start_time)%Q memory_usage).

(** *** [Convert.post] *)

(** Lines 442-444: the form field, defaulted and normalised. *)
Definition engine_field (req : request) : string :=
  let engine := default "standard" (form_engine req) in
  if bool_decide (engine ∈ ["standard"; "high_quality"]) then engine
  else "standard".

Definition set_engine (engine : string) : M unit :=
  modify (set_locals (fun f => Frame (Some engine) (v_pdf_path f))).
Definition set_pdf_path (pdf_path : string) : M unit :=
  modify (set_locals (fun f => Frame (v_engine f) (Some pdf_path))).

(** [if os.path.exists(pdf_path): os.remove(pdf_path)]. *)
Definition remove_if_exists (d : folder_id) (name : string) : M unit :=
  let* ex := path_exists d name in
  if ex then os_remove d name else ret tt.

(** [update_stats(False, engine, time.time() - start_time)]. *)
Definition record_failure (engine : string) (start_time : Q) : M unit :=
  let* t := time_time in
  update_stats false engine (t - start_time)%Q.

(** [file.save(pdf_path)]. *)
Definition file_save (file : file_storage) (pdf_path : string) : M unit :=
  match save_fault o with
  | Some detail => raise (OSError detail)
  | None => write_file UPLOAD_FOLDER pdf_path (content file)
  end.

(** Line 471: [safe_filename.rsplit('.', 1)[0] + '.docx']. *)
Definition docx_name (safe_filename : string) : string :=
  hd EmptyString (PyStr.rsplit1 "." safe_filename) ++ ".docx".

(** Lines 474-551: choose the engine and convert.  The value is the pair of
    the variables [engine] (rewritten by the fallback branches) and
    [success] as they stand at line 553. *)
Definition engine_stage (start_time : Q) (engine safe_filename : string)
    : M (string * bool) :=
  let pdf_path := safe_filename in
  let docx_path := docx_name safe_filename in
  if String.eqb engine "high_quality" && ASPOSE_AVAILABLE cfg then
    memory_log "الذاكرة قبل التحويل (Aspose): " >>
    logger INFO "محرك Aspose: تحميل الملف..." >>
    try_except
      (let* document := aspose_load pdf_path in
       logger INFO "محرك Aspose: الملف محمل، بدء الحفظ كـ DOCX..." >>
       aspose_save document docx_path >>
       rtl_step docx_path "تم تطبيق إعدادات RTL بنجاح (Aspose)"
                          "فشل في تطبيق إعدادات RTL (Aspose)" >>
       logger INFO "محرك Aspose: اكتمل الحفظ." >>
       memory_log "الذاكرة بعد التحويل (Aspose): " >>
       ret (engine, true))
      (fun asp_e =>
         logger ERROR ("خطأ في محرك Aspose: " ++ str_exn o asp_e) >>
         raise (Exception_ ("خطأ في محرك الجودة العالية: " ++ str_exn o asp_e)))
  else if String.eqb engine "standard" && PDF2DOCX_AVAILABLE cfg then
    logger INFO "استخدام محرك pdf2docx القياسي" >>
    run_pdf2docx pdf_path docx_path >>
    rtl_step docx_path "تم تطبيق إعدادات RTL بنجاح"
                       "فشل في تطبيق إعدادات RTL" >>
    ret (engine, true)
  else if PDF2DOCX_AVAILABLE cfg then
    logger WARNING "المحرك المطلوب غير متوفر، استخدام pdf2docx كبديل" >>
    run_pdf2docx pdf_path docx_path >>
    rtl_step docx_path "تم تطبيق إعدادات RTL بنجاح (بديل)"
                       "فشل في تطبيق إعدادات RTL (بديل)" >>
    set_engine "standard" >>
    ret ("standard", true)
  else if ASPOSE_AVAILABLE cfg then
    logger WARNING "المحرك المطلوب غير متوفر، استخدام Aspose كبديل" >>
    let* document := aspose_load pdf_path in
    aspose_save document docx_path >>
    rtl_step docx_path "تم تطبيق إعدادات RTL بنجاح (Aspose بديل)"
                       "فشل في تطبيق إعدادات RTL (Aspose بديل)" >>
    set_engine "high_quality" >>
    ret ("high_quality", true)
  else
    record_failure engine start_time >>
    abort 503 "لا يوجد محرك تحويل متوفر حالياً.".

(** Lines 553-580: check the output, store it in the cache, delete the
    upload, record the success, answer. *)
Definition post_finish (start_time : Q) (file_hash safe_filename : string)
    (chosen : string * bool) : M response :=
  let engine := fst chosen in
  let success := snd chosen in
  let pdf_path := safe_filename in
  let docx_filename := docx_name safe_filename in
  let docx_path := docx_filename in
  let* produced := path_exists CONVERTED_FOLDER docx_path in
  (if negb produced || negb success then
     record_failure engine start_time >>
     remove_if_exists UPLOAD_FOLDER pdf_path >>
     abort 500 "فشل في إنشاء ملف Word"
   else ret tt) >>
  set_cached_result file_hash engine docx_filename >>
  remove_if_exists UPLOAD_FOLDER pdf_path >>
  let* t := time_time in
  let processing_time := (t - start_time)%Q in
  update_stats true engine processing_time >>
  logger INFO ("تم التحويل بنجاح في " ++ format_2f o processing_time ++ " ثانية") >>
  ret (Response true "تم التحويل بنجاح!" docx_filename engine
                ("/download/" ++ docx_filename)
                (Some (format_2f o processing_time ++ "s")) false).

(** Lines 470-580. *)
Definition post_convert (start_time : Q)
    (file_hash engine safe_filename : string) : M response :=
  let* chosen := engine_stage start_time engine safe_filename in
  post_finish start_time file_hash safe_filename chosen.

(** Lines 453-468: consult the cache; answer from it, or go on to convert. *)
Definition post_cached (start_time : Q)
    (file_hash engine safe_filename : string) : M response :=
  let* cached_result := get_cached_result file_hash engine in
  let* hit :=
    match cached_result with
    | Some name =>
        if PyStr.truthy name then path_exists CONVERTED_FOLDER name
        else ret false
    | None => ret false
    end in
  match hit, cached_result with
  | true, Some cached_result =>
      logger INFO "تم استخدام النتيجة المحفوظة" >>
      let* t := time_time in
      let processing_time := (t - start_time)%Q in
      update_stats true engine processing_time >>
      ret (Response true "تم التحويل بنجاح! (من التخزين المؤقت)" cached_result
                    engine ("/download/" ++ cached_result) None true)
  | _, _ => post_convert start_time file_hash engine safe_filename
  end.

(** Lines 427-452: validation and upload, then the rest of the [try]
    block. *)
Definition post_try (req : request) (start_time : Q) : M response :=
  let* file :=
    match files_file req with
    | None =>
        record_failure "unknown" start_time >>
        abort 400 "لم يتم إرسال أي ملف!"
    | Some file => ret file
    end in
  (if String.eqb (filename file) EmptyString then
     record_failure "unknown" start_time >>
     abort 400 "لم يتم اختيار ملف!"
   else ret tt) >>
  (if negb (allowed_file (filename file)) then
     record_failure "unknown" start_time >>
     abort 400 "نوع الملف غير مسموح. يرجى رفع ملفات PDF فقط."
   else ret tt) >>
  let engine := engine_field req in
  set_engine engine >>
  logger INFO ("بدء عملية التحويل باستخدام المحرك: " ++ engine) >>
  let safe_filename := clean_filename (filename file) in
  let pdf_path := safe_filename in
  set_pdf_path pdf_path >>
  file_save file pdf_path >>
  let* file_hash := get_file_hash pdf_path in
  post_cached start_time file_hash engine safe_filename.

(** Lines 582-588: the [except Exception as e] clause. *)
Definition post_except (start_time : Q) (e : exn) : M response :=
  let* t := time_time in
  let processing_time := (t - start_time)%Q in
  logger ERROR ("خطأ في التحويل: " ++ str_exn o e) >>
  (let* w := get_world in
   match v_pdf_path (locals w) with
   | Some pdf_path => remove_if_exists UPLOAD_FOLDER pdf_path
   | None => ret tt
   end) >>
  (let* w := get_world in
   update_stats false (default "unknown" (v_engine (locals w))) processing_time) >>
  abort 500 (str_exn o e).

(** [Convert.post], the body of the handler; the rate limit and the
    marshalling of its decorators act outside it. *)
Definition post (req : request) : M response :=
  let* start_time := time_time in
  modify (set_locals (fun _ => Frame None None)) >>
  try_except (post_try req start_time) (post_except start_time).

(** [convert_pdf_to_word_legacy]. *)
Definition convert_pdf_to_word_legacy (req : request) : M response := post req.

(** *** [delete_old_files] *)




(** *** Error handlers *)

(** [internal_server_error(error)]: body fields [success], [error], [code],
    and the status. *)
Definition internal_server_error (error : exn) : (bool * string * Z) * Z :=
  ((false, "خطأ داخلي: " ++ str_exn o error, 500), 500).

(** [handle_unexpected_error(error)]: an [HTTPException] is passed through
    ([inl]); anything else gets the fixed message. *)
Definition handle_unexpected_error (error : exn) : exn + (bool * string * Z) * Z :=
  match error with
  | HTTPException _ _ => inl error
  | _ => inr ((false, "حدث خطأ غير متوقع. يرجى المحاولة لاحقاً.", 500), 500)
  end.

End Handlers.

(** ** What the caller sees *)

(** Status line of the answer: a returned dictionary is a 200, an
    [HTTPException] carries its own code, and any other exception leaving the
    handler is turned into a 500 by the framework (and by
    [handle_unexpected_error]). *)
Definition http_status {A} (r : result A) : Z :=
  match r with
  | Ok _ => 200
  | Raise (HTTPException code _) => code
  | Raise _ => 500
  end.

Definition client_error (code : Z) : Prop := 400 <= code < 500.

(** The [message] placed in the body of an aborted request. *)
Definition delivered_message {A} (r : result A) : option string :=
  match r with
  | Raise (HTTPException _ message) => Some message
  | _ => None
  end.

(** The engine invocations among a list of calls. *)
Definition engines_run (l : list call) : list string :=
  omap (fun c => match c with CallEngine e => Some e | _ => None end) l.

(** The [update_stats] invocations among a list of calls. *)
Definition stats_updates (l : list call) : list (bool * string) :=
  omap (fun c => match c with CallUpdateStats b e => Some (b, e) | _ => None end) l.

(** ** Vocabulary of the statements *)

(** The three validation tests of lines 428-439. *)
Definition rejected (req : request) : bool :=
  match files_file req with
  | None => true
  | Some file =>
      String.eqb (filename file) EmptyString || negb (allowed_file (filename file))
  end.

(** An exception that the caller receives as a 500. *)
Definition unexpected (e : exn) : Prop :=
  match e with HTTPException code _ => code = 500 | _ => True end.

(** The branch taken by the conditionals of lines 477-551, as the name of the
    engine that is run. *)
Definition select_engine (cfg : config) (engine : string) : option string :=
  if String.eqb engine "high_quality" && ASPOSE_AVAILABLE cfg then Some "high_quality"
  else if String.eqb engine "standard" && PDF2DOCX_AVAILABLE cfg then Some "standard"
  else if PDF2DOCX_AVAILABLE cfg then Some "standard"
  else if ASPOSE_AVAILABLE cfg then Some "high_quality"
  else None.

Definition engine_available (cfg : config) (engine : string) : bool :=
  if String.eqb engine "high_quality" then ASPOSE_AVAILABLE cfg
  else if String.eqb engine "standard" then PDF2DOCX_AVAILABLE cfg
  else false.

Definition alternative (engine : string) : string :=
  if String.eqb engine "high_quality" then "standard" else "high_quality".

(** The bytes an engine writes for an input, [None] when it raises or
    returns without writing. *)
Definition engine_output (o : oracle) (engine data : string) : option string :=
  if String.eqb engine "standard" then
    match pdf2docx_convert o data with
    | EngDone out => out
    | EngRaise _ => None
    end
  else
    match aspose_load_fault o data, aspose_convert o data with
    | None, EngDone out => out
    | _, _ => None
    end.

(** The lookup of [key] gives a request started in [w] nothing to serve:
    the cache is switched off, or it answers and whatever value is live at
    the lookup (the request's second clock reading) names no file of the
    converted folder. *)
Definition lookup_misses (cfg : config) (o : oracle) (w : world) (key : string) : Prop :=
  cache_available cfg && redis_client cfg = false \/
  (redis_get_fault o = None /\
   forall v, live_value (clock o (S (tick w))) (redis_kv w) key = Some v ->
             PyStr.truthy v = true -> fexists v (converted w) = false).


(** The world in which [Convert.post] consults the cache: the clock was read
    once, the locals are bound, the start is logged and the upload is on
    disk. *)
Definition uploaded (o : oracle) (req : request) (file : file_storage)
    (w : world) : world :=
  let engine := engine_field req in
  let safe := clean_filename o (filename file) in
  set_uploads (fwrite safe (FEntry true (clock o (S (tick w))) (content file)))
    (set_locals (fun _ => Frame (Some engine) (Some safe))
       (set_log (fun l =>
                   (l ++ [(INFO, ("بدء عملية التحويل باستخدام المحرك: " ++ engine)%string)])%list)
          (set_tick S w))).



(** A computation leaves the observation [proj] of the world alone. *)
Definition stable {P A} (proj : world -> P) (c : M A) : Prop :=
  forall w, proj (snd (c w)) = proj w.

(** ** A concrete deployment, for running the handlers *)

Module Scenario.

(** The literal that initialises [conversion_stats]. *)
Definition initial_stats : stats :=
  Stats 0 0 0 0
    (list_to_map [("standard", 0); ("high_quality", 0); ("pdf_to_image", 0);
                  ("image_to_pdf", 0); ("merge_pdf", 0); ("compress_pdf", 0)]).

(** A freshly started process with empty folders and an empty Redis. *)
Definition fresh : world :=
  World initial_stats [] [] ∅ None [] 0 [] (Frame None None).

(** Collaborators that all work: the clock advances one second per
    reading from 2025-11-03, both engines write an output. *)
Definition healthy : oracle :=
  Oracle (fun k => inject_Z (1762200000 + Z.of_nat k))
         (fun code => "HTTP " ++ (if Z.eqb code 400 then "400" else
                                  if Z.eqb code 503 then "503" else "500"))
         (fun name => name) "0a1b2c3d" (fun data => "md5(" ++ data ++ ")")
         None (fun _ _ => None) None None None
         (fun data => EngDone (Some ("pdf2docx(" ++ data ++ ")")))
         (fun _ => None)
         (fun data => EngDone (Some ("aspose(" ++ data ++ ")")))
         (fun _ => Some [Paragraph ["نص"] []]) (fun _ => "docx") None
         (fun text => Some text) (fun _ => false) (Some "42.00")
         (fun _ => "1.00").

(** The same collaborators with one of them replaced. *)
Definition with_clock (f : nat -> Q) (o : oracle) : oracle :=
  Oracle f (http_str o) (secure_filename o) (uuid8 o) (md5_hexdigest o)
         (save_fault o) (remove_fault o) (redis_get_fault o)
         (redis_setex_fault o) (redis_incr_fault o) (pdf2docx_convert o)
         (aspose_load_fault o) (aspose_convert o) (docx_parse o)
         (docx_render o) (docx_save_fault o) (reshape o) (is_blank o)
         (memory_mb o) (format_2f o).
Definition with_remove_fault (f : folder_id -> string -> option string)
    (o : oracle) : oracle :=
  Oracle (clock o) (http_str o) (secure_filename o) (uuid8 o) (md5_hexdigest o)
         (save_fault o) f (redis_get_fault o)
         (redis_setex_fault o) (redis_incr_fault o) (pdf2docx_convert o)
         (aspose_load_fault o) (aspose_convert o) (docx_parse o)
         (docx_render o) (docx_save_fault o) (reshape o) (is_blank o)
         (memory_mb o) (format_2f o).
Definition with_redis_get_fault (f : option string) (o : oracle) : oracle :=
  Oracle (clock o) (http_str o) (secure_filename o) (uuid8 o) (md5_hexdigest o)
         (save_fault o) (remove_fault o) f
         (redis_setex_fault o) (redis_incr_fault o) (pdf2docx_convert o)
         (aspose_load_fault o) (aspose_convert o) (docx_parse o)
         (docx_render o) (docx_save_fault o) (reshape o) (is_blank o)
         (memory_mb o) (format_2f o).
Definition with_redis_setex_fault (f : option string) (o : oracle) : oracle :=
  Oracle (clock o) (http_str o) (secure_filename o) (uuid8 o) (md5_hexdigest o)
         (save_fault o) (remove_fault o) (redis_get_fault o)
         f (redis_incr_fault o) (pdf2docx_convert o)
         (aspose_load_fault o) (aspose_convert o) (docx_parse o)
         (docx_render o) (docx_save_fault o) (reshape o) (is_blank o)
         (memory_mb o) (format_2f o).
Definition with_pdf2docx (f : string -> engine_result) (o : oracle) : oracle :=
  Oracle (clock o) (http_str o) (secure_filename o) (uuid8 o) (md5_hexdigest o)
         (save_fault o) (remove_fault o) (redis_get_fault o)
         (redis_setex_fault o) (redis_incr_fault o) f
         (aspose_load_fault o) (aspose_convert o) (docx_parse o)
         (docx_render o) (docx_save_fault o) (reshape o) (is_blank o)
         (memory_mb o) (format_2f o).
Definition with_docx_parse (f : string -> option document) (o : oracle) : oracle :=
  Oracle (clock o) (http_str o) (secure_filename o) (uuid8 o) (md5_hexdigest o)
         (save_fault o) (remove_fault o) (redis_get_fault o)
         (redis_setex_fault o) (redis_incr_fault o) (pdf2docx_convert o)
         (aspose_load_fault o) (aspose_convert o) f
         (docx_render o) (docx_save_fault o) (reshape o) (is_blank o)
         (memory_mb o) (format_2f o).

Definition both_engines : config := Config true true true false false.
Definition only_pdf2docx : config := Config true false true false false.
Definition with_cache : config := Config true true true true true.

Definition cached_pdf2docx_only : config := Config true false true true true.

Definition upload (name : string) (engine : option string) : request :=
  Request (Some (FileStorage name "%PDF-1.7")) engine.

(** A world in which the sample bytes were converted sixteen minutes ago
    by [engine]: the artifact is in the converted folder and the cache
    entry has some forty minutes left. *)
Definition old_artifact : fentry :=
  FEntry true (inject_Z 1762199000) "converted earlier".
Definition warm (engine : string) : world :=
  World initial_stats [] [("old_11aa22bb.docx", old_artifact)]
        {[ cache_key (md5_hexdigest healthy "%PDF-1.7") engine :=
             ("old_11aa22bb.docx", inject_Z 1762202600) ]}
        None [] 0 [] (Frame None None).

(** The same world after the artifact was deleted. *)
Definition swept (engine : string) : world :=
  World initial_stats [] []
        {[ cache_key (md5_hexdigest healthy "%PDF-1.7") engine :=
             ("old_11aa22bb.docx", inject_Z 1762202600) ]}
        None [] 0 [] (Frame None None).


(** The dictionary a run returned ([success = False] stands for none). *)
Definition answer (out : result response * world) : response :=
  match fst out with
  | Ok r => r
  | Raise _ => Response false EmptyString EmptyString EmptyString EmptyString
                        None false
  end.

End Scenario.


(** ** Further vocabulary *)









(** ** The other endpoints *)

(** [str(n)] for an integer. *)
Definition str_int (n : Z) : string := NilZero.string_of_int (Z.to_int n).

(** [s.endswith(suffix)]. *)
Definition endswith (s suffix : string) : bool :=
  if Nat.ltb (String.length s) (String.length suffix) then false
  else String.eqb (PyStr.drop (String.length s - String.length suffix) s) suffix.

(** [s.split(c)]: the segments between the occurrences of [c], never an
    empty list. *)
Fixpoint split (c : ascii) (s : string) : list string :=
  match s with
  | EmptyString => [EmptyString]
  | String a s' =>
      if Ascii.eqb a c then EmptyString :: split c s'
      else match split c s' with
           | seg :: rest => String a seg :: rest
           | [] => [String a EmptyString]
           end
  end.

(** [s.lower().split('.')[-1]]. *)
Definition last_extension (s : string) : string :=
  List.last (split "." (PyStr.lower s)) EmptyString.

(** [try: c  finally: f]: [f] runs whatever [c] did, and an exception of
    [f] replaces the outcome of [c]. *)
Definition try_finally {A} (c : M A) (f : M unit) : M A :=
  fun w => match c w with
           | (r, w1) =>
               match f w1 with
               | (Ok _, w2) => (r, w2)
               | (Raise e, w2) => (Raise e, w2)
               end
           end.

(** PyMuPDF and Pillow, as the tool endpoints use them. *)
Record tools := Tools {
  fitz : bool;                               (* the module [fitz] was imported *)
  fitz_open_fault : string -> option string; (* [fitz.open(path)] raising on these bytes *)
  fitz_save : string -> engine_result;       (* [doc.save(path, garbage=4, deflate=True)] *)
  page_count : string -> nat;                (* [len(doc)] *)
  page_jpg : string -> nat -> string + string;
                                             (* [load_page(i).get_pixmap(..).tobytes("jpg")]:
                                                the exception text, or the image *)
  zip_bytes : list (string * string) -> string;  (* the archive of these entries *)
  insert_fault : string -> option string;    (* [fitz.open(path)] or [result.insert_pdf]
                                                raising on these bytes *)
  merge_save : list string -> engine_result; (* [result.save(path)] of the inserted
                                                documents *)
  image_open : string -> option string;      (* [Image.open(path)] and [convert('RGB')];
                                                [None] when either raises *)
  images_save : list string -> engine_result; (* [images[0].save(path, save_all=True,
                                                  append_images=images[1:])] *)
  uuid_seq : nat -> string                   (* the uuid drawn for the i-th file of a
                                                request with several files *)
}.

(** The same collaborators with another draw of [uuid.uuid4()]. *)
Definition with_uuid (u : string) (o : oracle) : oracle :=
  Oracle (clock o) (http_str o) (secure_filename o) u (md5_hexdigest o)
         (save_fault o) (remove_fault o) (redis_get_fault o)
         (redis_setex_fault o) (redis_incr_fault o) (pdf2docx_convert o)
         (aspose_load_fault o) (aspose_convert o) (docx_parse o)
         (docx_render o) (docx_save_fault o) (reshape o) (is_blank o)
         (memory_mb o) (format_2f o).

(** The dictionary returned by the tool endpoints. *)
Record tool_response := ToolResponse {
  t_success : bool;
  t_message : string;
  t_download_url : string;
  t_filename : string
}.

(** [request.files.getlist('file')]. *)
Record multi_request := MultiRequest {
  files_list : list file_storage
}.

(** [fitz.open(path)] on a file of the upload folder; the value stands for
    the open document. *)
Definition fitz_open (t : tools) (name : string) : M string :=
  fun w => match flookup name (uploads w) with
           | None => (Raise (OSError ("no such file: " ++ name)), w)
           | Some e =>
               match fitz_open_fault t (f_data e) with
               | Some detail => (Raise (EngineError detail), w)
               | None => (Ok (f_data e), w)
               end
           end.

(** Writing what a saving call produced into the converted folder. *)
Definition save_output (o : oracle) (r : engine_result) (name : string) : M unit :=
  match r with
  | EngRaise detail => raise (EngineError detail)
  | EngDone None => ret tt
  | EngDone (Some bytes) => write_file o CONVERTED_FOLDER name bytes
  end.

(** The [except Exception as e] clause shared by [CompressPDF.post] and
    [MergePDF.post]. *)
Definition tool_except (cfg : config) (o : oracle) (operation : string)
    (start_time : Q) (e : exn) : M tool_response :=
  let* now := time_time o in
  update_stats cfg o false operation (now - start_time)%Q >>
  abort 500 (str_exn o e).

(** *** [CompressPDF.post] *)

Definition CompressPDF_post (cfg : config) (o : oracle) (t : tools)
    (req : request) : M tool_response :=
  (if negb (fitz t) then abort 503 "محرك معالجة PDF غير متوفر حالياً." else ret tt) >>
  let* start_time := time_time o in
  try_except
    (let* file :=
       match files_file req with
       | None => abort 400 "لم يتم إرسال الملف."
       | Some file => ret file
       end in
     let safe_filename := clean_filename o (filename file) in
     let pdf_path := safe_filename in
     file_save o file pdf_path >>
     let output_filename := "compressed_" ++ safe_filename in
     let* doc := fitz_open t pdf_path in
     save_output o (fitz_save t doc) output_filename >>
     remove_if_exists o UPLOAD_FOLDER pdf_path >>
     let* now := time_time o in
     update_stats cfg o true "compress_pdf" (now - start_time)%Q >>
     ret (ToolResponse true "تم ضغط الملف بنجاح!"
                       ("/download/" ++ output_filename) output_filename))
    (tool_except cfg o "compress_pdf" start_time).

(** *** [ConvertToImage.post] *)

(** [f"page_{i+1}.jpg"]. *)
Definition page_name (i : nat) : string :=
  "page_" ++ str_int (Z.of_nat i + 1) ++ ".jpg".

(** The loop inside [with zipfile.ZipFile(zip_path, 'w') as zipf]: the
    entries written before the first page that raises, and that page's
    exception text if there is one. *)
Fixpoint zip_pages (t : tools) (doc : string) (i todo : nat)
    (written : list (string * string)) : list (string * string) * option string :=
  match todo with
  | O => (written, None)
  | S todo' =>
      match page_jpg t doc i with
      | inl detail => (written, Some detail)
      | inr img_data =>
          zip_pages t doc (S i) todo'
            (written ++ [(page_name i, img_data)])%list
      end
  end.

(** The [with] block: leaving it, normally or not, closes the archive, which
    then holds the entries written so far. *)
Definition write_zip (o : oracle) (t : tools) (doc zip_filename : string) : M unit :=
  let '(written, failure) := zip_pages t doc 0 (page_count t doc) [] in
  write_file o CONVERTED_FOLDER zip_filename (zip_bytes t written) >>
  match failure with
  | Some detail => raise (EngineError detail)
  | None => ret tt
  end.

(** Lines 604-606: the test on the uploaded name. *)
Definition not_a_pdf (file : file_storage) : bool :=
  String.eqb (filename file) EmptyString ||
  negb (endswith (PyStr.lower (filename file)) ".pdf").

Definition ConvertToImage_post (cfg : config) (o : oracle) (t : tools)
    (req : request) : M tool_response :=
  (if negb (fitz t) then abort 503 "محرك معالجة PDF غير متوفر حالياً." else ret tt) >>
  let* start_time := time_time o in
  try_except
    (let* file :=
       match files_file req with
       | None => abort 400 "لم يتم إرسال أي ملف!"
       | Some file => ret file
       end in
     (if not_a_pdf file then abort 400 "يرجى رفع ملف PDF صالح." else ret tt) >>
     let safe_filename := clean_filename o (filename file) in
     let pdf_path := safe_filename in
     file_save o file pdf_path >>
     let zip_filename := hd EmptyString (PyStr.rsplit1 "." safe_filename) ++ ".zip" in
     try_finally
       (try_except
          (let* doc := fitz_open t pdf_path in
           write_zip o t doc zip_filename >>
           let* now := time_time o in
           update_stats cfg o true "pdf_to_image" (now - start_time)%Q >>
           ret (ToolResponse true "تم تحويل الملف إلى صور بنجاح!"
                             ("/download/" ++ zip_filename) zip_filename))
          (fun e =>
             logger ERROR ("خطأ في تحويل PDF إلى صور: " ++ str_exn o e) >>
             let* now := time_time o in
             update_stats cfg o false "pdf_to_image" (now - start_time)%Q >>
             abort 500 "فشل في تحويل الملف."))
       (remove_if_exists o UPLOAD_FOLDER pdf_path))
    (fun e => abort 500 (str_exn o e)).

(** *** [MergePDF.post] *)

(** The loop over the uploaded files, from the [i]-th on: the value is the
    pair of [temp_files] and the documents inserted into [result]. *)
Fixpoint merge_loop (o : oracle) (t : tools) (i : nat) (files : list file_storage)
    (temp_files inserted : list string) : M (list string * list string) :=
  match files with
  | [] => ret (temp_files, inserted)
  | file :: files' =>
      if endswith (PyStr.lower (filename file)) ".pdf" then
        let safe_name := clean_filename (with_uuid (uuid_seq t i) o) (filename file) in
        file_save o file safe_name >>
        let* mfile :=
          try_except
            (let* data := read_file UPLOAD_FOLDER safe_name in
             match insert_fault t data with
             | Some detail => raise (EngineError detail)
             | None => ret (Some data)
             end)
            (fun _ => ret None) in
        merge_loop o t (S i) files' (temp_files ++ [safe_name])%list
          (match mfile with
           | Some data => (inserted ++ [data])%list
           | None => inserted
           end)
      else merge_loop o t (S i) files' temp_files inserted
  end.

Definition MergePDF_post (cfg : config) (o : oracle) (t : tools)
    (req : multi_request) : M tool_response :=
  (if negb (fitz t) then abort 503 "محرك معالجة PDF غير متوفر حالياً." else ret tt) >>
  let* start_time := time_time o in
  try_except
    (let files := files_list req in
     (if Nat.ltb (length files) 2
      then abort 400 "يرجى اختيار ملفين PDF على الأقل للدمج."
      else ret tt) >>
     let* collected := merge_loop o t 0 files [] [] in
     let temp_files := fst collected in
     let* now := time_time o in
     let output_filename := "merged_" ++ str_int (py_int now) ++ ".pdf" in
     save_output o (merge_save t (snd collected)) output_filename >>
     for_each temp_files (remove_if_exists o UPLOAD_FOLDER) >>
     let* now' := time_time o in
     update_stats cfg o true "merge_pdf" (now' - start_time)%Q >>
     ret (ToolResponse true "تم دمج الملفات بنجاح!"
                       ("/download/" ++ output_filename) output_filename))
    (tool_except cfg o "merge_pdf" start_time).

(** *** [ConvertFromImage.post] *)

(** The loop over the uploaded files: [temp_files] and [images]. *)
Fixpoint image_loop (o : oracle) (t : tools) (i : nat) (files : list file_storage)
    (temp_files images : list string) : M (list string * list string) :=
  match files with
  | [] => ret (temp_files, images)
  | file :: files' =>
      if bool_decide (last_extension (filename file) ∈ ["jpg"; "jpeg"; "png"]) then
        let safe_name := clean_filename (with_uuid (uuid_seq t i) o) (filename file) in
        file_save o file safe_name >>
        let* img :=
          try_except
            (let* data := read_file UPLOAD_FOLDER safe_name in
             match image_open t data with
             | Some img => ret (Some img)
             | None => raise (OSError "cannot identify image file")
             end)
            (fun _ =>
               logger WARNING ("صورة غير صالحة: " ++ safe_name) >>
               ret None) in
        image_loop o t (S i) files' (temp_files ++ [safe_name])%list
          (match img with
           | Some img => (images ++ [img])%list
           | None => images
           end)
      else image_loop o t (S i) files' temp_files images
  end.

Definition ConvertFromImage_post (cfg : config) (o : oracle) (t : tools)
    (req : multi_request) : M tool_response :=
  let* start_time := time_time o in
  try_except
    (let files := files_list req in
     (if match files with
         | [] => true
         | file :: _ => String.eqb (filename file) EmptyString
         end
      then abort 400 "لم يتم اختيار أي صور!"
      else ret tt) >>
     let* collected := image_loop o t 0 files [] [] in
     let temp_files := fst collected in
     let images := snd collected in
     (if match images with [] => true | _ => false end
      then abort 400 "لم يتم العثور على صور صالحة."
      else ret tt) >>
     let* now := time_time o in
     let pdf_filename := "images_merged_" ++ str_int (py_int now) ++ ".pdf" in
     save_output o (images_save t images) pdf_filename >>
     for_each temp_files (remove_if_exists o UPLOAD_FOLDER) >>
     let* now' := time_time o in
     update_stats cfg o true "image_to_pdf" (now' - start_time)%Q >>
     ret (ToolResponse true "تم دمج الصور في PDF بنجاح!"
                       ("/download/" ++ pdf_filename) pdf_filename))
    (fun e =>
       logger ERROR ("خطأ في تحويل الصور إلى PDF: " ++ str_exn o e) >>
       let* now := time_time o in
       update_stats cfg o false "image_to_pdf" (now - start_time)%Q >>
       abort 500 (str_exn o e)).

(** *** [download_file] *)

(** What [_download] returns: the 404 answer, the attachment built by
    [send_file], or the 500 answer of its [except] clause. *)
Inductive download_answer :=
| NotFound
| Attachment (download_name mimetype data : string)
| Failed (error : string).

Definition download_status (a : download_answer) : Z :=
  match a with
  | NotFound => 404
  | Attachment _ _ _ => 200
  | Failed _ => 500
  end.

(** Lines 823-830. *)
Definition mimetype_of (safe_filename : string) : string :=
  let ext := last_extension safe_filename in
  if String.eqb ext "pdf" then "application/pdf"
  else if String.eqb ext "zip" then "application/zip"
  else if String.eqb ext "docx" then
    "application/vnd.openxmlformats-officedocument.wordprocessingml.document"
  else "application/octet-stream".

(** [send_file(file_path, ..)]: a path that is not a regular file cannot
    be sent. *)
Definition send_file (name mimetype : string) : M download_answer :=
  fun w => match flookup name (converted w) with
           | Some e =>
               if f_isfile e then (Ok (Attachment name mimetype (f_data e)), w)
               else (Raise (OSError ("Is a directory: " ++ name)), w)
           | None => (Raise (OSError ("No such file or directory: " ++ name)), w)
           end.

Definition download_file (o : oracle) (filename : string) : M download_answer :=
  try_except
    (let safe_filename := secure_filename o filename in
     let* found := path_exists CONVERTED_FOLDER safe_filename in
     if negb found then ret NotFound
     else send_file safe_filename (mimetype_of safe_filename))
    (fun e => ret (Failed (str_exn o e))).

(** Sample collaborators for the tool endpoints: every document has two
    pages and every call works. *)
Definition sample_tools : tools :=
  Tools true (fun _ => None)
        (fun data => EngDone (Some ("deflate(" ++ data ++ ")")))
        (fun _ => 2%nat) (fun data i => inr ("jpg(" ++ data ++ ")"))
        (fun entries => String.concat "," (map fst entries))
        (fun _ => None)
        (fun docs => EngDone (Some (String.concat "+" docs)))
        (fun data => Some ("rgb(" ++ data ++ ")"))
        (fun images => EngDone (Some (String.concat "+" images)))
        (fun i => "0000000" ++ str_int (Z.of_nat i)).

(** The same tools with one of them replaced. *)
Definition with_fitz_open_fault (f : string -> option string) (t : tools) : tools :=
  Tools (fitz t) f (fitz_save t) (page_count t) (page_jpg t) (zip_bytes t)
        (insert_fault t) (merge_save t) (image_open t) (images_save t) (uuid_seq t).
Definition with_page_jpg (f : string -> nat -> string + string) (t : tools) : tools :=
  Tools (fitz t) (fitz_open_fault t) (fitz_save t) (page_count t) f (zip_bytes t)
        (insert_fault t) (merge_save t) (image_open t) (images_save t) (uuid_seq t).
Definition with_insert_fault (f : string -> option string) (t : tools) : tools :=
  Tools (fitz t) (fitz_open_fault t) (fitz_save t) (page_count t) (page_jpg t)
        (zip_bytes t) f (merge_save t) (image_open t) (images_save t) (uuid_seq t).
Definition with_merge_save (f : list string -> engine_result) (t : tools) : tools :=
  Tools (fitz t) (fitz_open_fault t) (fitz_save t) (page_count t) (page_jpg t)
        (zip_bytes t) (insert_fault t) f (image_open t) (images_save t) (uuid_seq t).
Definition with_image_open (f : string -> option string) (t : tools) : tools :=
  Tools (fitz t) (fitz_open_fault t) (fitz_save t) (page_count t) (page_jpg t)
        (zip_bytes t) (insert_fault t) (merge_save t) f (images_save t) (uuid_seq t).

(** * Reasoning about the handlers *)

(** ** Inversion of successful runs *)

Section Inversion.
Context {A B : Type}.

Lemma bind_ok_inv (c : M A) (k : A -> M B) w b w' :
  bind c k w = (Ok b, w') ->
  exists a w1, c w = (Ok a, w1) /\ k a w1 = (Ok b, w').
Proof.
  unfold bind. destruct (c w) as [[a|e] w1]; [eauto | discriminate].
Qed.

Lemma try_ok_inv (c : M A) (h : exn -> M A) w a w' :
  try_except c h w = (Ok a, w') ->
  c w = (Ok a, w') \/ exists e w1, c w = (Raise e, w1) /\ h e w1 = (Ok a, w').
Proof.
  unfold try_except.
  destruct (c w) as [[a1|e] w1]; [left; congruence | right; eauto].
Qed.

Lemma bind_run (c : M A) (k : A -> M B) w a w1 :
  c w = (Ok a, w1) -> bind c k w = k a w1.
Proof. unfold bind. intros ->. reflexivity. Qed.

Lemma bind_raise (c : M A) (k : A -> M B) w e w1 :
  c w = (Raise e, w1) -> bind c k w = (Raise e, w1).
Proof. unfold bind. intros ->. reflexivity. Qed.
End Inversion.

Ltac inv_bind H :=
  let a := fresh "a" in
  let w := fresh "w" in
  let E := fresh "E" in
  apply bind_ok_inv in H as (a & w & E & H).

(** ** Frame conditions *)

Section Stable.
Context {P : Type} (proj : world -> P).

Lemma stable_ret {A} (a : A) : stable proj (ret a).
Proof. intros w. reflexivity. Qed.

Lemma stable_raise {A} e : stable proj (@raise A e).
Proof. intros w. reflexivity. Qed.

Lemma stable_bind {A B} (c : M A) (k : A -> M B) :
  stable proj c -> (forall a, stable proj (k a)) -> stable proj (bind c k).
Proof.
  intros Hc Hk w. unfold bind. specialize (Hc w).
  destruct (c w) as [[a|e] w1]; cbn in *; [|assumption].
  rewrite Hk. assumption.
Qed.

Lemma stable_try {A} (c : M A) h :
  stable proj c -> (forall e, stable proj (h e)) -> stable proj (try_except c h).
Proof.
  intros Hc Hk w. unfold try_except. specialize (Hc w).
  destruct (c w) as [[a|e] w1]; cbn in *; [assumption|].
  rewrite Hk. assumption.
Qed.

Lemma stable_run {A} (c : M A) w r w1 :
  stable proj c -> c w = (r, w1) -> proj w1 = proj w.
Proof. intros H E. specialize (H w). rewrite E in H. exact H. Qed.
End Stable.

Create HintDb handlers discriminated.
#[export] Hint Unfold memory_log aspose_save apply_rtl_to_docx docx_open docx_save
  rtl_step set_engine set_pdf_path set_cached_result get_cached_result
  remove_if_exists file_save get_file_hash abort : handlers.

(** A primitive is stable for a field it does not write. *)
Ltac prim_stable :=
  let w := fresh "w" in
  intros w; cbv beta iota zeta delta
    [logger modify path_exists os_remove time_time datetime_now read_file
     write_file getmtime isfile listdir redis_get redis_setex redis_get_total
     get_world set_folder folder_of];
  repeat case_match; simplify_eq; reflexivity.

Ltac stable_tac :=
  autounfold with handlers;
  repeat first
    [ apply stable_ret | apply stable_raise
    | apply stable_bind; [|intros ?]
    | apply stable_try; [|intros ?]
    | match goal with
      | |- stable _ (match ?x with _ => _ end) => destruct x
      | |- stable _ (if ?x then _ else _) => destruct x
      end
    | solve [prim_stable] ].

(** [frame proj E]: the run [E] did not change [proj]. *)
Ltac frame proj E :=
  match type of E with
  | ?c ?w = (?r, ?w1) =>
      let S := fresh "S" in
      assert (S : proj w1 = proj w)
        by (apply (stable_run proj c w r w1); [stable_tac | exact E])
  end.

(** ** Folders *)

Lemma flookup_fwrite_eq name e l : flookup name (fwrite name e l) = Some e.
Proof.
  induction l as [|[n e'] l IH]; cbn.
  - rewrite String.eqb_refl. reflexivity.
  - destruct (String.eqb n name) eqn:E; cbn; rewrite E; auto.
Qed.

Lemma flookup_fwrite_ne name name' e l :
  name <> name' -> flookup name' (fwrite name e l) = flookup name' l.
Proof.
  intros Hne. induction l as [|[n e'] l IH]; cbn.
  - apply String.eqb_neq in Hne. rewrite Hne. reflexivity.
  - destruct (String.eqb n name) eqn:E; cbn.
    + apply String.eqb_eq in E. subst n.
      apply String.eqb_neq in Hne. rewrite Hne. reflexivity.
    + destruct (String.eqb n name'); auto.
Qed.

Lemma fexists_fwrite name name' e l :
  fexists name' l = true -> fexists name' (fwrite name e l) = true.
Proof.
  unfold fexists. destruct (String.eqb name name') eqn:E.
  - apply String.eqb_eq in E. subst. rewrite flookup_fwrite_eq. reflexivity.
  - apply String.eqb_neq in E. rewrite flookup_fwrite_ne by assumption. auto.
Qed.

(** ** [update_stats] *)

Lemma update_stats_effect cfg o b e pt w :
  let r := update_stats cfg o b e pt w in
  uploads (snd r) = uploads w /\ converted (snd r) = converted w /\
  redis_kv (snd r) = redis_kv w /\ tick (snd r) = tick w /\
  locals (snd r) = locals w /\
  calls (snd r) = (calls w ++ [CallUpdateStats b e])%list /\
  total_conversions (conversion_stats (snd r)) =
    total_conversions (conversion_stats w) + 1 /\
  (fst r = Ok tt \/ fst r = Raise (KeyError e) \/ fst r = Raise ZeroDivisionError) /\
  (is_Some (engine_usage (conversion_stats w) !! e) ->
   total_conversions (conversion_stats w) <> -1 -> fst r = Ok tt).
Proof.
  unfold update_stats, bind, record, modify, get_world, try_except,
    redis_incr_total, logger, raise, ret.
  cbn.
  destruct b; cbn;
    destruct (engine_usage (conversion_stats w) !! e) eqn:Eu; cbn;
    destruct (redis_client cfg); cbn;
    try destruct (redis_incr_fault o); cbn;
    repeat (match goal with
            | |- context [Z.eqb ?a ?b] => destruct (Z.eqb_spec a b)
            end; cbn);
    repeat split; auto;
    try (intros [? ?]; discriminate); try (intros _ ?; lia).
Qed.

Lemma record_failure_effect cfg o engine start w :
  let r := record_failure cfg o engine start w in
  uploads (snd r) = uploads w /\ converted (snd r) = converted w /\
  redis_kv (snd r) = redis_kv w /\ tick (snd r) = S (tick w) /\
  locals (snd r) = locals w /\
  calls (snd r) = (calls w ++ [CallUpdateStats false engine])%list /\
  total_conversions (conversion_stats (snd r)) =
    total_conversions (conversion_stats w) + 1 /\
  (fst r = Ok tt \/ fst r = Raise (KeyError engine) \/
   fst r = Raise ZeroDivisionError).
Proof.
  unfold record_failure, bind, time_time.
  pose proof (update_stats_effect cfg o false engine
                (clock o (tick w) - start)%Q (set_tick S w)) as H.
  cbn zeta in H.
  destruct (update_stats _ _ _ _ _ _) as [r w']. cbn in *.
  intuition auto.
Qed.

(** ** The [except] clause of [Convert.post] *)

(** Whatever happened, the clause ends in an exception. *)
Lemma post_except_raises cfg o start e w :
  let r := post_except cfg o start e w in
  converted (snd r) = converted w /\
  (exists extra, calls (snd r) = (calls w ++ extra)%list /\ engines_run extra = []) /\
  exists e', fst r = Raise e'.
Proof.
  unfold post_except.
  cbv beta iota zeta delta [bind time_time logger modify get_world ret abort raise].
  cbn [locals set_log set_tick].
  set (w1 := set_log _ _).
  set (cleanup := match v_pdf_path (locals w) with
                  | Some p => remove_if_exists o UPLOAD_FOLDER p
                  | None => fun w => (Ok tt, w)
                  end).
  destruct (cleanup w1) as [r2 w2] eqn:E2.
  assert (F : converted w2 = converted w /\ calls w2 = calls w).
  { subst cleanup. destruct (v_pdf_path (locals w)) as [p|].
    - frame converted E2. frame calls E2. auto.
    - inversion E2; subst. auto. }
  destruct F as (F1 & F2).
  destruct r2 as [[]|e2]; cbn [fst snd].
  - pose proof (update_stats_effect cfg o false
        (default "unknown" (v_engine (locals w2))) (clock o (tick w) - start)%Q w2) as H.
    cbn zeta in H. destruct (update_stats _ _ _ _ _ _) as [r w'].
    cbn [fst snd] in H. destruct H as (_ & H2 & _ & _ & _ & H3 & _).
    destruct r as [[]|e0]; cbn [fst snd]; rewrite H2, H3, F1, F2;
      (split; [reflexivity|]); (split; [eexists; split; [reflexivity|reflexivity]|]);
      eexists; reflexivity.
  - rewrite F1, F2. split; [reflexivity|].
    split; [exists []; rewrite app_nil_r; auto|]. eexists; reflexivity.
Qed.

Lemma post_except_never_ok cfg o start e w r w' :
  post_except cfg o start e w <> (Ok r, w').
Proof.
  intros H. pose proof (post_except_raises cfg o start e w) as P.
  cbn zeta in P. rewrite H in P. destruct P as (_ & _ & e' & P). discriminate.
Qed.

(** When no upload was saved yet, the clause records one more failure and
    leaves both folders alone. *)
Lemma post_except_effect cfg o start e w :
  v_pdf_path (locals w) = None ->
  let r := post_except cfg o start e w in
  uploads (snd r) = uploads w /\ converted (snd r) = converted w /\
  calls (snd r) =
    (calls w ++ [CallUpdateStats false (default "unknown" (v_engine (locals w)))])%list /\
  total_conversions (conversion_stats (snd r)) =
    total_conversions (conversion_stats w) + 1 /\
  exists e', fst r = Raise e' /\ unexpected e'.
Proof.
  intros Hp. unfold post_except.
  cbv beta iota zeta delta [bind time_time logger modify get_world ret abort raise].
  cbn [locals set_log set_tick]. rewrite Hp.
  set (w1 := set_log _ _).
  pose proof (update_stats_effect cfg o false
      (default "unknown" (v_engine (locals w))) (clock o (tick w) - start)%Q w1) as H.
  cbn zeta in H. destruct (update_stats _ _ _ _ _ _) as [r w'].
  cbn in H. cbn [fst snd].
  destruct H as (H1 & H2 & _ & _ & _ & H3 & H4 & H5 & _).
  destruct r as [[]|e0]; cbn; repeat split; auto.
  - eexists; split; [reflexivity|]. reflexivity.
  - eexists; split; [reflexivity|].
    destruct H5 as [H5|[H5|H5]]; inversion H5; exact I.
Qed.

(** A failed validation test: [update_stats(False, 'unknown', ..)], then
    [api.abort], caught by the clause. *)
Lemma reject_then_except cfg o start code msg w :
  locals w = Frame None None ->
  let r := try_except (record_failure cfg o "unknown" start >> abort code msg)
                      (post_except cfg o start) w in
  uploads (snd r) = uploads w /\ converted (snd r) = converted w /\
  calls (snd r) = (calls w ++ [CallUpdateStats false "unknown";
                               CallUpdateStats false "unknown"])%list /\
  total_conversions (conversion_stats (snd r)) =
    total_conversions (conversion_stats w) + 2 /\
  exists e', fst r = Raise e' /\ unexpected e'.
Proof.
  intros Hl. cbv beta iota zeta delta [try_except bind abort raise].
  pose proof (record_failure_effect cfg o "unknown" start w) as H. cbn zeta in H.
  destruct (record_failure _ _ _ _ _) as [r1 w1]. cbn [fst snd] in H.
  destruct H as (Hu & Hc & _ & _ & Hloc & Hcalls & Htot & _).
  assert (Hp : v_pdf_path (locals w1) = None) by (rewrite Hloc, Hl; reflexivity).
  assert (He : default "unknown" (v_engine (locals w1)) = "unknown")
    by (rewrite Hloc, Hl; reflexivity).
  assert (G : forall e, let r := post_except cfg o start e w1 in
     uploads (snd r) = uploads w /\ converted (snd r) = converted w /\
     calls (snd r) = (calls w ++ [CallUpdateStats false "unknown";
                               CallUpdateStats false "unknown"])%list /\
     total_conversions (conversion_stats (snd r)) =
       total_conversions (conversion_stats w) + 2 /\
     exists e', fst r = Raise e' /\ unexpected e').
  { intros e. pose proof (post_except_effect cfg o start e w1 Hp) as H.
    cbn zeta in *. rewrite He in H. destruct H as (H1 & H2 & H3 & H4 & H5).
    rewrite H1, H2, H3, H4, Hu, Hc, Hcalls, Htot, <- app_assoc.
    repeat split; auto. lia. }
  destruct r1 as [[]|e1]; apply G.
Qed.

(** Every request that fails validation ends as an internal error, with
    [update_stats] run twice. *)
Lemma validation_failure cfg o req w :
  rejected req = true ->
  let r := post cfg o req w in
  uploads (snd r) = uploads w /\ converted (snd r) = converted w /\
  calls (snd r) = (calls w ++ [CallUpdateStats false "unknown";
                               CallUpdateStats false "unknown"])%list /\
  total_conversions (conversion_stats (snd r)) =
    total_conversions (conversion_stats w) + 2 /\
  exists e', fst r = Raise e' /\ unexpected e'.
Proof.
  intros Hrej.
  set (w0 := set_locals (fun _ => Frame None None) (set_tick S w)).
  set (start := clock o (tick w)).
  assert (Hl : locals w0 = Frame None None) by reflexivity.
  assert (G : exists code msg,
    post cfg o req w =
    try_except (record_failure cfg o "unknown" start >> abort code msg)
               (post_except cfg o start) w0).
  { unfold rejected in Hrej. unfold post, post_try.
    destruct (files_file req) as [file|].
    - destruct (String.eqb (filename file) EmptyString) eqn:E.
      + exists 400, "لم يتم اختيار ملف!".
        cbv beta iota zeta delta [try_except bind time_time modify ret abort raise].
        fold w0 start. rewrite E.
        destruct (record_failure cfg o "unknown" start w0) as [[[]|?] ?]; reflexivity.
      + cbn [orb] in Hrej.
        exists 400, "نوع الملف غير مسموح. يرجى رفع ملفات PDF فقط.".
        cbv beta iota zeta delta [try_except bind time_time modify ret abort raise].
        fold w0 start. rewrite E, Hrej.
        destruct (record_failure cfg o "unknown" start w0) as [[[]|?] ?]; reflexivity.
    - exists 400, "لم يتم إرسال أي ملف!".
      cbv beta iota zeta delta [try_except bind time_time modify ret abort raise].
      fold w0 start.
      destruct (record_failure cfg o "unknown" start w0) as [[[]|?] ?]; reflexivity. }
  destruct G as (code & msg & ->).
  exact (reject_then_except cfg o start code msg w0 Hl).
Qed.

Lemma unexpected_status {A} e : unexpected e -> http_status (@Raise A e) = 500.
Proof. destruct e; cbn; auto. Qed.

(** ** The engine stage *)

Lemma run_pdf2docx_calls o p d w :
  calls (snd (run_pdf2docx o p d w)) = (calls w ++ [CallEngine "standard"])%list.
Proof.
  unfold run_pdf2docx, bind, record, modify, read_file, write_file, raise, ret.
  cbn. repeat case_match; simplify_eq; reflexivity.
Qed.

Lemma aspose_load_calls o p w :
  calls (snd (aspose_load o p w)) = (calls w ++ [CallEngine "high_quality"])%list.
Proof.
  unfold aspose_load, bind, record, modify, read_file, raise, ret.
  cbn. repeat case_match; simplify_eq; reflexivity.
Qed.

Ltac engine_call E :=
  match type of E with
  | run_pdf2docx ?o ?p ?d ?w = _ =>
      let C := fresh "C" in
      pose proof (run_pdf2docx_calls o p d w) as C; rewrite E in C; cbn [snd] in C
  | aspose_load ?o ?p ?w = _ =>
      let C := fresh "C" in
      pose proof (aspose_load_calls o p w) as C; rewrite E in C; cbn [snd] in C
  end.

(** Follow the call trace through every run among the hypotheses. *)
Ltac track_calls :=
  repeat match goal with
  | E : ?c ?w = (_, ?w1) |- _ =>
      lazymatch goal with
      | _ : calls w1 = _ |- _ => fail
      | _ => first [ engine_call E | frame calls E ]
      end
  end.

(** A successful engine stage ran exactly the engine that [select_engine]
    names, and hands that name on. *)
Lemma engine_stage_ok cfg o start engine safe w chosen w1 :
  engine_stage cfg o start engine safe w = (Ok chosen, w1) ->
  select_engine cfg engine = Some (fst chosen) /\ snd chosen = true /\
  calls w1 = (calls w ++ [CallEngine (fst chosen)])%list.
Proof.
  unfold engine_stage, select_engine. intros H.
  destruct (String.eqb engine "high_quality" && ASPOSE_AVAILABLE cfg) eqn:E1.
  { apply andb_true_iff in E1 as [E1 _]. apply String.eqb_eq in E1. subst engine.
    inv_bind H. inv_bind H.
    apply try_ok_inv in H as [H|(e & w3 & _ & H)].
    - inv_bind H. inv_bind H. inv_bind H. inv_bind H. inv_bind H. inv_bind H.
      inversion H; subst; clear H. cbn.
      track_calls. repeat split; auto. congruence.
    - inv_bind H. discriminate H. }
  destruct (String.eqb engine "standard" && PDF2DOCX_AVAILABLE cfg) eqn:E2.
  { apply andb_true_iff in E2 as [E2 _]. apply String.eqb_eq in E2. subst engine.
    inv_bind H. inv_bind H. inv_bind H.
    inversion H; subst; clear H. cbn.
    track_calls. repeat split; auto. congruence. }
  destruct (PDF2DOCX_AVAILABLE cfg) eqn:E3.
  { inv_bind H. inv_bind H. inv_bind H. inv_bind H.
    inversion H; subst; clear H. cbn.
    track_calls. repeat split; auto. congruence. }
  destruct (ASPOSE_AVAILABLE cfg) eqn:E4.
  { inv_bind H. inv_bind H. inv_bind H. inv_bind H. inv_bind H.
    inversion H; subst; clear H. cbn.
    track_calls. repeat split; auto. congruence. }
  inv_bind H. discriminate H.
Qed.

(** ** The final stage *)

Lemma post_finish_ok cfg o start file_hash safe (chosen : string * bool) w r w' :
  post_finish cfg o start file_hash safe chosen w = (Ok r, w') ->
  r_cached r = false /\ r_success r = true /\ r_filename r = docx_name safe /\
  r_engine_used r = fst chosen /\
  fexists (docx_name safe) (converted w) = true /\
  converted w' = converted w /\
  calls w' = (calls w ++ [CallUpdateStats true (fst chosen)])%list.
Proof.
  unfold post_finish. cbn zeta. intros H.
  inv_bind H. inv_bind H.
  destruct (negb a || negb chosen.2) eqn:Hc.
  { inv_bind E0. inv_bind E0. discriminate E0. }
  inv_bind H. inv_bind H. inv_bind H. inv_bind H. inv_bind H.
  inversion H; subst; clear H. cbn.
  inversion E0; subst; clear E0.
  unfold path_exists in E. inversion E; subst; clear E.
  apply orb_false_iff in Hc as [Hc _]. apply negb_false_iff in Hc.
  frame calls E1. frame calls E2. frame calls E3. frame calls E5.
  frame converted E1. frame converted E2. frame converted E3. frame converted E5.
  pose proof (update_stats_effect cfg o true (fst chosen) (a3 - start)%Q w4) as U.
  cbn zeta in U. rewrite E4 in U. cbn [fst snd] in U.
  destruct U as (_ & U2 & _ & _ & _ & U & _).
  repeat split; auto; congruence.
Qed.

(** A successful conversion: one engine ran, the selected one, the answer
    names it and is not marked as cached, and the artifact exists. *)
Lemma post_convert_ok cfg o start file_hash engine safe w r w' :
  post_convert cfg o start file_hash engine safe w = (Ok r, w') ->
  exists used,
    select_engine cfg engine = Some used /\
    r_cached r = false /\ r_success r = true /\ r_filename r = docx_name safe /\
    r_engine_used r = used /\
    fexists (docx_name safe) (converted w') = true /\
    calls w' = (calls w ++ [CallEngine used; CallUpdateStats true used])%list.
Proof.
  unfold post_convert. intros H. inv_bind H.
  apply engine_stage_ok in E as (Hs & _ & Hc).
  apply post_finish_ok in H as (H1 & H2 & H3 & H4 & H5 & H6 & H7).
  exists (fst a). repeat split; auto.
  - congruence.
  - rewrite H7, Hc, <- app_assoc. reflexivity.
Qed.

(** ** Successful requests *)

(** A request that passes validation and whose upload is saved continues
    with the cache lookup. *)
Lemma post_after_upload cfg o req file w :
  files_file req = Some file -> rejected req = false -> save_fault o = None ->
  post cfg o req w =
  try_except
    (post_cached cfg o (clock o (tick w)) (md5_hexdigest o (content file))
                 (engine_field req) (clean_filename o (filename file)))
    (post_except cfg o (clock o (tick w))) (uploaded o req file w).
Proof.
  intros Hf Hrej Hsave. unfold rejected in Hrej. rewrite Hf in Hrej.
  apply orb_false_iff in Hrej as [Hn Ha]. apply negb_false_iff in Ha.
  unfold post, post_try. rewrite Hf.
  cbv beta iota zeta delta [try_except bind time_time modify ret set_engine
    set_pdf_path logger file_save get_file_hash read_file write_file].
  rewrite Hn, Ha, Hsave. cbn [negb].
  cbn [set_folder folder_of uploads set_uploads set_locals set_log set_tick tick
       locals v_engine v_pdf_path].
  rewrite flookup_fwrite_eq. cbn [f_data].
  reflexivity.
Qed.

(** Only such a request can succeed. *)
Lemma post_ok_validated cfg o req w r w' :
  post cfg o req w = (Ok r, w') ->
  exists file, files_file req = Some file /\ rejected req = false /\
               save_fault o = None.
Proof.
  intros H. destruct (rejected req) eqn:Hrej.
  { pose proof (validation_failure cfg o req w Hrej) as V. cbn zeta in V.
    rewrite H in V. destruct V as (_ & _ & _ & _ & e' & V & _). discriminate. }
  destruct (files_file req) as [file|] eqn:Hf.
  2:{ unfold rejected in Hrej. rewrite Hf in Hrej. discriminate. }
  exists file. repeat split; auto.
  destruct (save_fault o) as [detail|] eqn:Hsave; [|reflexivity]. exfalso.
  unfold rejected in Hrej. rewrite Hf in Hrej.
  apply orb_false_iff in Hrej as [Hn Ha]. apply negb_false_iff in Ha.
  revert H. unfold post, post_try. rewrite Hf.
  cbv beta iota zeta delta [try_except bind time_time modify ret set_engine
    set_pdf_path logger file_save raise].
  rewrite Hn, Ha, Hsave. cbn [negb].
  apply post_except_never_ok.
Qed.

(** A successful answer comes from the cache, with a live entry naming an
    existing artifact, or from a conversion. *)
Lemma post_cached_ok cfg o start file_hash engine safe w r w' :
  post_cached cfg o start file_hash engine safe w = (Ok r, w') ->
  (r_cached r = true /\ r_engine_used r = engine /\
   cache_available cfg && redis_client cfg = true /\
   PyStr.truthy (r_filename r) = true /\
   live_value (clock o (tick w)) (redis_kv w) (cache_key file_hash engine)
     = Some (r_filename r) /\
   fexists (r_filename r) (converted w) = true /\
   calls w' = (calls w ++ [CallUpdateStats true engine])%list) \/
  (exists w1, post_convert cfg o start file_hash engine safe w1 = (Ok r, w') /\
              calls w1 = calls w /\ converted w1 = converted w).
Proof.
  unfold post_cached. intros H. inv_bind H. inv_bind H.
  frame calls E. frame converted E. frame redis_kv E. frame tick E.
  assert (Hw : w1 = w0).
  { destruct a as [name|]; [destruct (PyStr.truthy name)|];
      inversion E0; reflexivity. }
  subst w1.
  destruct a0, a as [name|]; try (right; exists w0; auto; fail).
  left.
  destruct (PyStr.truthy name) eqn:Ht; [|discriminate E0].
  unfold path_exists in E0. injection E0 as Hex.
  inv_bind H. inv_bind H. inv_bind H. inversion H; subst; clear H. cbn.
  frame calls E0. frame calls E1.
  pose proof (update_stats_effect cfg o true engine (a0 - start)%Q w2) as U.
  cbn zeta in U. rewrite E2 in U. cbn [fst snd] in U.
  destruct U as (_ & _ & _ & _ & _ & U & _).
  unfold get_cached_result in E.
  destruct (negb (cache_available cfg) || negb (redis_client cfg)) eqn:Hc;
    [discriminate E|].
  apply orb_false_iff in Hc as [Hc Hc']. apply negb_false_iff in Hc, Hc'.
  inv_bind E. unfold redis_get in E3.
  destruct (redis_get_fault o); [discriminate E3|].
  inversion E3; subst; clear E3.
  rewrite S0 in Hex. repeat split; auto.
  - rewrite Hc, Hc'. reflexivity.
  - destruct (live_value _ _ _) as [v|]; [|discriminate E].
    destruct (PyStr.truthy v); [|discriminate E].
    inv_bind E. inversion E; subst. reflexivity.
  - congruence.
Qed.

Lemma engine_field_cases req :
  engine_field req = "standard" \/ engine_field req = "high_quality".
Proof.
  unfold engine_field. case_bool_decide as H; [|auto].
  apply elem_of_cons in H as [H|H]; [auto|].
  apply elem_of_cons in H as [H|H]; [auto|]. inversion H.
Qed.

Lemma select_engine_fallback cfg engine :
  engine = "standard" \/ engine = "high_quality" ->
  engine_available cfg engine = false ->
  engine_available cfg (alternative engine) = true ->
  select_engine cfg engine = Some (alternative engine).
Proof.
  intros [->| ->]; unfold engine_available, alternative, select_engine; cbn;
    intros -> ->; reflexivity.
Qed.

Lemma live_value_Some now kv key v :
  live_value now kv key = Some v <->
  exists expiry, kv !! key = Some (v, expiry) /\ (now < expiry)%Q.
Proof.
  unfold live_value. split.
  - destruct (kv !! key) as [[v' expiry]|]; [|discriminate].
    destruct (Qle_bool expiry now) eqn:E; [discriminate|].
    intros [= ->]. exists expiry. split; [reflexivity|].
    apply Qnot_le_lt. intros Hle. apply Qle_bool_iff in Hle. congruence.
  - intros (expiry & -> & Hlt).
    destruct (Qle_bool expiry now) eqn:E; [|reflexivity].
    apply Qle_bool_iff in E. exfalso. apply (Qlt_not_le _ _ Hlt E).
Qed.

(** A successful request, taken apart: it passed validation, its upload was
    saved, and the answer came from the cache or from a conversion. *)
Lemma post_ok_inv cfg o req w r w' :
  post cfg o req w = (Ok r, w') ->
  exists file,
    files_file req = Some file /\ rejected req = false /\ save_fault o = None /\
    let key := cache_key (md5_hexdigest o (content file)) (engine_field req) in
    ((r_cached r = true /\ r_engine_used r = engine_field req /\
      cache_available cfg && redis_client cfg = true /\
      PyStr.truthy (r_filename r) = true /\
      live_value (clock o (S (tick w))) (redis_kv w) key = Some (r_filename r) /\
      fexists (r_filename r) (converted w) = true /\
      calls w' = (calls w ++ [CallUpdateStats true (engine_field req)])%list) \/
     (exists used,
        select_engine cfg (engine_field req) = Some used /\
        r_cached r = false /\ r_success r = true /\ r_engine_used r = used /\
        r_filename r = docx_name (clean_filename o (filename file)) /\
        fexists (r_filename r) (converted w') = true /\
        calls w' = (calls w ++ [CallEngine used; CallUpdateStats true used])%list)).
Proof.
  intros H. destruct (post_ok_validated _ _ _ _ _ _ H) as (file & Hf & Hrej & Hsave).
  exists file. repeat split; auto. cbn zeta.
  rewrite (post_after_upload cfg o req file w Hf Hrej Hsave) in H.
  apply try_ok_inv in H as [H|(e & w1 & _ & H)].
  2:{ exfalso. exact (post_except_never_ok _ _ _ _ _ _ _ H). }
  apply post_cached_ok in H as [H|(w1 & H & Hc & Hv)].
  - left. exact H.
  - right. apply post_convert_ok in H as (used & H1 & H2 & H3 & H4 & H5 & H6 & H7).
    exists used. rewrite H4. repeat split; auto.
    rewrite H7, Hc. reflexivity.
Qed.

(** ** Running a request forward *)

(** With nothing usable in the cache the request goes on to convert; the
    lookup leaves at most a log line behind. *)
Lemma post_cached_miss cfg o start file_hash engine safe w :
  (cache_available cfg && redis_client cfg = false \/
   (redis_get_fault o = None /\
    forall v, live_value (clock o (tick w)) (redis_kv w)
                (cache_key file_hash engine) = Some v ->
              PyStr.truthy v = true -> fexists v (converted w) = false)) ->
  exists f,
    post_cached cfg o start file_hash engine safe w =
    post_convert cfg o start file_hash engine safe (set_log f w).
Proof.
  intros Hm. unfold post_cached, get_cached_result.
  destruct (negb (cache_available cfg) || negb (redis_client cfg)) eqn:Hc.
  { exists (fun l => l). destruct w; reflexivity. }
  destruct Hm as [Hm|[Hg Hm]].
  { exfalso. apply orb_false_iff in Hc as [H1 H2].
    apply negb_false_iff in H1, H2. rewrite H1, H2 in Hm. discriminate. }
  cbv beta iota zeta delta [bind redis_get ret logger modify path_exists].
  rewrite Hg.
  destruct (live_value _ _ _) as [v|] eqn:Hv.
  2:{ exists (fun l => l). destruct w; reflexivity. }
  destruct (PyStr.truthy v) eqn:Ht.
  2:{ exists (fun l => l). destruct w; reflexivity. }
  cbn [folder_of]. rewrite Ht. cbn [set_log converted].
  rewrite (Hm v eq_refl Ht). eexists. reflexivity.
Qed.

(** [apply_rtl_to_docx] returns a boolean whatever python-docx does. *)
Lemma apply_rtl_total cfg o docx w :
  exists ok w', apply_rtl_to_docx cfg o docx w = (Ok ok, w').
Proof.
  unfold apply_rtl_to_docx, try_except.
  destruct (bind _ _ w) as [[ok|e] w1]; [eauto|].
  unfold bind, logger, modify, ret. eauto.
Qed.

(** When the document cannot be reopened or saved, the step only logs. *)
Lemma rtl_step_fails cfg o docx ok_msg fail_msg w e :
  flookup docx (converted w) = Some e ->
  docx_parse o (f_data e) = None \/ is_Some (docx_save_fault o) ->
  exists f, rtl_step cfg o docx ok_msg fail_msg w = (Ok tt, set_log f w).
Proof.
  intros Hl Hfail. unfold rtl_step, apply_rtl_to_docx, docx_open, docx_save.
  cbv beta iota zeta delta [bind try_except read_file ret raise logger modify
                            folder_of].
  rewrite Hl.
  destruct (docx_parse o (f_data e)) as [doc|].
  - destruct Hfail as [?|[detail Hs]]; [discriminate|]. rewrite Hs.
    exists (fun l => ((l ++ [(ERROR, ("خطأ في معالجة النص العربي: " ++ detail)%string)])
                      ++ [(WARNING, fail_msg)])%list).
    reflexivity.
  - eexists (fun l => ((l ++ [(ERROR, _)]) ++ [(WARNING, fail_msg)])%list).
    reflexivity.
Qed.

Lemma run_pdf2docx_writes o safe docx w e bytes :
  flookup safe (uploads w) = Some e ->
  pdf2docx_convert o (f_data e) = EngDone (Some bytes) ->
  run_pdf2docx o safe docx w =
  (Ok tt, set_converted (fwrite docx (FEntry true (clock o (tick w)) bytes))
            (set_calls (fun l => (l ++ [CallEngine "standard"])%list) w)).
Proof.
  intros Hl Hc. unfold run_pdf2docx.
  cbv beta iota zeta delta [bind record modify read_file write_file ret folder_of
                            set_folder].
  cbn [uploads set_calls tick]. rewrite Hl, Hc. reflexivity.
Qed.

Lemma aspose_load_reads o safe w e :
  flookup safe (uploads w) = Some e ->
  aspose_load_fault o (f_data e) = None ->
  aspose_load o safe w =
  (Ok (f_data e), set_calls (fun l => (l ++ [CallEngine "high_quality"])%list) w).
Proof.
  intros Hl Hf. unfold aspose_load.
  cbv beta iota zeta delta [bind record modify read_file ret folder_of].
  cbn [uploads set_calls]. rewrite Hl, Hf. reflexivity.
Qed.

Lemma aspose_save_writes o data docx w bytes :
  aspose_convert o data = EngDone (Some bytes) ->
  aspose_save o data docx w =
  (Ok tt, set_converted (fwrite docx (FEntry true (clock o (tick w)) bytes)) w).
Proof. intros Hc. unfold aspose_save. rewrite Hc. reflexivity. Qed.

Lemma engine_output_standard o data bytes :
  engine_output o "standard" data = Some bytes ->
  pdf2docx_convert o data = EngDone (Some bytes).
Proof.
  unfold engine_output. cbn.
  destruct (pdf2docx_convert o data) as [|out]; [discriminate|]. congruence.
Qed.

Lemma engine_output_high_quality o data bytes :
  engine_output o "high_quality" data = Some bytes ->
  aspose_load_fault o data = None /\ aspose_convert o data = EngDone (Some bytes).
Proof.
  unfold engine_output. cbn.
  destruct (aspose_load_fault o data); [discriminate|].
  destruct (aspose_convert o data) as [|out]; [discriminate|].
  intros ->. auto.
Qed.

(** The engine stage when the selected engine writes [bytes] and the
    post-processing fails: the stage succeeds and the artifact holds the
    engine's bytes. *)
Lemma engine_stage_run cfg o start engine safe w e used bytes :
  select_engine cfg engine = Some used ->
  flookup safe (uploads w) = Some e ->
  engine_output o used (f_data e) = Some bytes ->
  is_Some (memory_mb o) ->
  docx_parse o bytes = None \/ is_Some (docx_save_fault o) ->
  exists w2,
    engine_stage cfg o start engine safe w = (Ok (used, true), w2) /\
    uploads w2 = uploads w /\
    converted w2 =
      fwrite (docx_name safe) (FEntry true (clock o (tick w)) bytes) (converted w) /\
    conversion_stats w2 = conversion_stats w /\
    calls w2 = (calls w ++ [CallEngine used])%list.
Proof.
  intros Hsel Hl Hout [m Hmem] Hrtl.
  unfold select_engine in Hsel. unfold engine_stage.
  assert (R : forall ok_msg fail_msg w1,
    converted w1 = fwrite (docx_name safe) (FEntry true (clock o (tick w)) bytes)
                     (converted w) ->
    exists f, rtl_step cfg o (docx_name safe) ok_msg fail_msg w1 = (Ok tt, set_log f w1)).
  { intros ok_msg fail_msg w1 Hw1.
    apply (rtl_step_fails cfg o _ _ _ w1 (FEntry true (clock o (tick w)) bytes)).
    - rewrite Hw1. apply flookup_fwrite_eq.
    - exact Hrtl. }
  destruct (String.eqb engine "high_quality" && ASPOSE_AVAILABLE cfg) eqn:E1.
  { injection Hsel as <-.
    apply andb_true_iff in E1 as [E1 _]. apply String.eqb_eq in E1. subst engine.
    apply engine_output_high_quality in Hout as [Hf Hc].
    unfold memory_log. rewrite Hmem.
    cbv beta iota zeta delta [bind logger modify try_except].
    erewrite aspose_load_reads by (cbn; eauto).
    erewrite aspose_save_writes by eauto.
    edestruct R as [f Hr]; [|rewrite Hr]; [reflexivity|].
    eexists. split; [reflexivity|]. cbn. auto. }
  destruct (String.eqb engine "standard" && PDF2DOCX_AVAILABLE cfg) eqn:E2.
  { injection Hsel as <-.
    apply andb_true_iff in E2 as [E2 _]. apply String.eqb_eq in E2. subst engine.
    apply engine_output_standard in Hout.
    cbv beta iota zeta delta [bind logger modify].
    erewrite run_pdf2docx_writes by (cbn; eauto).
    edestruct R as [f Hr]; [|rewrite Hr]; [reflexivity|].
    eexists. split; [reflexivity|]. cbn. auto. }
  destruct (PDF2DOCX_AVAILABLE cfg) eqn:E3.
  { injection Hsel as <-.
    apply engine_output_standard in Hout.
    cbv beta iota zeta delta [bind logger modify set_engine].
    erewrite run_pdf2docx_writes by (cbn; eauto).
    edestruct R as [f Hr]; [|rewrite Hr]; [reflexivity|].
    eexists. split; [reflexivity|]. cbn. auto. }
  destruct (ASPOSE_AVAILABLE cfg) eqn:E4; [|discriminate].
  injection Hsel as <-.
  apply engine_output_high_quality in Hout as [Hf Hc].
  cbv beta iota zeta delta [bind logger modify set_engine].
  erewrite aspose_load_reads by (cbn; eauto).
  erewrite aspose_save_writes by eauto.
  edestruct R as [f Hr]; [|rewrite Hr]; [reflexivity|].
  eexists. split; [reflexivity|]. cbn. auto.
Qed.

Lemma flookup_fremove name l : flookup name (fremove name l) = None.
Proof.
  induction l as [|[n e] l IH]; cbn; [reflexivity|].
  destruct (String.eqb n name) eqn:E; cbn; [|rewrite E]; exact IH.
Qed.

Lemma set_cached_result_ok cfg o file_hash engine name w :
  cache_available cfg && redis_client cfg = false \/ redis_setex_fault o = None ->
  exists w1, set_cached_result cfg o file_hash engine name w = (Ok tt, w1) /\
             conversion_stats w1 = conversion_stats w /\
             uploads w1 = uploads w /\ converted w1 = converted w.
Proof.
  intros H. unfold set_cached_result, redis_setex.
  destruct (negb (cache_available cfg) || negb (redis_client cfg)) eqn:Hc.
  { exists w. auto. }
  destruct H as [H|H].
  { apply orb_false_iff in Hc as [H1 H2]. apply negb_false_iff in H1, H2.
    rewrite H1, H2 in H. discriminate. }
  rewrite H. eexists. split; [reflexivity|]. auto.
Qed.

Lemma remove_if_exists_ok o name w :
  remove_fault o UPLOAD_FOLDER name = None ->
  exists w1, remove_if_exists o UPLOAD_FOLDER name w = (Ok tt, w1) /\
             conversion_stats w1 = conversion_stats w /\
             converted w1 = converted w /\
             fexists name (uploads w1) = false.
Proof.
  intros H. unfold remove_if_exists, bind, path_exists, os_remove, fexists. cbn.
  destruct (flookup name (uploads w)) eqn:E; rewrite ?E, ?H.
  - eexists. split; [reflexivity|]. cbn. rewrite flookup_fremove. auto.
  - exists w. rewrite E. auto.
Qed.

(** The final stage when the artifact is there and the cache store, the
    removal of the upload and the statistics all work. *)
Lemma post_finish_run cfg o start file_hash safe used w :
  fexists (docx_name safe) (converted w) = true ->
  cache_available cfg && redis_client cfg = false \/ redis_setex_fault o = None ->
  remove_fault o UPLOAD_FOLDER safe = None ->
  is_Some (engine_usage (conversion_stats w) !! used) ->
  total_conversions (conversion_stats w) <> -1 ->
  exists r w',
    post_finish cfg o start file_hash safe (used, true) w = (Ok r, w') /\
    r_success r = true /\ r_cached r = false /\
    r_filename r = docx_name safe /\ r_engine_used r = used /\
    converted w' = converted w /\ fexists safe (uploads w') = false.
Proof.
  intros Hex Hstore Hrm Hkey Htot. unfold post_finish. cbn zeta. cbn [fst snd].
  unfold bind at 1. unfold path_exists. cbn [folder_of]. rewrite Hex. cbn [negb orb].
  unfold bind at 1. unfold ret at 1.
  destruct (set_cached_result_ok cfg o file_hash used (docx_name safe) w Hstore)
    as (w1 & E1 & S1 & U1 & C1).
  rewrite (bind_run _ _ _ _ _ E1).
  destruct (remove_if_exists_ok o safe w1 Hrm) as (w2 & E2 & S2 & C2 & X2).
  rewrite (bind_run _ _ _ _ _ E2).
  unfold bind at 1. unfold time_time at 1.
  pose proof (update_stats_effect cfg o true used
                (clock o (tick w2) - start)%Q (set_tick S w2)) as U.
  cbn zeta in U. destruct (update_stats _ _ _ _ _ _) as [r3 w3] eqn:E3.
  cbn [fst snd] in U. destruct U as (Uu & Uc & _ & _ & _ & _ & _ & _ & Uok).
  rewrite Uok in E3.
  2:{ cbn. rewrite S2, S1. exact Hkey. }
  2:{ cbn. rewrite S2, S1. exact Htot. }
  rewrite (bind_run _ _ _ _ _ E3).
  cbv beta iota zeta delta [bind logger modify ret].
  eexists _, _. split; [reflexivity|]. cbn.
  rewrite Uc, Uu. cbn. rewrite C2, C1, X2. repeat split; reflexivity.
Qed.

(** * The claims *)

(** ** C4: engine fallback *)

(** C4, as amended.  For every conversion request that is not answered from
    the result cache and whose requested engine is unavailable while the
    other engine is available, a successful answer means that exactly one
    engine ran, the available one, and [engine_used] names it. *)
Theorem fallback_engine_is_reported cfg o req w r w' :
  post cfg o req w = (Ok r, w') ->
  r_cached r = false ->
  engine_available cfg (engine_field req) = false ->
  engine_available cfg (alternative (engine_field req)) = true ->
  r_engine_used r = alternative (engine_field req) /\
  calls w' = (calls w ++ [CallEngine (alternative (engine_field req));
                          CallUpdateStats true (alternative (engine_field req))])%list.
Proof.
  intros H Hc Hu Ha.
  apply post_ok_inv in H as (file & _ & _ & _ & H). cbn zeta in H.
  destruct H as [(Hc' & _)|(used & Hs & _ & _ & He & _ & _ & Hcalls)];
    [congruence|].
  rewrite (select_engine_fallback cfg _ (engine_field_cases req) Hu Ha) in Hs.
  injection Hs as <-. auto.
Qed.

Lemma fallback_engine_is_reported_witness :
  let out := post Scenario.only_pdf2docx Scenario.healthy
                  (Scenario.upload "report.pdf" (Some "high_quality"))
                  Scenario.fresh in
  r_engine_used (Scenario.answer out) = "standard" /\
  calls (snd out) = [CallEngine "standard"; CallUpdateStats true "standard"].
Proof.
  cbn zeta.
  apply (fallback_engine_is_reported Scenario.only_pdf2docx Scenario.healthy
           (Scenario.upload "report.pdf" (Some "high_quality")) Scenario.fresh);
    vm_compute; reflexivity.
Defined.

(** C4 as stated fails on a cache hit: the requested engine is unavailable,
    the other one is available, no engine runs and the answer names the
    requested engine. *)
Lemma cached_answer_names_requested_engine :
  let cfg := Scenario.cached_pdf2docx_only in
  let req := Scenario.upload "report.pdf" (Some "high_quality") in
  let out := post cfg Scenario.healthy req (Scenario.warm "high_quality") in
  ~ (engine_available cfg (engine_field req) = false ->
     engine_available cfg (alternative (engine_field req)) = true ->
     forall r, fst out = Ok r ->
       engines_run (calls (snd out)) = [alternative (engine_field req)] /\
       r_engine_used r = alternative (engine_field req)).
Proof.
  cbn zeta. intros H.
  specialize (H eq_refl eq_refl _ ltac:(vm_compute; reflexivity)).
  destruct H as [H _]. vm_compute in H. discriminate H.
Qed.

(** ** C5: cache hits *)

(** C5.  An answer is served from the cache only if Redis holds an entry
    under the key of (fingerprint, engine), its expiry lies ahead, and the
    artifact it names is in the converted folder.  When the lookup offers no
    such entry (TTL elapsed, or artifact deleted) the request runs the
    conversion stage, and a successful answer then comes from exactly one
    engine run and is not marked as cached. *)
Theorem cache_hit_needs_live_entry_and_artifact cfg o req w :
  (forall r w', post cfg o req w = (Ok r, w') -> r_cached r = true ->
     exists file expiry,
       files_file req = Some file /\
       redis_kv w !! cache_key (md5_hexdigest o (content file)) (engine_field req)
         = Some (r_filename r, expiry) /\
       (clock o (S (tick w)) < expiry)%Q /\
       fexists (r_filename r) (converted w) = true /\
       engines_run (calls w') = engines_run (calls w)) /\
  (forall file,
     files_file req = Some file -> rejected req = false -> save_fault o = None ->
     lookup_misses cfg o w
       (cache_key (md5_hexdigest o (content file)) (engine_field req)) ->
     (exists f,
        post cfg o req w =
        try_except
          (post_convert cfg o (clock o (tick w)) (md5_hexdigest o (content file))
                        (engine_field req) (clean_filename o (filename file)))
          (post_except cfg o (clock o (tick w)))
          (set_log f (uploaded o req file w))) /\
     (forall r w', post cfg o req w = (Ok r, w') ->
        r_cached r = false /\
        exists used, calls w' = (calls w ++ [CallEngine used;
                                             CallUpdateStats true used])%list)).
Proof.
  split.
  - intros r w' H Hc.
    apply post_ok_inv in H as (file & Hf & _ & _ & H). cbn zeta in H.
    destruct H as [(_ & _ & _ & _ & Hl & Hex & Hcalls)|(used & _ & Hc' & _)];
      [|congruence].
    apply live_value_Some in Hl as (expiry & Hl & Hlt).
    exists file, expiry. repeat split; auto.
    rewrite Hcalls. unfold engines_run. rewrite omap_app. cbn.
    apply app_nil_r.
  - intros file Hf Hrej Hsave Hm. split.
    + rewrite (post_after_upload cfg o req file w Hf Hrej Hsave).
      destruct (post_cached_miss cfg o (clock o (tick w))
                  (md5_hexdigest o (content file)) (engine_field req)
                  (clean_filename o (filename file)) (uploaded o req file w))
        as [f Hp].
      { exact Hm. }
      exists f. unfold try_except. rewrite Hp. reflexivity.
    + intros r w' H.
      apply post_ok_inv in H as (file' & Hf' & _ & _ & H). cbn zeta in H.
      rewrite Hf in Hf'. injection Hf' as <-.
      destruct H as [(_ & _ & Hca & Ht & Hl & Hex & _)
                    |(used & _ & Hc' & _ & _ & _ & _ & Hcalls)].
      * exfalso. destruct Hm as [Hm|[_ Hm]]; [congruence|].
        rewrite (Hm _ Hl Ht) in Hex. discriminate.
      * split; [assumption|]. exists used. assumption.
Qed.

Lemma cache_hit_needs_live_entry_and_artifact_witness :
  let cfg := Scenario.with_cache in
  let req := Scenario.upload "report.pdf" (Some "standard") in
  (exists file expiry,
     files_file req = Some file /\
     redis_kv (Scenario.warm "standard")
       !! cache_key (md5_hexdigest Scenario.healthy (content file)) (engine_field req)
       = Some ("old_11aa22bb.docx", expiry) /\
     (clock Scenario.healthy 1 < expiry)%Q /\
     fexists "old_11aa22bb.docx" (converted (Scenario.warm "standard")) = true /\
     engines_run (calls (snd (post cfg Scenario.healthy req (Scenario.warm "standard"))))
       = []) /\
  r_cached (Scenario.answer
              (post cfg Scenario.healthy req (Scenario.swept "standard"))) = false.
Proof.
  cbn zeta. split.
  - apply (proj1 (cache_hit_needs_live_entry_and_artifact Scenario.with_cache
                    Scenario.healthy (Scenario.upload "report.pdf" (Some "standard"))
                    (Scenario.warm "standard"))
             (Scenario.answer (post Scenario.with_cache Scenario.healthy
                                 (Scenario.upload "report.pdf" (Some "standard"))
                                 (Scenario.warm "standard"))));
      vm_compute; reflexivity.
  - assert (Hmiss : lookup_misses Scenario.with_cache Scenario.healthy
                      (Scenario.swept "standard")
                      (cache_key (md5_hexdigest Scenario.healthy "%PDF-1.7") "standard")).
    { right. split; [reflexivity|]. vm_compute. intros v [= <-] _. reflexivity. }
    destruct (proj2 (cache_hit_needs_live_entry_and_artifact Scenario.with_cache
                    Scenario.healthy (Scenario.upload "report.pdf" (Some "standard"))
                    (Scenario.swept "standard"))
                (FileStorage "report.pdf" "%PDF-1.7") eq_refl eq_refl eq_refl Hmiss)
      as [_ H].
    apply (H _ (snd (post Scenario.with_cache Scenario.healthy
                       (Scenario.upload "report.pdf" (Some "standard"))
                       (Scenario.swept "standard")))).
    vm_compute. reflexivity.
Defined.

(** ** C8: post-processing failure *)

(** C8.  Take a conversion request that reaches the engine stage, whose
    engine writes an output artifact, and whose other collaborators work.
    If the post-processing then fails, because the document cannot be
    reopened or cannot be saved, the request still answers with success and
    the artifact's name, and the artifact holds exactly what the engine
    wrote. *)
Theorem failed_post_processing_keeps_conversion cfg o req file w used bytes :
  files_file req = Some file -> rejected req = false -> save_fault o = None ->
  lookup_misses cfg o w
    (cache_key (md5_hexdigest o (content file)) (engine_field req)) ->
  select_engine cfg (engine_field req) = Some used ->
  engine_output o used (content file) = Some bytes ->
  is_Some (memory_mb o) ->
  docx_parse o bytes = None \/ is_Some (docx_save_fault o) ->
  cache_available cfg && redis_client cfg = false \/ redis_setex_fault o = None ->
  remove_fault o UPLOAD_FOLDER (clean_filename o (filename file)) = None ->
  is_Some (engine_usage (conversion_stats w) !! used) ->
  total_conversions (conversion_stats w) <> -1 ->
  exists r w' mtime,
    post cfg o req w = (Ok r, w') /\
    r_success r = true /\ r_engine_used r = used /\
    r_filename r = docx_name (clean_filename o (filename file)) /\
    flookup (r_filename r) (converted w') = Some (FEntry true mtime bytes).
Proof.
  intros Hf Hrej Hsave Hmiss Hsel Hout Hmem Hrtl Hstore Hrm Hkey Htot.
  rewrite (post_after_upload cfg o req file w Hf Hrej Hsave).
  set (safe := clean_filename o (filename file)).
  destruct (post_cached_miss cfg o (clock o (tick w))
              (md5_hexdigest o (content file)) (engine_field req) safe
              (uploaded o req file w) Hmiss) as [f Hp].
  unfold try_except. rewrite Hp. unfold post_convert.
  destruct (engine_stage_run cfg o (clock o (tick w)) (engine_field req) safe
              (set_log f (uploaded o req file w))
              (FEntry true (clock o (S (tick w))) (content file)) used bytes)
    as (w2 & E2 & U2 & C2 & S2 & _); auto.
  { cbn. apply flookup_fwrite_eq. }
  rewrite (bind_run _ _ _ _ _ E2).
  destruct (post_finish_run cfg o (clock o (tick w))
              (md5_hexdigest o (content file)) safe used w2)
    as (r & w' & E3 & R1 & R2 & R3 & R4 & C3 & _); auto.
  { unfold fexists. rewrite C2, flookup_fwrite_eq. reflexivity. }
  { rewrite S2. exact Hkey. }
  { rewrite S2. exact Htot. }
  rewrite E3. exists r, w'. eexists. split; [reflexivity|].
  repeat split; auto.
  rewrite R3, C3, C2. apply flookup_fwrite_eq.
Qed.

Lemma failed_post_processing_keeps_conversion_witness :
  exists r w' mtime,
    post Scenario.both_engines
         (Scenario.with_docx_parse (fun _ => None) Scenario.healthy)
         (Scenario.upload "report.pdf" (Some "standard")) Scenario.fresh
      = (Ok r, w') /\
    r_success r = true /\ r_engine_used r = "standard" /\
    r_filename r = "report_0a1b2c3d.docx" /\
    flookup (r_filename r) (converted w')
      = Some (FEntry true mtime "pdf2docx(%PDF-1.7)").
Proof.
  apply (failed_post_processing_keeps_conversion Scenario.both_engines
           (Scenario.with_docx_parse (fun _ => None) Scenario.healthy)
           (Scenario.upload "report.pdf" (Some "standard"))
           (FileStorage "report.pdf" "%PDF-1.7") Scenario.fresh
           "standard" "pdf2docx(%PDF-1.7)").
  - reflexivity.
  - vm_compute. reflexivity.
  - reflexivity.
  - left. reflexivity.
  - reflexivity.
  - reflexivity.
  - exists "42.00". reflexivity.
  - left. reflexivity.
  - left. reflexivity.
  - reflexivity.
  - exists 0. vm_compute. reflexivity.
  - vm_compute. discriminate.
Defined.

(** ** C1: validation failures *)

Lemma validation_failure_status cfg o req w :
  rejected req = true ->
  http_status (fst (post cfg o req w)) = 500 /\
  uploads (snd (post cfg o req w)) = uploads w /\
  converted (snd (post cfg o req w)) = converted w.
Proof.
  intros H. destruct (validation_failure cfg o req w H)
    as (Hu & Hc & _ & _ & e' & He & Hun).
  rewrite He. split; [apply unexpected_status; assumption|]. auto.
Qed.

(** C1 fails on the code.  A request without a file, one with an empty file
    name and one with an extension outside the accepted set all leave the
    handler with [KeyError('unknown')], which the caller receives as a 500,
    not as a client error; no file is created. *)
Theorem rejected_request_is_internal_error :
  let run req := post Scenario.both_engines Scenario.healthy req Scenario.fresh in
  let no_file := Request None None in
  let no_name := Scenario.upload EmptyString None in
  let bad_ext := Scenario.upload "notes.exe" None in
  (fst (run no_file) = Raise (KeyError "unknown") /\
   fst (run no_name) = Raise (KeyError "unknown") /\
   fst (run bad_ext) = Raise (KeyError "unknown")) /\
  (http_status (fst (run no_file)) = 500 /\
   http_status (fst (run no_name)) = 500 /\
   http_status (fst (run bad_ext)) = 500) /\
  ~ client_error (http_status (fst (run no_file))) /\
  (uploads (snd (run bad_ext)) = [] /\ converted (snd (run bad_ext)) = []).
Proof.
  cbn zeta. repeat split; try (vm_compute; reflexivity).
  unfold client_error.
  replace (http_status _) with 500 by (vm_compute; reflexivity). lia.
Qed.

(** ** C2: one statistics record per request *)

(** C2 fails on the code.  A request without a file runs [update_stats]
    twice (both runs count a conversion and a failure before raising), and
    so does a request that finds no engine available; a request whose engine
    raises and whose upload cannot be removed never runs it. *)
Theorem update_stats_is_not_once_per_request :
  let no_file :=
    post Scenario.both_engines Scenario.healthy (Request None None) Scenario.fresh in
  let no_engine :=
    post (Config false false true false false) Scenario.healthy
         (Scenario.upload "report.pdf" None) Scenario.fresh in
  let stuck_upload :=
    post Scenario.both_engines
         (Scenario.with_remove_fault (fun _ _ => Some "Permission denied")
            (Scenario.with_pdf2docx (fun _ => EngRaise "bad xref") Scenario.healthy))
         (Scenario.upload "report.pdf" None) Scenario.fresh in
  (stats_updates (calls (snd no_file)) = [(false, "unknown"); (false, "unknown")] /\
   total_conversions (conversion_stats (snd no_file)) = 2 /\
   failed_conversions (conversion_stats (snd no_file)) = 2) /\
  (stats_updates (calls (snd no_engine)) = [(false, "standard"); (false, "standard")] /\
   total_conversions (conversion_stats (snd no_engine)) = 2) /\
  (stats_updates (calls (snd stuck_upload)) = [] /\
   http_status (fst stuck_upload) = 500).
Proof. cbn zeta. repeat split; vm_compute; reflexivity. Qed.

(** ** C3: cache failures *)

(** C3 fails on the code.  With the cache switched on, a Redis fault during
    the lookup ends the request as a 500 carrying the Redis error text,
    without any engine being run; a fault during the store does the same
    after the artifact was written. *)
Theorem cache_fault_fails_the_request :
  let req := Scenario.upload "report.pdf" (Some "standard") in
  let lookup_fault :=
    post Scenario.with_cache
         (Scenario.with_redis_get_fault (Some "Connection refused") Scenario.healthy)
         req Scenario.fresh in
  let store_fault :=
    post Scenario.with_cache
         (Scenario.with_redis_setex_fault (Some "Connection reset") Scenario.healthy)
         req Scenario.fresh in
  (fst lookup_fault = Raise (HTTPException 500 "Connection refused") /\
   engines_run (calls (snd lookup_fault)) = []) /\
  (fst store_fault = Raise (HTTPException 500 "Connection reset") /\
   engines_run (calls (snd store_fault)) = ["standard"] /\
   fexists "report_0a1b2c3d.docx" (converted (snd store_fault)) = true).
Proof. cbn zeta. repeat split; vm_compute; reflexivity. Qed.

(** ** C6: what an internal failure tells the caller *)

(** C6 fails on the code.  Two requests that differ only in the text of the
    exception raised inside the engine get different bodies: the text is
    the message of the 500, and [internal_server_error] repeats it. *)
Theorem internal_detail_reaches_the_caller :
  let run detail :=
    post Scenario.both_engines
         (Scenario.with_pdf2docx (fun _ => EngRaise detail) Scenario.healthy)
         (Scenario.upload "report.pdf" (Some "standard")) Scenario.fresh in
  let a := "/srv/app/converter.py line 88: bad xref" in
  let b := "MemoryError in fitz.get_text" in
  delivered_message (fst (run a)) = Some a /\
  delivered_message (fst (run b)) = Some b /\
  delivered_message (fst (run a)) <> delivered_message (fst (run b)) /\
  http_status (fst (run a)) = 500 /\
  snd (fst (fst (internal_server_error Scenario.healthy (EngineError a))))
    = "خطأ داخلي: " ++ a.
Proof.
  cbn zeta. repeat split; try (vm_compute; reflexivity).
  vm_compute. discriminate.
Qed.

(** ** C10: the engine field *)

(** C10.  A request whose engine field is absent or carries anything other
    than the two engine names runs exactly as the same request with
    [engine=standard]: same answer or same error, same final world. *)
Theorem unknown_engine_is_standard cfg o req w :
  form_engine req <> Some "standard" ->
  form_engine req <> Some "high_quality" ->
  post cfg o req w = post cfg o (Request (files_file req) (Some "standard")) w.
Proof.
  intros H1 H2.
  assert (He : engine_field req = "standard").
  { unfold engine_field. destruct (form_engine req) as [s|]; cbn; [|reflexivity].
    case_bool_decide as H; [|reflexivity].
    apply elem_of_cons in H as [->|H]; [congruence|].
    apply elem_of_cons in H as [->|H]; [congruence|]. inversion H. }
  unfold post, post_try. cbn [files_file]. rewrite He. reflexivity.
Qed.

Lemma unknown_engine_is_standard_witness :
  post Scenario.both_engines Scenario.healthy
       (Scenario.upload "report.pdf" (Some "turbo")) Scenario.fresh =
  post Scenario.both_engines Scenario.healthy
       (Scenario.upload "report.pdf" (Some "standard")) Scenario.fresh.
Proof.
  apply (unknown_engine_is_standard Scenario.both_engines Scenario.healthy
           (Scenario.upload "report.pdf" (Some "turbo")) Scenario.fresh);
    discriminate.
Defined.

(** ** C9: the displayed user count *)

(** C9, as amended.  Every call to [/stats] answers, and the reported
    [user_count] is 1250, plus the quotient of (current time - 1703700000)
    by 600 truncated toward zero, plus the in-memory [total_conversions] as
    it stands when the answer is built. *)
Theorem user_count_formula cfg o app_start_time w :
  exists r w',
    Stats_get cfg o app_start_time w = (Ok r, w') /\
    sr_conversion_stats r = conversion_stats w' /\
    sr_user_count r =
      1250 + py_int ((clock o (tick w) - 1703700000) / 600)%Q
           + total_conversions (conversion_stats w').
Proof.
  unfold Stats_get.
  cbv beta iota zeta delta [bind time_time datetime_now try_except redis_get_total
                            modify get_world ret].
  destruct (redis_client cfg).
  - destruct (redis_get_fault o).
    + eexists _, _. split; [reflexivity|]. cbn. auto.
    + cbn [redis_total set_tick].
      destruct (redis_total w).
      * eexists _, _. split; [reflexivity|]. cbn. auto.
      * eexists _, _. split; [reflexivity|]. cbn. auto.
  - eexists _, _. split; [reflexivity|]. cbn. auto.
Qed.

(** Without a Redis client the count in memory is not touched. *)
Lemma Stats_get_keeps_total cfg o app_start_time w :
  redis_client cfg = false ->
  conversion_stats (snd (Stats_get cfg o app_start_time w)) = conversion_stats w.
Proof.
  intros H. unfold Stats_get.
  cbv beta iota zeta delta [bind time_time datetime_now try_except modify
                            get_world ret].
  rewrite H. reflexivity.
Qed.

(** From the reference instant on, truncation is the floor. *)
Lemma py_int_floor (x : Q) : (0 <= x)%Q -> py_int x = Qfloor x.
Proof.
  destruct x as [n d]. unfold Qle, py_int, Qfloor. cbn.
  intros H. rewrite Z.mul_1_r in H. apply Z.quot_div_nonneg; lia.
Qed.

Lemma time_growth_floor (now : Q) :
  (1703700000 <= now)%Q ->
  py_int ((now - 1703700000) / 600)%Q = Qfloor ((now - 1703700000) / 600)%Q.
Proof.
  intros H. apply py_int_floor.
  apply Qle_shift_div_l; [reflexivity|].
  rewrite Qmult_0_l. apply (Qplus_le_l _ _ 1703700000).
  ring_simplify. exact H.
Qed.

(** C9 as stated fails before the reference instant: one second earlier the
    handler reports 1250 where the floor formula gives 1249. *)
Lemma user_count_is_not_the_floor :
  let o := Scenario.with_clock (fun _ => inject_Z 1703699999) Scenario.healthy in
  ~ (forall r, fst (Stats_get Scenario.both_engines o 0 Scenario.fresh) = Ok r ->
       sr_user_count r =
         1250 + Qfloor ((clock o 0 - 1703700000) / 600)%Q
              + total_conversions (sr_conversion_stats r)).
Proof.
  cbn zeta. intros H.
  specialize (H _ ltac:(vm_compute; reflexivity)).
  vm_compute in H. discriminate H.
Qed.

(** ** C7: the retention sweeper *)

Section Sweeper.
Local Open Scope list_scope.




















End Sweeper.



(** * Further properties of the code *)

(** ** File names *)

Lemma sapp_nil (s : string) : EmptyString ++ s = s.
Proof. reflexivity. Qed.

Lemma sapp_cons x (a b : string) : String x a ++ b = String x (a ++ b).
Proof. reflexivity. Qed.

Lemma contains_rfind_None c s : PyStr.contains c s = false <-> PyStr.rfind c s = None.
Proof.
  induction s as [|a s IH]; cbn [PyStr.contains PyStr.rfind]; [tauto|].
  destruct (Ascii.eqb a c).
  - split; [discriminate|]. destruct (PyStr.rfind c s); discriminate.
  - rewrite IH. destruct (PyStr.rfind c s); split; auto; discriminate.
Qed.

Lemma contains_app_sep c a b : PyStr.contains c (a ++ String c b) = true.
Proof.
  induction a as [|x a IH]; rewrite ?sapp_nil, ?sapp_cons; cbn [PyStr.contains].
  - rewrite Ascii.eqb_refl. reflexivity.
  - destruct (Ascii.eqb x c); auto.
Qed.

(** The last separator of [a ++ c ++ b], when [b] has none. *)
Lemma rfind_app_last c a b :
  PyStr.contains c b = false ->
  PyStr.rfind c (a ++ String c b) = Some (String.length a).
Proof.
  intros H. apply contains_rfind_None in H.
  induction a as [|x a IH]; rewrite ?sapp_nil, ?sapp_cons;
    cbn [PyStr.rfind String.length].
  - rewrite H, Ascii.eqb_refl. reflexivity.
  - rewrite IH. reflexivity.
Qed.

(** Conversely, a found separator splits the string. *)
Lemma rfind_Some c s i :
  PyStr.rfind c s = Some i ->
  exists a b, s = a ++ String c b /\ String.length a = i /\
              PyStr.contains c b = false.
Proof.
  revert i. induction s as [|x s IH]; cbn [PyStr.rfind]; intros i H; [discriminate|].
  destruct (PyStr.rfind c s) as [j|] eqn:E.
  - injection H as <-. destruct (IH j eq_refl) as (a & b & -> & Hl & Hb).
    exists (String x a), b. rewrite sapp_cons. cbn [String.length].
    rewrite Hl. auto.
  - destruct (Ascii.eqb_spec x c) as [->|]; [|discriminate].
    injection H as <-. exists EmptyString, s. rewrite sapp_nil.
    repeat split. apply contains_rfind_None. exact E.
Qed.

Lemma substring_all s : String.substring 0 (String.length s) s = s.
Proof. induction s as [|x s IH]; cbn; [reflexivity|]. rewrite IH. reflexivity. Qed.

Lemma take_app a b : PyStr.take (String.length a) (a ++ b) = a.
Proof.
  unfold PyStr.take.
  induction a as [|x a IH]; rewrite ?sapp_nil, ?sapp_cons;
    cbn [String.length String.substring].
  - destruct b; reflexivity.
  - rewrite IH. reflexivity.
Qed.

Lemma length_sapp (a b : string) :
  String.length (a ++ b) = (String.length a + String.length b)%nat.
Proof.
  induction a as [|x a IH]; rewrite ?sapp_nil, ?sapp_cons; cbn [String.length Nat.add];
    [reflexivity|]. rewrite IH. reflexivity.
Qed.

Lemma drop_app a b : PyStr.drop (String.length a) (a ++ b) = b.
Proof.
  unfold PyStr.drop. rewrite length_sapp.
  replace (String.length a + String.length b - String.length a)%nat
    with (String.length b) by lia.
  induction a as [|x a IH]; rewrite ?sapp_nil, ?sapp_cons;
    cbn [String.length String.substring].
  - apply substring_all.
  - exact IH.
Qed.

Lemma drop_app_sep a c b : PyStr.drop (S (String.length a)) (a ++ String c b) = b.
Proof.
  unfold PyStr.drop. rewrite length_sapp. cbn [String.length].
  replace (String.length a + S (String.length b) - S (String.length a))%nat
    with (String.length b) by lia.
  induction a as [|x a IH]; rewrite ?sapp_nil, ?sapp_cons;
    cbn [String.length String.substring].
  - apply substring_all.
  - exact IH.
Qed.

(** [s.rsplit('.', 1)] of [a . b] with no dot in [b]. *)
Lemma rsplit1_app c a b :
  PyStr.contains c b = false ->
  PyStr.rsplit1 c (a ++ String c b) = [a; b].
Proof.
  intros H. unfold PyStr.rsplit1. rewrite (rfind_app_last c a b H).
  rewrite take_app, drop_app_sep. reflexivity.
Qed.

(** X1.  [allowed_file] looks only at what follows the last dot, without
    regard to case: a name [base.ext], where [ext] has no dot, is accepted
    exactly when the lower-cased [ext] is one of the four extensions. *)
Theorem allowed_file_last_extension base ext :
  PyStr.contains "." ext = false ->
  allowed_file (base ++ "." ++ ext) =
  bool_decide (PyStr.lower ext ∈ ALLOWED_EXTENSIONS).
Proof.
  intros H. unfold allowed_file.
  change (base ++ "." ++ ext) with (base ++ String "." ext).
  rewrite contains_app_sep, (rsplit1_app "." base ext H). reflexivity.
Qed.

Lemma allowed_file_last_extension_witness :
  allowed_file ("invoice.exe" ++ "." ++ "PdF") = true.
Proof.
  rewrite (allowed_file_last_extension "invoice.exe" "PdF" eq_refl).
  vm_compute. reflexivity.
Defined.

(** A name without a dot is never accepted, whatever it is. *)
Lemma allowed_file_needs_dot name :
  PyStr.contains "." name = false -> allowed_file name = false.
Proof. intros H. unfold allowed_file. rewrite H. reflexivity. Qed.

Lemma sapp_assoc (a b c : string) : (a ++ b) ++ c = a ++ (b ++ c).
Proof.
  induction a as [|x a IH]; rewrite ?sapp_nil, ?sapp_cons; [reflexivity|].
  rewrite IH. reflexivity.
Qed.

(** [os.path.splitext]: the extension is empty, or it is the last dot of
    the name and what follows it. *)
Lemma splitext_ext p :
  snd (PyStr.splitext p) = EmptyString \/
  exists rest, snd (PyStr.splitext p) = String "." rest /\
               PyStr.contains "." rest = false.
Proof.
  unfold PyStr.splitext.
  destruct (PyStr.rfind "." p) as [dot|] eqn:E; [|left; reflexivity].
  destruct (Nat.ltb dot _); [left; reflexivity|].
  destruct (PyStr.has_non_dot _ _); [|left; reflexivity].
  right. apply rfind_Some in E as (a & b & -> & <- & Hb).
  exists b. cbn [snd]. rewrite drop_app. auto.
Qed.

Lemma clean_filename_parts o filename :
  exists name rest,
    PyStr.truthy name = true /\ PyStr.contains "." rest = false /\
    clean_filename o filename = name ++ "_" ++ uuid8 o ++ "." ++ rest.
Proof.
  unfold clean_filename.
  set (secure := if PyStr.truthy (secure_filename o filename)
                 then secure_filename o filename else "document.pdf").
  pose proof (splitext_ext secure) as He.
  destruct (PyStr.splitext secure) as [name ext]. cbn [snd] in He.
  set (name' := if PyStr.truthy name then name else "document").
  assert (Hn : PyStr.truthy name' = true).
  { subst name'. destruct (PyStr.truthy name) eqn:E; [exact E|reflexivity]. }
  assert (Hx : exists rest, (if PyStr.truthy ext then ext else ".pdf") = String "." rest
                            /\ PyStr.contains "." rest = false).
  { destruct He as [->|(rest & -> & Hr)].
    - exists "pdf". split; reflexivity.
    - exists rest. split; [reflexivity|exact Hr]. }
  destruct Hx as (rest & -> & Hr).
  exists name', rest. repeat split; auto.
Qed.

Lemma docx_name_stem stem rest :
  PyStr.contains "." rest = false ->
  docx_name (stem ++ "." ++ rest) = stem ++ ".docx".
Proof.
  intros Hr. unfold docx_name.
  change (stem ++ "." ++ rest) with (stem ++ String "." rest).
  rewrite (rsplit1_app "." _ rest Hr). reflexivity.
Qed.

(** X2.  [clean_filename] always returns a non-empty stem, an
    underscore, the unique id, and an extension made of one dot and a
    dot-free rest; the artifact name derived from it at line 471 is the same
    stem and id with [.docx]. *)
Theorem clean_filename_shape o filename :
  exists name rest,
    PyStr.truthy name = true /\ PyStr.contains "." rest = false /\
    clean_filename o filename = name ++ "_" ++ uuid8 o ++ "." ++ rest /\
    docx_name (clean_filename o filename) = name ++ "_" ++ uuid8 o ++ ".docx".
Proof.
  destruct (clean_filename_parts o filename) as (name & rest & Hn & Hr & E).
  exists name, rest. repeat split; auto.
  rewrite E.
  replace (name ++ "_" ++ uuid8 o ++ "." ++ rest)
    with ((name ++ "_" ++ uuid8 o) ++ "." ++ rest)
    by (rewrite !sapp_assoc; reflexivity).
  rewrite (docx_name_stem _ rest Hr). rewrite !sapp_assoc. reflexivity.
Qed.

(** ** Statistics *)

(** X3.  [update_stats] moves [total_conversions] and the sum of
    [successful_conversions] and [failed_conversions] together, also when it
    raises: their difference is the same before and after. *)
Theorem update_stats_keeps_balance cfg o success engine pt w :
  let s := conversion_stats w in
  let s' := conversion_stats (snd (update_stats cfg o success engine pt w)) in
  total_conversions s' - (successful_conversions s' + failed_conversions s') =
  total_conversions s - (successful_conversions s + failed_conversions s).
Proof.
  unfold update_stats, bind, record, modify, get_world, try_except,
    redis_incr_total, logger, raise, ret.
  cbn.
  destruct success; cbn;
    destruct (engine_usage (conversion_stats w) !! engine); cbn;
    destruct (redis_client cfg); cbn;
    try destruct (redis_incr_fault o); cbn;
    repeat (match goal with
            | |- context [Z.eqb ?a ?b] => destruct (Z.eqb a b)
            end; cbn);
    lia.
Qed.

Lemma update_stats_cases cfg o success engine pt w :
  let usage := engine_usage (conversion_stats w) in
  let out := update_stats cfg o success engine pt w in
  let usage' := engine_usage (conversion_stats (snd out)) in
  match usage !! engine with
  | None => fst out = Raise (KeyError engine) /\ usage' = usage
  | Some n => usage' = <[engine := n + 1]> usage /\
              (fst out = Ok tt \/ fst out = Raise ZeroDivisionError)
  end.
Proof.
  unfold update_stats, bind, record, modify, get_world, try_except,
    redis_incr_total, logger, raise, ret.
  cbn.
  destruct success; cbn;
    destruct (engine_usage (conversion_stats w) !! engine) eqn:Eu; cbn;
    destruct (redis_client cfg); cbn;
    try destruct (redis_incr_fault o); cbn;
    repeat (match goal with
            | |- context [Z.eqb ?a ?b] => destruct (Z.eqb a b)
            end; cbn);
    auto.
Qed.

(** X4.  [update_stats] raises [KeyError] exactly for an operation
    name that is not a key of [engine_usage]; it never adds or removes a
    key; and when it returns, the counter of that name went up by one and
    no other counter moved. *)
Theorem update_stats_usage cfg o success engine pt w :
  let usage := engine_usage (conversion_stats w) in
  let out := update_stats cfg o success engine pt w in
  let usage' := engine_usage (conversion_stats (snd out)) in
  (fst out = Raise (KeyError engine) <-> usage !! engine = None) /\
  (forall k, is_Some (usage' !! k) <-> is_Some (usage !! k)) /\
  (fst out = Ok tt ->
   usage' !! engine = (fun n => n + 1) <$> usage !! engine /\
   forall k, k <> engine -> usage' !! k = usage !! k).
Proof.
  intros usage out usage'.
  pose proof (update_stats_cases cfg o success engine pt w) as H.
  cbn zeta in H. fold usage out usage' in H.
  destruct (usage !! engine) as [n|] eqn:Eu.
  - destruct H as [-> Hr]. split; [|split].
    + split; [|discriminate]. intros Hk.
      destruct Hr as [Hr|Hr]; rewrite Hr in Hk; discriminate.
    + intros k. destruct (decide (k = engine)) as [->|Hk].
      * rewrite lookup_insert_eq, Eu. split; eauto.
      * rewrite lookup_insert_ne by congruence. tauto.
    + intros _. rewrite lookup_insert_eq. split; [reflexivity|].
      intros k Hk. rewrite lookup_insert_ne by congruence. reflexivity.
  - destruct H as [Hr ->]. split; [|split].
    + tauto.
    + tauto.
    + rewrite Hr. discriminate.
Qed.

(** X5.  Neither the outcome of [update_stats] nor the
    statistics it leaves in memory depend on Redis: with or without a
    client, whether or not the increment fails, they are the same. *)
Theorem update_stats_ignores_redis cfg cfg' o o' success engine pt w :
  fst (update_stats cfg o success engine pt w) =
  fst (update_stats cfg' o' success engine pt w) /\
  conversion_stats (snd (update_stats cfg o success engine pt w)) =
  conversion_stats (snd (update_stats cfg' o' success engine pt w)).
Proof.
  unfold update_stats, bind, record, modify, get_world, try_except,
    redis_incr_total, logger, raise, ret.
  cbn.
  destruct success; cbn;
    destruct (engine_usage (conversion_stats w) !! engine); cbn;
    destruct (redis_client cfg), (redis_client cfg'); cbn;
    try destruct (redis_incr_fault o); try destruct (redis_incr_fault o'); cbn;
    repeat (match goal with
            | |- context [Z.eqb ?a ?b] => destruct (Z.eqb a b)
            end; cbn);
    split; reflexivity.
Qed.









(** ** The conversion cache *)

Lemma sapp_inj_l (p a b : string) : (p ++ a = p ++ b)%string -> a = b.
Proof.
  induction p as [|c p IH]; rewrite ?sapp_nil, ?sapp_cons; intros H.
  - exact H.
  - injection H as H. auto.
Qed.

Lemma cache_key_engine h e e' : cache_key h e = cache_key h e' -> e = e'.
Proof.
  unfold cache_key. intros H.
  apply sapp_inj_l in H. apply sapp_inj_l in H. apply sapp_inj_l in H. exact H.
Qed.

(** X7.  A stored result is served back for the same hash and engine
    for exactly [CACHE_TTL] = 3600 seconds of the wall clock: a lookup made
    while the entry is in Redis returns the stored name when the clock
    reads less than the time of storing plus 3600, and nothing from then
    on. *)
Theorem cached_result_round_trip cfg o h e name w w2 :
  cache_available cfg && redis_client cfg = true ->
  redis_setex_fault o = None -> redis_get_fault o = None ->
  PyStr.truthy name = true ->
  redis_kv w2 !! cache_key h e
    = redis_kv (snd (set_cached_result cfg o h e name w)) !! cache_key h e ->
  let stored := clock o (tick w) in
  let now := clock o (tick w2) in
  fst (set_cached_result cfg o h e name w) = Ok tt /\
  ((now < stored + 3600)%Q -> fst (get_cached_result cfg o h e w2) = Ok (Some name)) /\
  ((stored + 3600 <= now)%Q -> fst (get_cached_result cfg o h e w2) = Ok None).
Proof.
  intros Hc Hs Hg Hn Hkv. cbn zeta.
  apply andb_true_iff in Hc as [Hc1 Hc2].
  unfold set_cached_result, get_cached_result, redis_setex, redis_get in *.
  rewrite Hc1, Hc2, ?Hs, ?Hg in *. cbn in Hkv |- *.
  rewrite lookup_insert_eq in Hkv.
  unfold bind, live_value. rewrite Hkv.
  split; [reflexivity|]. split; intros Ht.
  - destruct (Qle_bool _ _) eqn:E.
    + apply Qle_bool_iff in E. exfalso. apply (Qlt_not_le _ _ Ht).
      exact E.
    + rewrite Hn. reflexivity.
  - destruct (Qle_bool _ _) eqn:E; [reflexivity|].
    apply not_true_iff_false in E. exfalso. apply E.
    apply Qle_bool_iff. exact Ht.
Qed.

Lemma cached_result_round_trip_witness :
  let w := Scenario.fresh in
  let w1 := snd (set_cached_result Scenario.with_cache Scenario.healthy
                   "9e107d9d" "standard" "report_0a1b2c3d.docx" w) in
  fst (get_cached_result Scenario.with_cache Scenario.healthy
         "9e107d9d" "standard" (set_tick (fun _ => 3599%nat) w1))
    = Ok (Some "report_0a1b2c3d.docx") /\
  fst (get_cached_result Scenario.with_cache Scenario.healthy
         "9e107d9d" "standard" (set_tick (fun _ => 3600%nat) w1))
    = Ok None.
Proof.
  cbn zeta. split.
  - apply (cached_result_round_trip Scenario.with_cache Scenario.healthy
             "9e107d9d" "standard" "report_0a1b2c3d.docx" Scenario.fresh
             (set_tick (fun _ => 3599%nat)
                (snd (set_cached_result Scenario.with_cache Scenario.healthy
                        "9e107d9d" "standard" "report_0a1b2c3d.docx"
                        Scenario.fresh))));
      try reflexivity.
  - apply (cached_result_round_trip Scenario.with_cache Scenario.healthy
             "9e107d9d" "standard" "report_0a1b2c3d.docx" Scenario.fresh
             (set_tick (fun _ => 3600%nat)
                (snd (set_cached_result Scenario.with_cache Scenario.healthy
                        "9e107d9d" "standard" "report_0a1b2c3d.docx"
                        Scenario.fresh))));
      try reflexivity.
    vm_compute. discriminate.
Defined.

(** X8.  Results are cached per engine: storing the result of
    one engine for a file changes no answer of the cache for the same file
    and another engine. *)
Theorem cached_result_is_per_engine cfg o h e e' name w :
  e <> e' ->
  fst (get_cached_result cfg o h e' (snd (set_cached_result cfg o h e name w)))
  = fst (get_cached_result cfg o h e' w).
Proof.
  intros Hne.
  assert (Hk : cache_key h e <> cache_key h e').
  { intros H. apply Hne. eapply cache_key_engine. exact H. }
  unfold set_cached_result, get_cached_result, redis_setex, redis_get, bind, ret,
    logger, modify, live_value.
  destruct (negb (cache_available cfg) || negb (redis_client cfg)); [reflexivity|].
  destruct (redis_setex_fault o); cbn; [reflexivity|].
  destruct (redis_get_fault o); cbn; [reflexivity|].
  rewrite lookup_insert_ne by assumption.
  destruct (redis_kv w !! cache_key h e') as [[v x]|]; [|reflexivity].
  destruct (Qle_bool x (clock o (tick w))); [reflexivity|].
  destruct (PyStr.truthy v); reflexivity.
Qed.

Lemma cached_result_is_per_engine_witness :
  fst (get_cached_result Scenario.with_cache Scenario.healthy
         "md5(%PDF-1.7)" "high_quality"
         (snd (set_cached_result Scenario.with_cache Scenario.healthy
                 "md5(%PDF-1.7)" "standard" "report_0a1b2c3d.docx"
                 (Scenario.warm "high_quality"))))
  = Ok (Some "old_11aa22bb.docx").
Proof.
  rewrite (cached_result_is_per_engine Scenario.with_cache Scenario.healthy
             "md5(%PDF-1.7)" "standard" "high_quality" "report_0a1b2c3d.docx"
             (Scenario.warm "high_quality")).
  - reflexivity.
  - discriminate.
Defined.

(** ** [Convert.post]: what the caller can receive *)

Lemma remove_if_exists_raise o d name w e w1 :
  remove_if_exists o d name w = (Raise e, w1) -> exists detail, e = OSError detail.
Proof.
  unfold remove_if_exists, bind, path_exists, os_remove, ret.
  destruct (fexists name (folder_of d w)); [|discriminate].
  destruct (flookup name (folder_of d w)); [|intros H; inversion H; eauto].
  destruct (remove_fault o d name); intros H; inversion H; eauto.
Qed.

(** The [except] clause always ends in an exception that the caller
    receives as a 500. *)
Lemma post_except_unexpected cfg o start e w :
  exists e', fst (post_except cfg o start e w) = Raise e' /\ unexpected e'.
Proof.
  unfold post_except.
  cbv beta iota zeta delta [bind time_time logger modify get_world ret abort raise].
  cbn [locals set_log set_tick].
  set (w1 := set_log _ _).
  set (cleanup := match v_pdf_path (locals w) with
                  | Some p => remove_if_exists o UPLOAD_FOLDER p
                  | None => fun w => (Ok tt, w)
                  end).
  destruct (cleanup w1) as [r2 w2] eqn:E2.
  destruct r2 as [[]|e2]; cbn [fst snd].
  - pose proof (update_stats_effect cfg o false
        (default "unknown" (v_engine (locals w2))) (clock o (tick w) - start)%Q w2) as H.
    cbn zeta in H. destruct (update_stats _ _ _ _ _ _) as [r w'].
    cbn [fst snd] in H. destruct H as (_ & _ & _ & _ & _ & _ & _ & H & _).
    destruct r as [[]|e0]; cbn [fst snd].
    + eexists; split; [reflexivity|reflexivity].
    + eexists; split; [reflexivity|].
      destruct H as [H|[H|H]]; inversion H; exact I.
  - exists e2. split; [reflexivity|].
    subst cleanup. destruct (v_pdf_path (locals w)) as [p|]; [|discriminate E2].
    apply remove_if_exists_raise in E2 as [detail ->]. exact I.
Qed.

(** X9.  [Convert.post] answers 200 or 500 and nothing else:
    every [api.abort(400, ..)] and the [api.abort(503, ..)] of its [try]
    block is caught by its own [except Exception] clause, which ends in an
    exception that is a 500.  No request gets a 4xx or a 503 from this
    handler. *)
Theorem post_status_is_200_or_500 cfg o req w :
  (forall code message,
     fst (post cfg o req w) = Raise (HTTPException code message) -> code = 500) /\
  (http_status (fst (post cfg o req w)) = 200 \/
   http_status (fst (post cfg o req w)) = 500).
Proof.
  assert (G : (exists r, fst (post cfg o req w) = Ok r) \/
              exists e, fst (post cfg o req w) = Raise e /\ unexpected e).
  { unfold post.
    cbv beta iota zeta delta [bind time_time modify try_except].
    destruct (post_try cfg o req _ _) as [[r|e] w1].
    - left. eexists. reflexivity.
    - right. apply post_except_unexpected. }
  destruct G as [[r ->]|(e & -> & He)].
  - split; [discriminate|]. left. reflexivity.
  - split.
    + intros code message H. injection H as ->. exact He.
    + right. apply unexpected_status. exact He.
Qed.

(** ** [Convert.post]: a failing engine *)

Lemma update_stats_counts cfg o b e pt w :
  let s := conversion_stats w in
  let s' := conversion_stats (snd (update_stats cfg o b e pt w)) in
  successful_conversions s' = successful_conversions s + (if b then 1 else 0) /\
  failed_conversions s' = failed_conversions s + (if b then 0 else 1).
Proof.
  unfold update_stats, bind, record, modify, get_world, try_except,
    redis_incr_total, logger, raise, ret.
  cbn.
  destruct b; cbn;
    destruct (engine_usage (conversion_stats w) !! e) eqn:Eu; cbn;
    destruct (redis_client cfg); cbn;
    try destruct (redis_incr_fault o); cbn;
    repeat (match goal with
            | |- context [Z.eqb ?a ?b] => destruct (Z.eqb a b)
            end; cbn);
    split; lia.
Qed.

(** The engine stage when pdf2docx is the engine that runs and it raises. *)
Lemma engine_stage_pdf2docx_raises cfg o start engine safe w e detail :
  select_engine cfg engine = Some "standard" ->
  flookup safe (uploads w) = Some e ->
  pdf2docx_convert o (f_data e) = EngRaise detail ->
  exists f,
    engine_stage cfg o start engine safe w =
    (Raise (EngineError detail),
     set_calls (fun l => (l ++ [CallEngine "standard"])%list) (set_log f w)).
Proof.
  intros Hsel Hl Hraise.
  assert (R : forall d w1, uploads w1 = uploads w ->
    run_pdf2docx o safe d w1 =
    (Raise (EngineError detail),
     set_calls (fun l => (l ++ [CallEngine "standard"])%list) w1)).
  { intros d w1 Hu.
    unfold run_pdf2docx, bind, record, modify, read_file.
    cbn [folder_of set_calls uploads]. rewrite Hu, Hl, Hraise. reflexivity. }
  unfold select_engine in Hsel. unfold engine_stage.
  destruct (String.eqb engine "high_quality" && ASPOSE_AVAILABLE cfg) eqn:E1;
    [discriminate Hsel|].
  destruct (String.eqb engine "standard" && PDF2DOCX_AVAILABLE cfg) eqn:E2.
  { cbv beta iota zeta delta [bind logger modify].
    rewrite R by reflexivity. eexists. reflexivity. }
  destruct (PDF2DOCX_AVAILABLE cfg) eqn:E3.
  { cbv beta iota zeta delta [bind logger modify].
    rewrite R by reflexivity. eexists. reflexivity. }
  destruct (ASPOSE_AVAILABLE cfg); discriminate Hsel.
Qed.

(** The [except] clause on a request whose upload is on disk and whose
    [engine] variable is a known name. *)
Lemma post_except_cleanup cfg o start err w engine safe :
  locals w = Frame (Some engine) (Some safe) ->
  fexists safe (uploads w) = true ->
  remove_fault o UPLOAD_FOLDER safe = None ->
  is_Some (engine_usage (conversion_stats w) !! engine) ->
  total_conversions (conversion_stats w) <> -1 ->
  let r := post_except cfg o start err w in
  fst r = Raise (HTTPException 500 (str_exn o err)) /\
  uploads (snd r) = fremove safe (uploads w) /\
  converted (snd r) = converted w /\
  redis_kv (snd r) = redis_kv w /\
  calls (snd r) = (calls w ++ [CallUpdateStats false engine])%list /\
  failed_conversions (conversion_stats (snd r))
    = failed_conversions (conversion_stats w) + 1.
Proof.
  intros Hloc Hex Hrm Hkey Htot. unfold post_except.
  cbv beta iota zeta delta [bind time_time logger modify get_world ret abort raise
    remove_if_exists path_exists os_remove].
  cbn [locals set_log set_tick folder_of uploads]. rewrite Hloc. cbn [v_pdf_path].
  cbn [uploads set_log set_tick]. rewrite Hex. cbn [uploads set_log set_tick].
  unfold fexists in Hex.
  destruct (flookup safe (uploads w)) eqn:Hl; [|discriminate Hex].
  rewrite Hrm.
  set (w2 := set_folder UPLOAD_FOLDER _ _).
  change (locals w2) with (locals w). rewrite Hloc.
  change (default "unknown" (v_engine (Frame (Some engine) (Some safe))))
    with engine.
  pose proof (update_stats_effect cfg o false engine (clock o (tick w) - start)%Q w2) as U.
  pose proof (update_stats_counts cfg o false engine (clock o (tick w) - start)%Q w2) as C.
  cbn zeta in U, C.
  destruct (update_stats _ _ _ _ _ _) as [r w'] eqn:E. cbn [fst snd] in U, C |- *.
  destruct U as (U1 & U2 & U3 & _ & _ & U4 & _ & _ & U5).
  destruct C as [_ C].
  rewrite (U5 Hkey Htot). cbn [fst snd].
  rewrite U1, U2, U3, U4, C. repeat split; try reflexivity.
Qed.

(** X10.  A request whose conversion by pdf2docx raises: the
    caller gets a 500 whose message is the engine's own exception text, the
    upload is deleted, nothing is added to the converted folder, and one
    failure is recorded, under the engine named in the request even when
    pdf2docx ran as the stand-in for it. *)
Theorem pdf2docx_failure_is_cleaned_up cfg o req file w detail :
  files_file req = Some file -> rejected req = false -> save_fault o = None ->
  lookup_misses cfg o w
    (cache_key (md5_hexdigest o (content file)) (engine_field req)) ->
  select_engine cfg (engine_field req) = Some "standard" ->
  pdf2docx_convert o (content file) = EngRaise detail ->
  remove_fault o UPLOAD_FOLDER (clean_filename o (filename file)) = None ->
  is_Some (engine_usage (conversion_stats w) !! engine_field req) ->
  total_conversions (conversion_stats w) <> -1 ->
  let out := post cfg o req w in
  fst out = Raise (HTTPException 500 detail) /\
  fexists (clean_filename o (filename file)) (uploads (snd out)) = false /\
  converted (snd out) = converted w /\
  calls (snd out) = (calls w ++ [CallEngine "standard";
                                 CallUpdateStats false (engine_field req)])%list /\
  failed_conversions (conversion_stats (snd out))
    = failed_conversions (conversion_stats w) + 1.
Proof.
  intros Hf Hrej Hsave Hmiss Hsel Hraise Hrm Hkey Htot. cbn zeta.
  rewrite (post_after_upload cfg o req file w Hf Hrej Hsave).
  set (safe := clean_filename o (filename file)) in *.
  destruct (post_cached_miss cfg o (clock o (tick w))
              (md5_hexdigest o (content file)) (engine_field req) safe
              (uploaded o req file w) Hmiss) as [f Hp].
  unfold try_except. rewrite Hp. unfold post_convert.
  destruct (engine_stage_pdf2docx_raises cfg o (clock o (tick w)) (engine_field req)
              safe (set_log f (uploaded o req file w))
              (FEntry true (clock o (S (tick w))) (content file)) detail Hsel)
    as [g Hg].
  { cbn. apply flookup_fwrite_eq. }
  { exact Hraise. }
  rewrite (bind_raise _ _ _ _ _ Hg).
  set (w2 := set_calls _ _).
  pose proof (post_except_cleanup cfg o (clock o (tick w)) (EngineError detail) w2
                (engine_field req) safe) as P.
  cbn zeta in P.
  destruct P as (P1 & P2 & P3 & _ & P4 & P5); try assumption; try reflexivity.
  { unfold fexists. cbn. rewrite flookup_fwrite_eq. reflexivity. }
  rewrite P1, P2, P3, P4, P5. cbn [str_exn].
  split; [reflexivity|]. split.
  { unfold fexists. rewrite flookup_fremove. reflexivity. }
  split; [reflexivity|]. split; [|reflexivity].
  cbn. rewrite <- app_assoc. reflexivity.
Qed.

Lemma pdf2docx_failure_is_cleaned_up_witness :
  let out := post Scenario.only_pdf2docx
               (Scenario.with_pdf2docx (fun _ => EngRaise "bad xref table")
                  Scenario.healthy)
               (Scenario.upload "report.pdf" (Some "high_quality"))
               Scenario.fresh in
  fst out = Raise (HTTPException 500 "bad xref table") /\
  fexists "report_0a1b2c3d.pdf" (uploads (snd out)) = false /\
  converted (snd out) = [] /\
  calls (snd out) = [CallEngine "standard"; CallUpdateStats false "high_quality"] /\
  failed_conversions (conversion_stats (snd out)) = 1.
Proof.
  apply (pdf2docx_failure_is_cleaned_up Scenario.only_pdf2docx
           (Scenario.with_pdf2docx (fun _ => EngRaise "bad xref table")
              Scenario.healthy)
           (Scenario.upload "report.pdf" (Some "high_quality"))
           (FileStorage "report.pdf" "%PDF-1.7") Scenario.fresh "bad xref table");
    try reflexivity.
  - left. reflexivity.
  - eexists. vm_compute. reflexivity.
  - discriminate.
Defined.

(** ** [Convert.post]: what a successful request leaves behind *)

Lemma remove_if_exists_gone o name w w1 :
  remove_if_exists o UPLOAD_FOLDER name w = (Ok tt, w1) ->
  fexists name (uploads w1) = false /\ redis_kv w1 = redis_kv w /\
  tick w1 = tick w.
Proof.
  unfold remove_if_exists, bind, path_exists, os_remove, ret.
  cbn [folder_of].
  destruct (fexists name (uploads w)) eqn:Hex.
  - destruct (flookup name (uploads w)); [|discriminate].
    destruct (remove_fault o UPLOAD_FOLDER name); [discriminate|].
    intros H. inversion H; subst. cbn. unfold fexists.
    rewrite flookup_fremove. auto.
  - intros H. inversion H; subst. auto.
Qed.

Lemma post_finish_store cfg o start file_hash safe (chosen : string * bool) w r w' :
  post_finish cfg o start file_hash safe chosen w = (Ok r, w') ->
  fexists safe (uploads w') = false /\
  redis_kv w' =
    (if cache_available cfg && redis_client cfg
     then <[cache_key file_hash (fst chosen) :=
              (docx_name safe, (clock o (tick w) + inject_Z CACHE_TTL)%Q)]> (redis_kv w)
     else redis_kv w).
Proof.
  unfold post_finish. cbn zeta. intros H.
  inv_bind H. inv_bind H.
  destruct (negb a || negb chosen.2) eqn:Hc.
  { inv_bind E0. inv_bind E0. discriminate E0. }
  inv_bind H. inv_bind H. inv_bind H. inv_bind H. inv_bind H.
  inversion H; subst; clear H.
  inversion E0; subst; clear E0.
  unfold path_exists in E. inversion E; subst; clear E.
  destruct a2. apply remove_if_exists_gone in E2 as (G1 & G2 & G3).
  frame uploads E3. frame uploads E5. frame redis_kv E3. frame redis_kv E5.
  pose proof (update_stats_effect cfg o true (fst chosen) (a3 - start)%Q w4) as U.
  cbn zeta in U. rewrite E4 in U. cbn [fst snd] in U.
  destruct U as (U1 & _ & U3 & _).
  split; [congruence|].
  rewrite S2, U3, S1, G2.
  unfold set_cached_result in E1.
  destruct (cache_available cfg), (redis_client cfg); cbn in E1 |- *;
    try (inversion E1; subst; reflexivity).
  unfold redis_setex in E1. destruct (redis_setex_fault o); [discriminate E1|].
  inversion E1; subst. reflexivity.
Qed.

Lemma engine_stage_frame cfg o start engine safe w chosen w1 :
  engine_stage cfg o start engine safe w = (Ok chosen, w1) ->
  uploads w1 = uploads w /\ redis_kv w1 = redis_kv w /\ tick w1 = tick w.
Proof.
  unfold engine_stage. intros H.
  assert (P : forall p d wa r wb, run_pdf2docx o p d wa = (r, wb) ->
     uploads wb = uploads wa /\ redis_kv wb = redis_kv wa /\ tick wb = tick wa).
  { intros p d wa r wb. unfold run_pdf2docx, bind, record, modify, read_file,
      write_file, raise, ret. cbn.
    repeat case_match; simplify_eq; intros E; inversion E; subst; auto. }
  assert (A : forall p wa r wb, aspose_load o p wa = (r, wb) ->
     uploads wb = uploads wa /\ redis_kv wb = redis_kv wa /\ tick wb = tick wa).
  { intros p wa r wb. unfold aspose_load, bind, record, modify, read_file,
      raise, ret. cbn.
    repeat case_match; simplify_eq; intros E; inversion E; subst; auto. }
  destruct (String.eqb engine "high_quality" && ASPOSE_AVAILABLE cfg) eqn:E1.
  { inv_bind H. inv_bind H.
    apply try_ok_inv in H as [H|(e & w3 & _ & H)].
    - inv_bind H. inv_bind H. inv_bind H. inv_bind H. inv_bind H. inv_bind H.
      inversion H; subst; clear H.
      apply A in E2 as (A1 & A2 & A3).
      frame uploads E. frame uploads E0. frame uploads E3. frame uploads E4.
      frame uploads E5. frame uploads E6. frame uploads E7.
      frame redis_kv E. frame redis_kv E0. frame redis_kv E3. frame redis_kv E4.
      frame redis_kv E5. frame redis_kv E6. frame redis_kv E7.
      frame tick E. frame tick E0. frame tick E3. frame tick E4.
      frame tick E5. frame tick E6. frame tick E7.
      repeat split; congruence.
    - inv_bind H. discriminate H. }
  destruct (String.eqb engine "standard" && PDF2DOCX_AVAILABLE cfg) eqn:E2.
  { inv_bind H. inv_bind H. inv_bind H.
    inversion H; subst; clear H.
    apply P in E0 as (A1 & A2 & A3).
    frame uploads E. frame uploads E3.
    frame redis_kv E. frame redis_kv E3.
    frame tick E. frame tick E3.
    repeat split; congruence. }
  destruct (PDF2DOCX_AVAILABLE cfg) eqn:E3.
  { inv_bind H. inv_bind H. inv_bind H. inv_bind H.
    inversion H; subst; clear H.
    apply P in E0 as (A1 & A2 & A3).
    frame uploads E. frame uploads E4. frame uploads E5.
    frame redis_kv E. frame redis_kv E4. frame redis_kv E5.
    frame tick E. frame tick E4. frame tick E5.
    repeat split; congruence. }
  destruct (ASPOSE_AVAILABLE cfg) eqn:E4.
  { inv_bind H. inv_bind H. inv_bind H. inv_bind H. inv_bind H.
    inversion H; subst; clear H.
    apply A in E0 as (A1 & A2 & A3).
    frame uploads E. frame uploads E5. frame uploads E6. frame uploads E7.
    frame redis_kv E. frame redis_kv E5. frame redis_kv E6. frame redis_kv E7.
    frame tick E. frame tick E5. frame tick E6. frame tick E7.
    repeat split; congruence. }
  inv_bind H. discriminate H.
Qed.

Lemma post_convert_store cfg o start file_hash engine safe w r w' :
  post_convert cfg o start file_hash engine safe w = (Ok r, w') ->
  r_cached r = false /\
  fexists safe (uploads w') = false /\
  redis_kv w' =
    (if cache_available cfg && redis_client cfg
     then <[cache_key file_hash (r_engine_used r) :=
              (r_filename r, (clock o (tick w) + inject_Z CACHE_TTL)%Q)]> (redis_kv w)
     else redis_kv w).
Proof.
  unfold post_convert. intros H. inv_bind H.
  pose proof (post_finish_ok _ _ _ _ _ _ _ _ _ H) as (H1 & _ & H3 & H4 & _).
  apply engine_stage_frame in E as (F1 & F2 & F3).
  apply post_finish_store in H as (G1 & G2).
  rewrite H3, H4, G2, F2, F3. auto.
Qed.

Lemma post_cached_store cfg o start file_hash engine safe w r w' :
  post_cached cfg o start file_hash engine safe w = (Ok r, w') ->
  (r_cached r = true /\ r_processing_time r = None /\
   uploads w' = uploads w /\ converted w' = converted w /\
   redis_kv w' = redis_kv w) \/
  (r_cached r = false /\
   fexists safe (uploads w') = false /\
   redis_kv w' =
     (if cache_available cfg && redis_client cfg
      then <[cache_key file_hash (r_engine_used r) :=
               (r_filename r, (clock o (tick w) + inject_Z CACHE_TTL)%Q)]> (redis_kv w)
      else redis_kv w)).
Proof.
  unfold post_cached. intros H. inv_bind H. inv_bind H.
  frame uploads E. frame converted E. frame redis_kv E. frame tick E.
  assert (Hw : w1 = w0).
  { destruct a as [name|]; [destruct (PyStr.truthy name)|];
      inversion E0; reflexivity. }
  subst w1.
  assert (R : post_convert cfg o start file_hash engine safe w0 = (Ok r, w') ->
    r_cached r = false /\
    fexists safe (uploads w') = false /\
    redis_kv w' =
      (if cache_available cfg && redis_client cfg
       then <[cache_key file_hash (r_engine_used r) :=
                (r_filename r, (clock o (tick w) + inject_Z CACHE_TTL)%Q)]> (redis_kv w)
       else redis_kv w)).
  { intros Hp. apply post_convert_store in Hp. rewrite S1, S2 in Hp. exact Hp. }
  destruct a0, a as [name|]; try (right; apply R; exact H).
  left.
  inv_bind H. inv_bind H. inv_bind H. inversion H; subst; clear H. cbn.
  frame uploads E1. frame uploads E2. frame converted E1. frame converted E2.
  frame redis_kv E1. frame redis_kv E2.
  pose proof (update_stats_effect cfg o true engine (a0 - start)%Q w2) as U.
  cbn zeta in U. rewrite E3 in U. cbn [fst snd] in U.
  destruct U as (U1 & U2 & U3 & _).
  repeat split; congruence.
Qed.

(** X11.  What a successful [Convert.post] leaves on disk and in
    Redis.  An answer served from the cache returns without deleting the
    file it has just saved: the upload stays in the upload folder (until
    the sweeper takes it), and neither the converted folder nor Redis
    changes.  A converted answer has deleted its upload, and with the cache
    on it has stored the artifact's name under the key of the engine that
    ran, for [CACHE_TTL] seconds; when that engine is a stand-in for the
    requested one, the entry under the requested engine's key, the one the
    request looked up, is as it was. *)
Theorem successful_request_leftovers cfg o req w r w' :
  post cfg o req w = (Ok r, w') ->
  exists file,
    files_file req = Some file /\
    let safe := clean_filename o (filename file) in
    let file_hash := md5_hexdigest o (content file) in
    (r_cached r = true ->
       uploads w' =
         fwrite safe (FEntry true (clock o (S (tick w))) (content file)) (uploads w) /\
       flookup safe (uploads w') =
         Some (FEntry true (clock o (S (tick w))) (content file)) /\
       converted w' = converted w /\ redis_kv w' = redis_kv w) /\
    (r_cached r = false ->
       fexists safe (uploads w') = false /\
       (cache_available cfg && redis_client cfg = true ->
          redis_kv w' !! cache_key file_hash (r_engine_used r)
            = Some (r_filename r, (clock o (S (tick w)) + 3600)%Q) /\
          (r_engine_used r <> engine_field req ->
             redis_kv w' !! cache_key file_hash (engine_field req)
               = redis_kv w !! cache_key file_hash (engine_field req))) /\
       (cache_available cfg && redis_client cfg = false ->
          redis_kv w' = redis_kv w)).
Proof.
  intros H.
  destruct (post_ok_validated cfg o req w r w' H) as (file & Hf & Hrej & Hsave).
  exists file. split; [exact Hf|]. cbn zeta.
  rewrite (post_after_upload cfg o req file w Hf Hrej Hsave) in H.
  apply try_ok_inv in H as [H|(e & w1 & _ & H)].
  2:{ exfalso. exact (post_except_never_ok _ _ _ _ _ _ _ H). }
  apply post_cached_store in H.
  destruct H as [(Hc & _ & Hu & Hcv & Hkv)|(Hc & Hu & Hkv)].
  - split; [|congruence]. intros _.
    rewrite Hu, Hcv, Hkv. cbn.
    rewrite flookup_fwrite_eq. auto.
  - split; [congruence|]. intros _.
    split; [exact Hu|]. cbn in Hkv. split.
    + intros Hon. rewrite Hon in Hkv. rewrite Hkv. split.
      * apply lookup_insert_eq.
      * intros Hne. apply lookup_insert_ne.
        intros Hk. apply Hne. eapply cache_key_engine. exact Hk.
    + intros Hoff. rewrite Hoff in Hkv. exact Hkv.
Qed.

Lemma successful_request_leftovers_witness :
  let req := Scenario.upload "report.pdf" (Some "high_quality") in
  let out := post Scenario.cached_pdf2docx_only Scenario.healthy req Scenario.fresh in
  fexists (clean_filename Scenario.healthy "report.pdf") (uploads (snd out)) = false /\
  redis_kv (snd out) !! cache_key (md5_hexdigest Scenario.healthy "%PDF-1.7") "standard"
    = Some ("report_0a1b2c3d.docx", (clock Scenario.healthy 1 + 3600)%Q) /\
  redis_kv (snd out) !! cache_key (md5_hexdigest Scenario.healthy "%PDF-1.7") "high_quality"
    = None.
Proof.
  cbn zeta.
  set (r := Response true "تم التحويل بنجاح!" "report_0a1b2c3d.docx" "standard"
                     "/download/report_0a1b2c3d.docx" (Some "1.00s") false).
  assert (E : post Scenario.cached_pdf2docx_only Scenario.healthy
                (Scenario.upload "report.pdf" (Some "high_quality")) Scenario.fresh
              = (Ok r, snd (post Scenario.cached_pdf2docx_only Scenario.healthy
                              (Scenario.upload "report.pdf" (Some "high_quality"))
                              Scenario.fresh)))
    by (vm_compute; reflexivity).
  destruct (successful_request_leftovers _ _ _ _ _ _ E) as (file & Hf & _ & Hn).
  injection Hf as <-.
  destruct (Hn eq_refl) as (H1 & H2 & _).
  destruct (H2 eq_refl) as (H3 & H4).
  split; [exact H1|]. split; [exact H3|].
  etransitivity; [apply H4; discriminate|reflexivity].
Defined.

(** ** The sweeper: what it never deletes *)

Section SweeperSafety.
Local Open Scope list_scope.

















End SweeperSafety.





(** ** [apply_rtl_to_docx] *)

(** X14.  [apply_rtl_to_docx] never raises and touches nothing but the
    document it is given and the log.  It returns [True] exactly when the
    file exists, python-docx can open it and [doc.save] works, and then the
    file holds the rewritten document; when it returns [False] the file is
    as the engine left it. *)
Theorem apply_rtl_to_docx_all_or_nothing cfg o name w :
  let out := apply_rtl_to_docx cfg o name w in
  (fst out = Ok true \/ fst out = Ok false) /\
  (uploads (snd out) = uploads w /\ conversion_stats (snd out) = conversion_stats w /\
   redis_kv (snd out) = redis_kv w /\ calls (snd out) = calls w /\
   tick (snd out) = tick w) /\
  (fst out = Ok true <->
   exists e doc, flookup name (converted w) = Some e /\
                 docx_parse o (f_data e) = Some doc /\ docx_save_fault o = None) /\
  (forall e doc,
     fst out = Ok true -> flookup name (converted w) = Some e ->
     docx_parse o (f_data e) = Some doc ->
     converted (snd out) =
       fwrite name (FEntry true (clock o (tick w))
                      (docx_render o (map (rtl_paragraph cfg o) doc)))
              (converted w)) /\
  (fst out = Ok false -> converted (snd out) = converted w).
Proof.
  unfold apply_rtl_to_docx, docx_open, docx_save.
  cbv beta iota zeta delta [bind try_except read_file write_file ret raise logger
                            modify folder_of set_folder].
  destruct (flookup name (converted w)) as [e|] eqn:Hl.
  2:{ cbn. repeat split; auto; try discriminate.
      intros (e & doc & H & _). discriminate. }
  destruct (docx_parse o (f_data e)) as [doc|] eqn:Hp.
  2:{ cbn. repeat split; auto; try discriminate.
      intros (e' & doc & [= <-] & H & _). congruence. }
  destruct (docx_save_fault o) as [detail|] eqn:Hs.
  { cbn. repeat split; auto; try discriminate.
    intros (e' & doc' & _ & _ & H). discriminate. }
  cbn. repeat split; auto; try discriminate.
  - intros _. eauto.
  - intros e' doc' _ [= <-] H. rewrite Hp in H. injection H as <-. reflexivity.
Qed.

Lemma rtl_run_kept o text :
  is_blank o text = true \/ reshape o text = None -> rtl_run o text = text.
Proof.
  unfold rtl_run. intros [H|H]; rewrite H; [reflexivity|].
  destruct (is_blank o text); reflexivity.
Qed.

(** X15.  The rewriting of a document by [apply_rtl_to_docx] keeps
    its shape: the same paragraphs in the same order, each with as many
    runs as before and with exactly one right-alignment element appended to
    its properties.  A run that is blank, or whose reshaping raises, keeps
    its text, any other run gets the reshaper's text, and without the Arabic
    modules no run changes. *)
Theorem rtl_paragraph_keeps_shape cfg o (doc : document) :
  Forall2
    (fun p q =>
       pPr q = (pPr p ++ [("w:jc", "right")])%list /\
       length (runs q) = length (runs p) /\
       (ARABIC_SUPPORT cfg = false -> runs q = runs p) /\
       (forall i text, runs p !! i = Some text ->
          (is_blank o text = true \/ reshape o text = None ->
           runs q !! i = Some text) /\
          (forall reshaped,
             ARABIC_SUPPORT cfg = true -> is_blank o text = false ->
             reshape o text = Some reshaped -> runs q !! i = Some reshaped)))
    doc (map (rtl_paragraph cfg o) doc).
Proof.
  induction doc as [|p doc IH]; cbn [map]; constructor; [|exact IH].
  unfold rtl_paragraph. cbn [pPr runs].
  split; [reflexivity|].
  destruct (ARABIC_SUPPORT cfg).
  - split; [apply length_map|]. split; [discriminate|].
    intros i text Hi.
    assert (Hq : map (rtl_run o) (runs p) !! i = Some (rtl_run o text)).
    { change (map (rtl_run o) (runs p)) with (rtl_run o <$> runs p).
      rewrite list_lookup_fmap, Hi. reflexivity. }
    split.
    + intros H. rewrite Hq, (rtl_run_kept o text H). reflexivity.
    + intros reshaped _ Hb Hr. rewrite Hq. unfold rtl_run. rewrite Hb, Hr.
      reflexivity.
  - split; [reflexivity|]. split; [reflexivity|].
    intros i text Hi. split; [auto|]. discriminate.
Qed.

(** ** [Stats.get] *)

Lemma py_int_ceiling (x : Q) : (x <= 0)%Q -> py_int x = Qceiling x.
Proof.
  destruct x as [n d]. unfold Qle, py_int, Qceiling, Qfloor. cbn.
  intros H. rewrite Z.mul_1_r in H.
  rewrite <- (Z.opp_involutive n) at 1. rewrite Z.quot_opp_l by lia.
  f_equal. apply Z.quot_div_nonneg; lia.
Qed.

Lemma py_int_monotone (x y : Q) : (x <= y)%Q -> py_int x <= py_int y.
Proof.
  intros H.
  destruct (Qlt_le_dec x 0) as [Hx|Hx]; destruct (Qlt_le_dec y 0) as [Hy|Hy].
  - rewrite !py_int_ceiling by (apply Qlt_le_weak; assumption).
    apply Qceiling_resp_le. exact H.
  - rewrite (py_int_ceiling x) by (apply Qlt_le_weak; assumption).
    rewrite (py_int_floor y) by assumption.
    transitivity 0.
    + change 0 with (Qceiling 0). apply Qceiling_resp_le, Qlt_le_weak. exact Hx.
    + change 0 with (Qfloor 0). apply Qfloor_resp_le. exact Hy.
  - exfalso. apply (Qlt_not_le _ _ Hy). eapply Qle_trans; eassumption.
  - rewrite !py_int_floor by assumption. apply Qfloor_resp_le. exact H.
Qed.

Lemma time_growth_monotone (now now' : Q) :
  (now <= now')%Q ->
  py_int ((now - 1703700000) / 600)%Q <= py_int ((now' - 1703700000) / 600)%Q.
Proof.
  intros H. apply py_int_monotone.
  apply Qmult_le_compat_r; [|discriminate].
  apply Qplus_le_l. exact H.
Qed.

Lemma Stats_get_count cfg o app_start_time w :
  exists r,
    fst (Stats_get cfg o app_start_time w) = Ok r /\
    sr_user_count r =
      1250 + py_int ((clock o (tick w) - 1703700000) / 600)%Q
           + total_conversions
               (conversion_stats (snd (Stats_get cfg o app_start_time w))).
Proof.
  unfold Stats_get.
  cbv beta iota zeta delta [bind time_time datetime_now try_except redis_get_total
                            modify get_world ret].
  destruct (redis_client cfg).
  - destruct (redis_get_fault o).
    + eexists. split; reflexivity.
    + cbn [redis_total set_tick].
      destruct (redis_total w); eexists; split; reflexivity.
  - eexists. split; reflexivity.
Qed.

(** X16.  Without a Redis client the displayed user count never
    goes back: of two calls to [/stats], the one made at the later clock
    reading, with at least as many conversions counted in memory, reports
    at least as large a [user_count]. *)
Theorem user_count_never_goes_back cfg o app_start_time w w2 r r2 :
  redis_client cfg = false ->
  (clock o (tick w) <= clock o (tick w2))%Q ->
  total_conversions (conversion_stats w) <= total_conversions (conversion_stats w2) ->
  fst (Stats_get cfg o app_start_time w) = Ok r ->
  fst (Stats_get cfg o app_start_time w2) = Ok r2 ->
  sr_user_count r <= sr_user_count r2.
Proof.
  intros Hc Hclock Htot H1 H2.
  destruct (Stats_get_count cfg o app_start_time w) as (r' & E1 & C1).
  destruct (Stats_get_count cfg o app_start_time w2) as (r2' & E2 & C2).
  rewrite H1 in E1. injection E1 as <-. rewrite H2 in E2. injection E2 as <-.
  rewrite C1, C2, !Stats_get_keeps_total by assumption.
  pose proof (time_growth_monotone _ _ Hclock). lia.
Qed.

Lemma user_count_never_goes_back_witness :
  match fst (Stats_get Scenario.both_engines Scenario.healthy 0 Scenario.fresh),
        fst (Stats_get Scenario.both_engines Scenario.healthy 0
               (set_tick (fun _ => 700%nat) Scenario.fresh)) with
  | Ok r, Ok r2 => sr_user_count r <= sr_user_count r2
  | _, _ => False
  end.
Proof.
  destruct (fst (Stats_get Scenario.both_engines Scenario.healthy 0 Scenario.fresh))
    as [r|e] eqn:E1; [|vm_compute in E1; discriminate E1].
  destruct (fst (Stats_get Scenario.both_engines Scenario.healthy 0
                   (set_tick (fun _ => 700%nat) Scenario.fresh)))
    as [r2|e] eqn:E2; [|vm_compute in E2; discriminate E2].
  apply (user_count_never_goes_back Scenario.both_engines Scenario.healthy 0
           Scenario.fresh (set_tick (fun _ => 700%nat) Scenario.fresh) r r2);
    [reflexivity|vm_compute; discriminate|reflexivity|exact E1|exact E2].
Defined.

(** X17.  A [GET /stats] is not read-only.  With a Redis client
    whose counter can be read, the handler overwrites the in-memory
    [total_conversions] with Redis's counter, whatever was counted in
    memory, and reports that number; the other statistics stay.  When the
    read fails or the counter is absent, nothing changes. *)
Theorem Stats_get_adopts_redis_total cfg o app_start_time w :
  let out := Stats_get cfg o app_start_time w in
  let s := conversion_stats w in
  let s' := conversion_stats (snd out) in
  (successful_conversions s' = successful_conversions s /\
   failed_conversions s' = failed_conversions s /\
   average_processing_time s' = average_processing_time s /\
   engine_usage s' = engine_usage s) /\
  (forall n, redis_client cfg = true -> redis_get_fault o = None ->
             redis_total w = Some n ->
     total_conversions s' = n /\
     exists r, fst out = Ok r /\
       sr_user_count r =
         1250 + py_int ((clock o (tick w) - 1703700000) / 600)%Q + n) /\
  (redis_client cfg = false \/ is_Some (redis_get_fault o) \/ redis_total w = None ->
   s' = s).
Proof.
  unfold Stats_get.
  cbv beta iota zeta delta [bind time_time datetime_now try_except redis_get_total
                            modify get_world ret].
  destruct (redis_client cfg).
  - destruct (redis_get_fault o) as [detail|].
    + cbn. split; [auto|]. split; [discriminate|]. auto.
    + cbn [redis_total set_tick].
      destruct (redis_total w) as [n|].
      * cbn. split; [auto|]. split.
        -- intros n' _ _ [= <-]. split; [reflexivity|]. eexists. split; reflexivity.
        -- intros [H|[[d H]|H]]; discriminate.
      * cbn. split; [auto|]. split; [discriminate|]. auto.
  - cbn. split; [auto|]. split; [discriminate|]. auto.
Qed.

(** ** [download_file] *)

Lemma lower_app (a b : string) : PyStr.lower (a ++ b) = PyStr.lower a ++ PyStr.lower b.
Proof.
  induction a as [|x a IH]; rewrite ?sapp_nil, ?sapp_cons; cbn [PyStr.lower];
    rewrite ?sapp_nil, ?sapp_cons; [reflexivity|].
  rewrite IH. reflexivity.
Qed.

Lemma lower_ascii_dot a : Ascii.eqb (PyStr.lower_ascii a) "." = Ascii.eqb a ".".
Proof.
  destruct a as [[] [] [] [] [] [] [] []]; vm_compute; reflexivity.
Qed.

Lemma contains_dot_lower s : PyStr.contains "." (PyStr.lower s) = PyStr.contains "." s.
Proof.
  induction s as [|a s IH]; cbn [PyStr.lower PyStr.contains]; [reflexivity|].
  rewrite lower_ascii_dot, IH. reflexivity.
Qed.

Lemma split_no_sep c s : PyStr.contains c s = false -> split c s = [s].
Proof.
  induction s as [|a s IH]; cbn [PyStr.contains split]; [reflexivity|].
  destruct (Ascii.eqb a c); [discriminate|].
  intros H. rewrite (IH H). reflexivity.
Qed.

Lemma split_snoc c b e :
  PyStr.contains c e = false ->
  exists seg l, split c (b ++ String c e) = seg :: (l ++ [e])%list.
Proof.
  intros He. induction b as [|a b (seg & l & IH)]; rewrite ?sapp_nil, ?sapp_cons;
    cbn [split].
  - rewrite Ascii.eqb_refl, (split_no_sep c e He). exists EmptyString, []. reflexivity.
  - rewrite IH. destruct (Ascii.eqb a c).
    + exists EmptyString, (seg :: l). reflexivity.
    + exists (String a seg), l. reflexivity.
Qed.

Lemma last_extension_app base ext :
  PyStr.contains "." ext = false ->
  last_extension (base ++ "." ++ ext) = PyStr.lower ext.
Proof.
  intros He. unfold last_extension.
  rewrite lower_app.
  change (PyStr.lower ("." ++ ext)) with (String "." (PyStr.lower ext)).
  destruct (split_snoc "." (PyStr.lower base) (PyStr.lower ext)) as (seg & l & ->).
  { rewrite contains_dot_lower. exact He. }
  change (seg :: (l ++ [PyStr.lower ext])%list)
    with ((seg :: l) ++ [PyStr.lower ext])%list.
  apply last_last.
Qed.

Lemma last_extension_bare ext :
  PyStr.contains "." ext = false -> last_extension ext = PyStr.lower ext.
Proof.
  intros He. unfold last_extension.
  rewrite split_no_sep by (rewrite contains_dot_lower; exact He). reflexivity.
Qed.

(** X18.  The MIME type of a download is decided by the text after
    the last dot of the sanitised name, without regard to case, and by
    nothing else; a name without any dot is taken whole as its own
    extension, so a file called [pdf] is served as [application/pdf]. *)
Theorem mimetype_by_last_extension base ext :
  PyStr.contains "." ext = false ->
  last_extension (base ++ "." ++ ext) = PyStr.lower ext /\
  mimetype_of (base ++ "." ++ ext) = mimetype_of ext /\
  mimetype_of (base ++ "." ++ ext) = mimetype_of (PyStr.lower ext).
Proof.
  intros He. split; [apply last_extension_app; exact He|].
  unfold mimetype_of.
  rewrite (last_extension_app base ext He), (last_extension_bare ext He).
  split; [reflexivity|].
  rewrite last_extension_bare by (rewrite contains_dot_lower; exact He).
  assert (Hl : forall s, PyStr.lower (PyStr.lower s) = PyStr.lower s).
  { induction s as [|a s IH]; cbn [PyStr.lower]; [reflexivity|]. rewrite IH.
    f_equal. destruct a as [[] [] [] [] [] [] [] []]; vm_compute; reflexivity. }
  rewrite Hl. reflexivity.
Qed.

Lemma mimetype_by_last_extension_witness :
  mimetype_of ("report.final_0a1b2c3d" ++ "." ++ "PDF") = "application/pdf" /\
  mimetype_of ("pages" ++ "." ++ "Zip") = "application/zip".
Proof.
  split.
  - rewrite (proj1 (proj2 (mimetype_by_last_extension "report.final_0a1b2c3d" "PDF"
                             eq_refl))).
    reflexivity.
  - rewrite (proj1 (proj2 (mimetype_by_last_extension "pages" "Zip" eq_refl))).
    reflexivity.
Defined.

Lemma download_file_found o filename w :
  snd (download_file o filename w) = w /\
  (fst (download_file o filename w) = Ok NotFound ->
   fexists (secure_filename o filename) (converted w) = false) /\
  (forall e, flookup (secure_filename o filename) (converted w) = Some e ->
             f_isfile e = true ->
             fst (download_file o filename w) =
             Ok (Attachment (secure_filename o filename)
                            (mimetype_of (secure_filename o filename)) (f_data e))).
Proof.
  unfold download_file, try_except, bind, path_exists, send_file, ret, fexists.
  cbn [folder_of].
  destruct (flookup (secure_filename o filename) (converted w)) as [e|] eqn:Hl; cbn.
  - rewrite Hl. destruct (f_isfile e) eqn:Hf; cbn.
    + split; [reflexivity|]. split; [discriminate|].
      intros e' [= <-] _. reflexivity.
    + split; [reflexivity|]. split; [discriminate|].
      intros e' [= <-] H. congruence.
  - split; [reflexivity|]. split; [reflexivity|]. intros e H. discriminate H.
Qed.



Lemma post_ok_artifact cfg o req w r w' :
  post cfg o req w = (Ok r, w') ->
  fexists (r_filename r) (converted w') = true /\
  (r_cached r = false ->
   exists file, files_file req = Some file /\
                r_filename r = docx_name (clean_filename o (filename file))).
Proof.
  intros H.
  destruct (post_ok_validated cfg o req w r w' H) as (file & Hf & Hrej & Hsave).
  rewrite (post_after_upload cfg o req file w Hf Hrej Hsave) in H.
  apply try_ok_inv in H as [H|(e & w1 & _ & H)].
  2:{ exfalso. exact (post_except_never_ok _ _ _ _ _ _ _ H). }
  pose proof (post_cached_store _ _ _ _ _ _ _ _ _ H) as St.
  apply post_cached_ok in H.
  destruct H as [(Hc & _ & _ & _ & _ & Hex & _)|(w1 & Hp & _ & _)].
  - destruct St as [(_ & _ & _ & Hcv & _)|(Hc' & _)]; [|congruence].
    split; [rewrite Hcv; exact Hex|]. congruence.
  - apply post_convert_ok in Hp as (used & _ & _ & _ & Hn & _ & Hex & _).
    split; [rewrite Hn; exact Hex|]. intros _. exists file. auto.
Qed.

Lemma mimetype_docx_name o filename :
  mimetype_of (docx_name (clean_filename o filename)) =
  "application/vnd.openxmlformats-officedocument.wordprocessingml.document".
Proof.
  destruct (clean_filename_parts o filename) as (name & rest & _ & Hr & ->).
  replace (name ++ "_" ++ uuid8 o ++ "." ++ rest)
    with ((name ++ "_" ++ uuid8 o) ++ "." ++ rest)
    by (rewrite !sapp_assoc; reflexivity).
  rewrite (docx_name_stem _ rest Hr).
  unfold mimetype_of.
  change ((name ++ "_" ++ uuid8 o) ++ ".docx")
    with ((name ++ "_" ++ uuid8 o) ++ "." ++ "docx").
  rewrite last_extension_app by reflexivity. reflexivity.
Qed.

(** X20.  The file named in a successful answer of
    [Convert.post] can be fetched right away: when sanitising leaves the
    name as it is, [/download] of [filename] does not answer 404, it sends
    the artifact's bytes whenever the artifact is a regular file, and the
    output of a conversion is sent with the Word MIME type. *)
Theorem converted_file_can_be_downloaded cfg o req w r w' :
  post cfg o req w = (Ok r, w') ->
  secure_filename o (r_filename r) = r_filename r ->
  let out := download_file o (r_filename r) w' in
  snd out = w' /\
  fst out <> Ok NotFound /\
  (forall e, flookup (r_filename r) (converted w') = Some e -> f_isfile e = true ->
     fst out = Ok (Attachment (r_filename r) (mimetype_of (r_filename r)) (f_data e))) /\
  (r_cached r = false ->
   mimetype_of (r_filename r) =
   "application/vnd.openxmlformats-officedocument.wordprocessingml.document").
Proof.
  intros H Hs. cbn zeta.
  destruct (post_ok_artifact cfg o req w r w' H) as [Hex Hname].
  pose proof (download_file_found o (r_filename r) w') as D.
  rewrite Hs in D. destruct D as (D1 & D3 & D4).
  split; [exact D1|]. split.
  { intros Hnf. apply D3 in Hnf. congruence. }
  split; [exact D4|].
  intros Hc. destruct (Hname Hc) as (file & _ & ->).
  apply mimetype_docx_name.
Qed.

Lemma converted_file_can_be_downloaded_witness :
  let out := post Scenario.both_engines Scenario.healthy
               (Scenario.upload "report.pdf" (Some "standard")) Scenario.fresh in
  fst (download_file Scenario.healthy "report_0a1b2c3d.docx" (snd out))
  = Ok (Attachment "report_0a1b2c3d.docx"
          "application/vnd.openxmlformats-officedocument.wordprocessingml.document"
          "docx").
Proof.
  cbn zeta.
  set (r := Response true "تم التحويل بنجاح!" "report_0a1b2c3d.docx" "standard"
                     "/download/report_0a1b2c3d.docx" (Some "1.00s") false).
  assert (E : post Scenario.both_engines Scenario.healthy
                (Scenario.upload "report.pdf" (Some "standard")) Scenario.fresh
              = (Ok r, snd (post Scenario.both_engines Scenario.healthy
                              (Scenario.upload "report.pdf" (Some "standard"))
                              Scenario.fresh)))
    by (vm_compute; reflexivity).
  destruct (converted_file_can_be_downloaded _ _ _ _ _ _ E eq_refl)
    as (_ & _ & H3 & H4).
  etransitivity;
    [apply (H3 (FEntry true (clock Scenario.healthy 1) "docx"));
       [vm_compute; reflexivity|reflexivity]|].
  reflexivity.
Defined.

(** ** The tool endpoints *)

Lemma try_unexpected {A} (c : M A) h w :
  (forall e w1, exists e', fst (h e w1) = Raise e' /\ unexpected e') ->
  (exists a, fst (try_except c h w) = Ok a) \/
  (exists e', fst (try_except c h w) = Raise e' /\ unexpected e').
Proof.
  intros Hh. unfold try_except.
  destruct (c w) as [[a|e] w1]; [left; eauto|right; apply Hh].
Qed.

(** The shared [except] clause: one failure is recorded, nothing else
    changes, and the exception that leaves is a 500. *)
Lemma tool_except_effect cfg o operation start e w :
  let r := tool_except cfg o operation start e w in
  uploads (snd r) = uploads w /\ converted (snd r) = converted w /\
  redis_kv (snd r) = redis_kv w /\
  calls (snd r) = (calls w ++ [CallUpdateStats false operation])%list /\
  failed_conversions (conversion_stats (snd r))
    = failed_conversions (conversion_stats w) + 1 /\
  (exists e', fst r = Raise e' /\ unexpected e') /\
  (is_Some (engine_usage (conversion_stats w) !! operation) ->
   total_conversions (conversion_stats w) <> -1 ->
   fst r = Raise (HTTPException 500 (str_exn o e))).
Proof.
  unfold tool_except.
  cbv beta iota zeta delta [bind time_time abort raise].
  set (w1 := set_tick S w).
  pose proof (update_stats_effect cfg o false operation (clock o (tick w) - start)%Q w1)
    as U.
  pose proof (update_stats_counts cfg o false operation (clock o (tick w) - start)%Q w1)
    as C.
  cbn zeta in U, C.
  destruct (update_stats _ _ _ _ _ _) as [r w'] eqn:E. cbn [fst snd] in U, C |- *.
  destruct U as (U1 & U2 & U3 & _ & _ & U4 & _ & U5 & U6).
  destruct C as [_ C].
  assert (G : uploads w' = uploads w /\ converted w' = converted w /\
              redis_kv w' = redis_kv w /\
              calls w' = (calls w ++ [CallUpdateStats false operation])%list /\
              failed_conversions (conversion_stats w')
                = failed_conversions (conversion_stats w) + 1).
  { rewrite U1, U2, U3, U4, C. repeat split; reflexivity. }
  destruct G as (G1 & G2 & G3 & G4 & G5).
  destruct r as [[]|e0]; cbn [fst snd]; repeat split; auto.
  - eexists. split; [reflexivity|]. reflexivity.
  - eexists. split; [reflexivity|].
    destruct U5 as [H|[H|H]]; inversion H; exact I.
  - intros Hk Ht. specialize (U6 Hk Ht). discriminate U6.
Qed.

Lemma tool_except_unexpected cfg o operation start e w :
  exists e', fst (tool_except cfg o operation start e w) = Raise e' /\ unexpected e'.
Proof.
  pose proof (tool_except_effect cfg o operation start e w) as H. cbn zeta in H.
  destruct H as (_ & _ & _ & _ & _ & H & _). exact H.
Qed.

Lemma from_image_except_effect cfg o start e w :
  let r := (logger ERROR ("خطأ في تحويل الصور إلى PDF: " ++ str_exn o e) >>
            let* now := time_time o in
            update_stats cfg o false "image_to_pdf" (now - start)%Q >>
            (abort 500 (str_exn o e) : M tool_response)) w in
  uploads (snd r) = uploads w /\ converted (snd r) = converted w /\
  calls (snd r) = (calls w ++ [CallUpdateStats false "image_to_pdf"])%list /\
  failed_conversions (conversion_stats (snd r))
    = failed_conversions (conversion_stats w) + 1 /\
  (exists e', fst r = Raise e' /\ unexpected e') /\
  (is_Some (engine_usage (conversion_stats w) !! "image_to_pdf") ->
   total_conversions (conversion_stats w) <> -1 ->
   fst r = Raise (HTTPException 500 (str_exn o e))).
Proof.
  cbv beta iota zeta delta [bind logger modify time_time abort raise].
  set (w1 := set_tick S (set_log _ w)).
  pose proof (update_stats_effect cfg o false "image_to_pdf"
                (clock o (tick w) - start)%Q w1) as U.
  pose proof (update_stats_counts cfg o false "image_to_pdf"
                (clock o (tick w) - start)%Q w1) as C.
  cbn zeta in U, C.
  change (tick (set_log _ w)) with (tick w).
  destruct (update_stats _ _ _ _ _ _) as [r w'] eqn:E. cbn [fst snd] in U, C |- *.
  destruct U as (U1 & U2 & _ & _ & _ & U4 & _ & U5 & U6).
  destruct C as [_ C].
  assert (G : uploads w' = uploads w /\ converted w' = converted w /\
              calls w' = (calls w ++ [CallUpdateStats false "image_to_pdf"])%list /\
              failed_conversions (conversion_stats w')
                = failed_conversions (conversion_stats w) + 1).
  { rewrite U1, U2, U4, C. repeat split; reflexivity. }
  destruct G as (G1 & G2 & G4 & G5).
  destruct r as [[]|e0]; cbn [fst snd]; repeat split; auto.
  - eexists. split; [reflexivity|]. reflexivity.
  - eexists. split; [reflexivity|].
    destruct U5 as [H|[H|H]]; inversion H; exact I.
  - intros Hk Ht. specialize (U6 Hk Ht). discriminate U6.
Qed.

Lemma from_image_except_unexpected cfg o start e w :
  exists e',
    fst ((logger ERROR ("خطأ في تحويل الصور إلى PDF: " ++ str_exn o e) >>
          let* now := time_time o in
          update_stats cfg o false "image_to_pdf" (now - start)%Q >>
          (abort 500 (str_exn o e) : M tool_response)) w) = Raise e' /\
    unexpected e'.
Proof.
  pose proof (from_image_except_effect cfg o start e w) as H. cbn zeta in H.
  destruct H as (_ & _ & _ & _ & H & _). exact H.
Qed.

Lemma status_of_outcome {A} (r : result A) :
  (exists a, r = Ok a) \/ (exists e', r = Raise e' /\ unexpected e') ->
  http_status r = 200 \/ http_status r = 500.
Proof.
  intros [[a ->]|(e & -> & He)]; [left; reflexivity|right].
  apply unexpected_status. exact He.
Qed.

(** X21.  The four tool endpoints answer 200 or 500, and the
    three that need PyMuPDF answer 503, before reading the clock or
    touching anything, exactly when the module is missing.  None of them
    ever answers 400: each [api.abort(400, ..)] sits inside the [try] block
    and is turned into a 500 by the handler's own [except Exception]. *)
Theorem tool_endpoints_status cfg o t :
  let guarded {R} (run : R -> M tool_response) :=
    forall req w,
      (fitz t = false ->
       run req w = (Raise (HTTPException 503 "محرك معالجة PDF غير متوفر حالياً."), w)) /\
      (fitz t = true ->
       http_status (fst (run req w)) = 200 \/ http_status (fst (run req w)) = 500) in
  guarded (CompressPDF_post cfg o t) /\
  guarded (ConvertToImage_post cfg o t) /\
  guarded (MergePDF_post cfg o t) /\
  (forall req w,
     http_status (fst (ConvertFromImage_post cfg o t req w)) = 200 \/
     http_status (fst (ConvertFromImage_post cfg o t req w)) = 500).
Proof.
  cbn zeta. repeat split.
  - intros H. unfold CompressPDF_post. rewrite H. reflexivity.
  - intros H. unfold CompressPDF_post. rewrite H.
    cbv beta iota zeta delta [bind ret negb time_time].
    apply status_of_outcome, try_unexpected.
    intros e w1. apply tool_except_unexpected.
  - intros H. unfold ConvertToImage_post. rewrite H. reflexivity.
  - intros H. unfold ConvertToImage_post. rewrite H.
    cbv beta iota zeta delta [bind ret negb time_time].
    apply status_of_outcome, try_unexpected.
    intros e w1. eexists. split; [reflexivity|reflexivity].
  - intros H. unfold MergePDF_post. rewrite H. reflexivity.
  - intros H. unfold MergePDF_post. rewrite H.
    cbv beta iota zeta delta [bind ret negb time_time].
    apply status_of_outcome, try_unexpected.
    intros e w1. apply tool_except_unexpected.
  - intros req w. unfold ConvertFromImage_post.
    cbv beta iota zeta delta [bind time_time].
    apply status_of_outcome, try_unexpected.
    intros e w1. apply from_image_except_unexpected.
Qed.

(** X22.  Requests that the tool endpoints mean to refuse with
    a 400 get a 500 instead, with both folders untouched.  [ConvertToImage]
    refuses a missing file, an empty name and a name not ending in [.pdf]
    without touching the statistics; [CompressPDF] (no file), [MergePDF]
    (fewer than two files) and [ConvertFromImage] (no file, or a first file
    without a name) each count the refused request as one failed
    conversion of their kind. *)
Theorem rejected_tool_requests cfg o t w :
  fitz t = true ->
  let counted (operation : string) (out : result tool_response * world) :=
    http_status (fst out) = 500 /\
    uploads (snd out) = uploads w /\ converted (snd out) = converted w /\
    calls (snd out) = (calls w ++ [CallUpdateStats false operation])%list /\
    failed_conversions (conversion_stats (snd out))
      = failed_conversions (conversion_stats w) + 1 in
  (forall req,
     files_file req = None \/
     (exists file, files_file req = Some file /\ not_a_pdf file = true) ->
     ConvertToImage_post cfg o t req w
     = (Raise (HTTPException 500 (http_str o 400)), set_tick S w)) /\
  (forall req, files_file req = None ->
     counted "compress_pdf" (CompressPDF_post cfg o t req w)) /\
  (forall req, (length (files_list req) < 2)%nat ->
     counted "merge_pdf" (MergePDF_post cfg o t req w)) /\
  (forall req,
     files_list req = [] \/
     (exists file rest, files_list req = file :: rest /\ filename file = EmptyString) ->
     counted "image_to_pdf" (ConvertFromImage_post cfg o t req w)).
Proof.
  intros Hfitz. cbn zeta.
  assert (T : forall operation e,
    let out := tool_except cfg o operation (clock o (tick w)) e (set_tick S w) in
    http_status (fst out) = 500 /\
    uploads (snd out) = uploads w /\ converted (snd out) = converted w /\
    calls (snd out) = (calls w ++ [CallUpdateStats false operation])%list /\
    failed_conversions (conversion_stats (snd out))
      = failed_conversions (conversion_stats w) + 1).
  { intros operation e.
    pose proof (tool_except_effect cfg o operation (clock o (tick w)) e (set_tick S w))
      as H.
    cbn zeta in *. destruct H as (H1 & H2 & _ & H4 & H5 & (e' & H6 & H7) & _).
    rewrite H6. split; [apply unexpected_status; exact H7|]. auto. }
  split; [|split; [|split]].
  - intros req Hr. unfold ConvertToImage_post. rewrite Hfitz.
    cbv beta iota zeta delta [bind ret negb time_time try_except abort raise].
    destruct Hr as [->|(file & -> & ->)]; reflexivity.
  - intros req Hr. unfold CompressPDF_post. rewrite Hfitz, Hr.
    cbv beta iota zeta delta [bind ret negb time_time try_except abort raise].
    apply T.
  - intros req Hr. unfold MergePDF_post. rewrite Hfitz.
    apply Nat.ltb_lt in Hr. rewrite Hr.
    cbv beta iota zeta delta [bind ret negb time_time try_except abort raise].
    apply T.
  - intros req Hr.
    assert (Hc : match files_list req with
                 | [] => true
                 | file :: _ => String.eqb (filename file) EmptyString
                 end = true).
    { destruct Hr as [->|(file & rest & -> & ->)]; reflexivity. }
    assert (Eq : ConvertFromImage_post cfg o t req w =
      (logger ERROR ("خطأ في تحويل الصور إلى PDF: "
                     ++ str_exn o (HTTPException 400 "لم يتم اختيار أي صور!")) >>
       let* now := time_time o in
       update_stats cfg o false "image_to_pdf" (now - clock o (tick w))%Q >>
       (abort 500 (str_exn o (HTTPException 400 "لم يتم اختيار أي صور!"))
          : M tool_response)) (set_tick S w)).
    { unfold ConvertFromImage_post. rewrite Hc. reflexivity. }
    rewrite Eq.
    pose proof (from_image_except_effect cfg o (clock o (tick w))
                  (HTTPException 400 "لم يتم اختيار أي صور!") (set_tick S w)) as H.
    cbn zeta in H. destruct H as (H1 & H2 & H4 & H5 & (e' & H6 & H7) & _).
    rewrite H6. split; [apply unexpected_status; exact H7|]. auto.
Qed.

Lemma rejected_tool_requests_witness :
  ConvertToImage_post Scenario.both_engines Scenario.healthy sample_tools
    (Scenario.upload "notes.txt" None) Scenario.fresh
  = (Raise (HTTPException 500 "HTTP 400"), set_tick S Scenario.fresh) /\
  http_status (fst (MergePDF_post Scenario.both_engines Scenario.healthy sample_tools
                      (MultiRequest [FileStorage "a.pdf" "%PDF-1.7"])
                      Scenario.fresh)) = 500.
Proof.
  destruct (rejected_tool_requests Scenario.both_engines Scenario.healthy sample_tools
              Scenario.fresh eq_refl) as (H1 & _ & H3 & _).
  split.
  - apply (H1 (Scenario.upload "notes.txt" None)).
    right. eexists. split; reflexivity.
  - apply (H3 (MultiRequest [FileStorage "a.pdf" "%PDF-1.7"])). cbn. lia.
Defined.

(** *** [CompressPDF.post] *)

(** The world in which a tool endpoint opens its single upload: the clock
    was read once and the file is on disk. *)
Lemma compress_after_upload cfg o t req file w :
  fitz t = true -> files_file req = Some file -> save_fault o = None ->
  let safe := clean_filename o (filename file) in
  let w1 := set_uploads (fwrite safe (FEntry true (clock o (S (tick w))) (content file)))
              (set_tick S w) in
  CompressPDF_post cfg o t req w =
  try_except
    (save_output o
       (match fitz_open_fault t (content file) with
        | Some detail => EngRaise detail
        | None => fitz_save t (content file)
        end) ("compressed_" ++ safe) >>
     remove_if_exists o UPLOAD_FOLDER safe >>
     let* now := time_time o in
     update_stats cfg o true "compress_pdf" (now - clock o (tick w))%Q >>
     ret (ToolResponse true "تم ضغط الملف بنجاح!"
                       ("/download/" ++ "compressed_" ++ safe) ("compressed_" ++ safe)))
    (tool_except cfg o "compress_pdf" (clock o (tick w))) w1.
Proof.
  intros Hfitz Hf Hsave. cbn zeta.
  unfold CompressPDF_post. rewrite Hfitz, Hf.
  cbv beta iota zeta delta [bind ret negb time_time try_except file_save write_file
                            fitz_open save_output raise].
  rewrite Hsave.
  cbn [set_folder uploads set_uploads set_tick tick].
  rewrite flookup_fwrite_eq. cbn [f_data].
  destruct (fitz_open_fault t (content file)); reflexivity.
Qed.

(** X23.  When PyMuPDF cannot open or cannot save the
    uploaded file, [CompressPDF.post] answers 500 with the library's own
    exception text and counts one failed [compress_pdf]; its [except]
    clause deletes nothing, so the upload it saved stays in the upload
    folder, and the converted folder is as before. *)
Theorem failed_compression_keeps_upload cfg o t req file w detail :
  fitz t = true -> files_file req = Some file -> save_fault o = None ->
  fitz_open_fault t (content file) = Some detail \/
  (fitz_open_fault t (content file) = None /\
   fitz_save t (content file) = EngRaise detail) ->
  is_Some (engine_usage (conversion_stats w) !! "compress_pdf") ->
  total_conversions (conversion_stats w) <> -1 ->
  let safe := clean_filename o (filename file) in
  let out := CompressPDF_post cfg o t req w in
  fst out = Raise (HTTPException 500 detail) /\
  uploads (snd out) =
    fwrite safe (FEntry true (clock o (S (tick w))) (content file)) (uploads w) /\
  flookup safe (uploads (snd out)) =
    Some (FEntry true (clock o (S (tick w))) (content file)) /\
  converted (snd out) = converted w /\
  calls (snd out) = (calls w ++ [CallUpdateStats false "compress_pdf"])%list.
Proof.
  intros Hfitz Hf Hsave Hfail Hkey Htot. cbn zeta.
  rewrite (compress_after_upload cfg o t req file w Hfitz Hf Hsave).
  set (safe := clean_filename o (filename file)).
  set (w1 := set_uploads _ _).
  assert (Hr : (match fitz_open_fault t (content file) with
                | Some detail => EngRaise detail
                | None => fitz_save t (content file)
                end) = EngRaise detail).
  { destruct Hfail as [->|[-> ->]]; reflexivity. }
  rewrite Hr.
  cbv beta iota zeta delta [try_except bind save_output raise].
  pose proof (tool_except_effect cfg o "compress_pdf" (clock o (tick w))
                (EngineError detail) w1) as T.
  cbn zeta in T. destruct T as (T1 & T2 & _ & T4 & _ & _ & T6).
  rewrite (T6 Hkey Htot), T1, T2, T4.
  split; [reflexivity|]. split; [reflexivity|]. split; [|split; reflexivity].
  cbn. apply flookup_fwrite_eq.
Qed.

Lemma failed_compression_keeps_upload_witness :
  let out := CompressPDF_post Scenario.both_engines Scenario.healthy
               (with_fitz_open_fault (fun _ => Some "cannot open broken document")
                  sample_tools)
               (Scenario.upload "scan.pdf" None) Scenario.fresh in
  fst out = Raise (HTTPException 500 "cannot open broken document") /\
  flookup "scan_0a1b2c3d.pdf" (uploads (snd out)) =
    Some (FEntry true (clock Scenario.healthy 1) "%PDF-1.7") /\
  converted (snd out) = [].
Proof.
  destruct (failed_compression_keeps_upload Scenario.both_engines Scenario.healthy
              (with_fitz_open_fault (fun _ => Some "cannot open broken document")
                 sample_tools)
              (Scenario.upload "scan.pdf" None)
              (FileStorage "scan.pdf" "%PDF-1.7") Scenario.fresh
              "cannot open broken document")
    as (H1 & _ & H3 & H4 & _); try reflexivity.
  - left. reflexivity.
  - eexists. vm_compute. reflexivity.
  - discriminate.
  - split; [exact H1|]. split; [exact H3|exact H4].
Defined.

(** X24.  [CompressPDF.post] checks neither the extension nor the
    name of the upload.  For a file of any name that PyMuPDF opens and
    saves, the answer is a success naming [compressed_] followed by the
    cleaned upload name; that artifact holds the bytes PyMuPDF wrote and
    replaces any file of the same name, the upload is deleted, and one
    successful [compress_pdf] is counted. *)
Theorem compression_writes_prefixed_artifact cfg o t req file w bytes :
  fitz t = true -> files_file req = Some file -> save_fault o = None ->
  fitz_open_fault t (content file) = None ->
  fitz_save t (content file) = EngDone (Some bytes) ->
  remove_fault o UPLOAD_FOLDER (clean_filename o (filename file)) = None ->
  is_Some (engine_usage (conversion_stats w) !! "compress_pdf") ->
  total_conversions (conversion_stats w) <> -1 ->
  let safe := clean_filename o (filename file) in
  let out := CompressPDF_post cfg o t req w in
  fst out = Ok (ToolResponse true "تم ضغط الملف بنجاح!"
                             ("/download/compressed_" ++ safe) ("compressed_" ++ safe)) /\
  converted (snd out) =
    fwrite ("compressed_" ++ safe) (FEntry true (clock o (S (tick w))) bytes)
           (converted w) /\
  fexists safe (uploads (snd out)) = false /\
  calls (snd out) = (calls w ++ [CallUpdateStats true "compress_pdf"])%list.
Proof.
  intros Hfitz Hf Hsave Hopen Hout Hrm Hkey Htot. cbn zeta.
  rewrite (compress_after_upload cfg o t req file w Hfitz Hf Hsave).
  set (safe := clean_filename o (filename file)) in *.
  set (w1 := set_uploads _ _).
  rewrite Hopen, Hout. unfold try_except.
  set (w2 := set_converted
               (fwrite ("compressed_" ++ safe) (FEntry true (clock o (S (tick w))) bytes))
               w1).
  assert (E1 : save_output o (EngDone (Some bytes)) ("compressed_" ++ safe) w1
               = (Ok tt, w2)) by reflexivity.
  rewrite (bind_run _ _ _ _ _ E1).
  assert (E2 : remove_if_exists o UPLOAD_FOLDER safe w2
               = (Ok tt, set_uploads (fremove safe) w2)).
  { assert (Hl : flookup safe (folder_of UPLOAD_FOLDER w2)
                 = Some (FEntry true (clock o (S (tick w))) (content file)))
      by apply flookup_fwrite_eq.
    unfold remove_if_exists, bind, path_exists, fexists. rewrite Hl.
    unfold os_remove. rewrite Hl, Hrm. reflexivity. }
  rewrite (bind_run _ _ _ _ _ E2).
  set (w3 := set_uploads (fremove safe) w2).
  assert (E3 : time_time o w3 = (Ok (clock o (S (tick w))), set_tick S w3))
    by reflexivity.
  rewrite (bind_run _ _ _ _ _ E3).
  pose proof (update_stats_effect cfg o true "compress_pdf"
                (clock o (S (tick w)) - clock o (tick w))%Q (set_tick S w3)) as U.
  cbn zeta in U.
  destruct (update_stats _ _ _ _ _ _) as [r w'] eqn:E. cbn [fst snd] in U.
  destruct U as (U1 & U2 & _ & _ & _ & U4 & _ & _ & U6).
  rewrite (U6 Hkey Htot) in E.
  rewrite (bind_run _ _ _ _ _ E). cbn [ret fst snd].
  rewrite U1, U2, U4.
  split; [reflexivity|]. split; [reflexivity|]. split; [|reflexivity].
  unfold fexists. cbn. rewrite flookup_fremove. reflexivity.
Qed.

Lemma compression_writes_prefixed_artifact_witness :
  let out := CompressPDF_post Scenario.both_engines Scenario.healthy sample_tools
               (Scenario.upload "notes.exe" None) Scenario.fresh in
  fst out = Ok (ToolResponse true "تم ضغط الملف بنجاح!"
                  "/download/compressed_notes_0a1b2c3d.exe"
                  "compressed_notes_0a1b2c3d.exe") /\
  converted (snd out) =
    [("compressed_notes_0a1b2c3d.exe",
      FEntry true (clock Scenario.healthy 1) "deflate(%PDF-1.7)")] /\
  uploads (snd out) = [].
Proof.
  destruct (compression_writes_prefixed_artifact Scenario.both_engines
              Scenario.healthy sample_tools (Scenario.upload "notes.exe" None)
              (FileStorage "notes.exe" "%PDF-1.7") Scenario.fresh
              "deflate(%PDF-1.7)")
    as (H1 & H2 & _ & _); try reflexivity.
  - eexists. vm_compute. reflexivity.
  - discriminate.
  - split; [exact H1|]. split; [exact H2|]. vm_compute. reflexivity.
Defined.

(** *** [ConvertToImage.post] *)

Lemma try_run_ok {A} (c : M A) h w a w1 :
  c w = (Ok a, w1) -> try_except c h w = (Ok a, w1).
Proof. intros H. unfold try_except. rewrite H. reflexivity. Qed.

Lemma try_run_raise {A} (c : M A) h w e w1 :
  c w = (Raise e, w1) -> try_except c h w = h e w1.
Proof. intros H. unfold try_except. rewrite H. reflexivity. Qed.

Lemma finally_run {A} (c : M A) f w r w1 w2 :
  c w = (r, w1) -> f w1 = (Ok tt, w2) -> try_finally c f w = (r, w2).
Proof. intros H1 H2. unfold try_finally. rewrite H1, H2. reflexivity. Qed.

Lemma zip_pages_names t doc : forall todo i written,
  let z := zip_pages t doc i todo written in
  exists k, (k <= todo)%nat /\
    map fst (fst z) =
      (map fst written ++
       map page_name (seq i k))%list /\
    (snd z = None <-> k = todo).
Proof.
  induction todo as [|todo IH]; intros i written; cbn zeta; cbn [zip_pages].
  - exists 0%nat. cbn. rewrite app_nil_r. split; [lia|]. split; [reflexivity|tauto].
  - destruct (page_jpg t doc i) as [detail|img].
    + exists 0%nat. cbn. rewrite app_nil_r. split; [lia|]. split; [reflexivity|].
      split; [discriminate|lia].
    + destruct (IH (S i)
                  (written ++ [(page_name i, img)])%list)
        as (k & Hk & Hn & Hf).
      exists (S k). split; [lia|]. split.
      * rewrite Hn, map_app, <- app_assoc. reflexivity.
      * rewrite Hf. lia.
Qed.

Lemma to_image_after_upload cfg o t req file w :
  fitz t = true -> files_file req = Some file -> not_a_pdf file = false ->
  save_fault o = None -> fitz_open_fault t (content file) = None ->
  let safe := clean_filename o (filename file) in
  let zip := hd EmptyString (PyStr.rsplit1 "." safe) ++ ".zip" in
  let w1 := set_uploads (fwrite safe (FEntry true (clock o (S (tick w))) (content file)))
              (set_tick S w) in
  ConvertToImage_post cfg o t req w =
  try_except
    (try_finally
       (try_except
          (write_zip o t (content file) zip >>
           let* now := time_time o in
           update_stats cfg o true "pdf_to_image" (now - clock o (tick w))%Q >>
           ret (ToolResponse true "تم تحويل الملف إلى صور بنجاح!"
                             ("/download/" ++ zip) zip))
          (fun e =>
             logger ERROR ("خطأ في تحويل PDF إلى صور: " ++ str_exn o e) >>
             let* now := time_time o in
             update_stats cfg o false "pdf_to_image" (now - clock o (tick w))%Q >>
             abort 500 "فشل في تحويل الملف."))
       (remove_if_exists o UPLOAD_FOLDER safe))
    (fun e => abort 500 (str_exn o e)) w1.
Proof.
  intros Hfitz Hf Hpdf Hsave Hopen. cbn zeta.
  unfold ConvertToImage_post. rewrite Hfitz, Hf.
  cbv beta iota zeta delta [bind ret negb time_time try_except try_finally file_save
                            write_file fitz_open].
  rewrite Hpdf, Hsave.
  cbn [set_folder uploads set_uploads set_tick tick].
  rewrite flookup_fwrite_eq. cbn [f_data]. rewrite Hopen. reflexivity.
Qed.

Lemma remove_upload_run o safe w e :
  flookup safe (uploads w) = Some e ->
  remove_fault o UPLOAD_FOLDER safe = None ->
  remove_if_exists o UPLOAD_FOLDER safe w = (Ok tt, set_uploads (fremove safe) w).
Proof.
  intros Hl Hrm.
  unfold remove_if_exists, bind, path_exists, fexists. cbn [folder_of]. rewrite Hl.
  unfold os_remove. cbn [folder_of]. rewrite Hl, Hrm. reflexivity.
Qed.

(** X25.  [ConvertToImage.post] on a PDF that PyMuPDF opens.  The
    archive left in the converted folder holds the pages rendered before
    the first page that fails, named [page_1.jpg], [page_2.jpg], ... in
    order: all of them when no page fails, and then the answer is a
    success; a truncated archive when one fails, and then the caller gets a
    500 whose text is that of the framework, not the handler's own message.
    Either way the [finally] clause has deleted the upload. *)
Theorem to_image_archive_and_cleanup cfg o t req file w :
  fitz t = true -> files_file req = Some file -> not_a_pdf file = false ->
  save_fault o = None -> fitz_open_fault t (content file) = None ->
  remove_fault o UPLOAD_FOLDER (clean_filename o (filename file)) = None ->
  is_Some (engine_usage (conversion_stats w) !! "pdf_to_image") ->
  total_conversions (conversion_stats w) <> -1 ->
  let safe := clean_filename o (filename file) in
  let zip := hd EmptyString (PyStr.rsplit1 "." safe) ++ ".zip" in
  let pages := page_count t (content file) in
  let z := zip_pages t (content file) 0 pages [] in
  let out := ConvertToImage_post cfg o t req w in
  converted (snd out) =
    fwrite zip (FEntry true (clock o (S (tick w))) (zip_bytes t (fst z))) (converted w) /\
  fexists safe (uploads (snd out)) = false /\
  (exists k, (k <= pages)%nat /\
     map fst (fst z) = map page_name (seq 0 k) /\
     (snd z = None <-> k = pages)) /\
  (snd z = None ->
   fst out = Ok (ToolResponse true "تم تحويل الملف إلى صور بنجاح!"
                              ("/download/" ++ zip) zip) /\
   calls (snd out) = (calls w ++ [CallUpdateStats true "pdf_to_image"])%list) /\
  (snd z <> None ->
   fst out = Raise (HTTPException 500 (http_str o 500)) /\
   calls (snd out) = (calls w ++ [CallUpdateStats false "pdf_to_image"])%list).
Proof.
  intros Hfitz Hf Hpdf Hsave Hopen Hrm Hkey Htot. cbn zeta.
  rewrite (to_image_after_upload cfg o t req file w Hfitz Hf Hpdf Hsave Hopen).
  set (safe := clean_filename o (filename file)) in *.
  set (zip := hd EmptyString (PyStr.rsplit1 "." safe) ++ ".zip").
  set (w1 := set_uploads _ _).
  pose proof (zip_pages_names t (content file) (page_count t (content file)) 0 [])
    as Hnames.
  cbn zeta in Hnames. cbn [map app] in Hnames.
  destruct (zip_pages t (content file) 0 (page_count t (content file)) [])
    as [written failure] eqn:Z.
  cbn [fst snd] in *.
  set (w2 := set_converted
               (fwrite zip (FEntry true (clock o (S (tick w))) (zip_bytes t written))) w1).
  assert (Hstats : forall b w0,
    conversion_stats w0 = conversion_stats w -> calls w0 = calls w ->
    uploads w0 = uploads w1 -> converted w0 = converted w2 ->
    exists w',
      update_stats cfg o b "pdf_to_image" (clock o (S (tick w)) - clock o (tick w))%Q w0
        = (Ok tt, w') /\
      uploads w' = uploads w1 /\ converted w' = converted w2 /\
      calls w' = (calls w ++ [CallUpdateStats b "pdf_to_image"])%list).
  { intros b w0 Hs Hc Hu Hcv.
    pose proof (update_stats_effect cfg o b "pdf_to_image"
                  (clock o (S (tick w)) - clock o (tick w))%Q w0) as U.
    cbn zeta in U.
    destruct (update_stats _ _ _ _ _ _) as [r w'] eqn:E. cbn [fst snd] in U.
    destruct U as (U1 & U2 & _ & _ & _ & U4 & _ & _ & U6).
    rewrite Hs in U6. rewrite (U6 Hkey Htot). exists w'.
    split; [reflexivity|]. rewrite U1, U2, U4, Hu, Hcv, Hc. auto. }
  assert (Hfin : forall w', uploads w' = uploads w1 ->
    remove_if_exists o UPLOAD_FOLDER safe w' = (Ok tt, set_uploads (fremove safe) w')).
  { intros w' Hu.
    apply (remove_upload_run o safe w'
             (FEntry true (clock o (S (tick w))) (content file))); [|exact Hrm].
    rewrite Hu. apply flookup_fwrite_eq. }
  destruct failure as [detail|].
  - destruct (Hstats false
                (set_tick S (set_log (fun l =>
                   (l ++ [(ERROR, ("خطأ في تحويل PDF إلى صور: " ++ detail)%string)])%list) w2)))
      as (w' & E & U1 & U2 & U4); try reflexivity.
    assert (R : try_except
       (try_finally
          (try_except
             (write_zip o t (content file) zip >>
              let* now := time_time o in
              update_stats cfg o true "pdf_to_image" (now - clock o (tick w))%Q >>
              ret (ToolResponse true "تم تحويل الملف إلى صور بنجاح!"
                                ("/download/" ++ zip) zip))
             (fun e =>
                logger ERROR ("خطأ في تحويل PDF إلى صور: " ++ str_exn o e) >>
                let* now := time_time o in
                update_stats cfg o false "pdf_to_image" (now - clock o (tick w))%Q >>
                abort 500 "فشل في تحويل الملف."))
          (remove_if_exists o UPLOAD_FOLDER safe))
       (fun e => abort 500 (str_exn o e)) w1
       = (Raise (HTTPException 500 (http_str o 500)), set_uploads (fremove safe) w')).
    { assert (B : write_zip o t (content file) zip w1 = (Raise (EngineError detail), w2)).
      { unfold write_zip. rewrite Z. reflexivity. }
      rewrite (try_run_raise _ _ w1 (HTTPException 500 "فشل في تحويل الملف.")
                 (set_uploads (fremove safe) w')); [reflexivity|].
      eapply finally_run; [|apply (Hfin w' U1)].
      rewrite (try_run_raise _ _ _ _ _ (bind_raise _ _ _ _ _ B)).
      etransitivity; [|exact (bind_run _ (fun _ => abort 500 "فشل في تحويل الملف.")
                                 _ _ _ E)].
      reflexivity. }
    rewrite R. cbn [fst snd set_uploads converted uploads calls].
    rewrite U2, U4, U1.
    split; [reflexivity|]. split.
    { unfold fexists. rewrite flookup_fremove. reflexivity. }
    split; [exact Hnames|]. split; [discriminate|].
    intros _. split; reflexivity.
  - destruct (Hstats true (set_tick S w2)) as (w' & E & U1 & U2 & U4); try reflexivity.
    assert (R : try_except
       (try_finally
          (try_except
             (write_zip o t (content file) zip >>
              let* now := time_time o in
              update_stats cfg o true "pdf_to_image" (now - clock o (tick w))%Q >>
              ret (ToolResponse true "تم تحويل الملف إلى صور بنجاح!"
                                ("/download/" ++ zip) zip))
             (fun e =>
                logger ERROR ("خطأ في تحويل PDF إلى صور: " ++ str_exn o e) >>
                let* now := time_time o in
                update_stats cfg o false "pdf_to_image" (now - clock o (tick w))%Q >>
                abort 500 "فشل في تحويل الملف."))
          (remove_if_exists o UPLOAD_FOLDER safe))
       (fun e => abort 500 (str_exn o e)) w1
       = (Ok (ToolResponse true "تم تحويل الملف إلى صور بنجاح!"
                           ("/download/" ++ zip) zip),
          set_uploads (fremove safe) w')).
    { assert (B : write_zip o t (content file) zip w1 = (Ok tt, w2)).
      { unfold write_zip. rewrite Z. reflexivity. }
      apply try_run_ok.
      eapply finally_run; [|apply (Hfin w' U1)].
      apply try_run_ok.
      rewrite (bind_run _ _ _ _ _ B).
      etransitivity;
        [|exact (bind_run _ (fun _ => ret (ToolResponse true
                                             "تم تحويل الملف إلى صور بنجاح!"
                                             ("/download/" ++ zip) zip)) _ _ _ E)].
      reflexivity. }
    rewrite R. cbn [fst snd set_uploads converted uploads calls].
    rewrite U2, U4, U1.
    split; [reflexivity|]. split.
    { unfold fexists. rewrite flookup_fremove. reflexivity. }
    split; [exact Hnames|]. split; [|congruence].
    intros _. split; reflexivity.
Qed.

Lemma to_image_archive_and_cleanup_witness :
  let t := with_page_jpg
             (fun data i => if Nat.eqb i 1 then inl "cannot render page"
                            else inr ("jpg(" ++ data ++ ")"))
             sample_tools in
  let out := ConvertToImage_post Scenario.both_engines Scenario.healthy t
               (Scenario.upload "scan.PDF" None) Scenario.fresh in
  converted (snd out) =
    [("scan_0a1b2c3d.zip", FEntry true (clock Scenario.healthy 1) "page_1.jpg")] /\
  fexists "scan_0a1b2c3d.PDF" (uploads (snd out)) = false /\
  fst out = Raise (HTTPException 500 "HTTP 500").
Proof.
  destruct (to_image_archive_and_cleanup Scenario.both_engines Scenario.healthy
              (with_page_jpg
                 (fun data i => if Nat.eqb i 1 then inl "cannot render page"
                                else inr ("jpg(" ++ data ++ ")"))
                 sample_tools)
              (Scenario.upload "scan.PDF" None)
              (FileStorage "scan.PDF" "%PDF-1.7") Scenario.fresh)
    as (H1 & H2 & _ & _ & H5); try reflexivity.
  - eexists. vm_compute. reflexivity.
  - discriminate.
  - split; [exact H1|]. split; [exact H2|]. apply H5. discriminate.
Defined.

(** *** [MergePDF.post] *)

Section MergeLoop.
Local Open Scope list_scope.

Lemma fexists_fwrite_iff name e (l : folder) n :
  fexists n (fwrite name e l) = true <-> n = name \/ fexists n l = true.
Proof.
  unfold fexists. destruct (String.eqb_spec name n) as [->|Hne].
  - rewrite flookup_fwrite_eq. tauto.
  - rewrite (flookup_fwrite_ne _ _ _ _ Hne). split; [tauto|].
    intros [->|H]; [contradiction|exact H].
Qed.

Lemma flookup_fremove_ne name n (l : folder) :
  name <> n -> flookup n (fremove name l) = flookup n l.
Proof.
  intros Hne. induction l as [|[m e] l IH]; cbn; [reflexivity|].
  destruct (String.eqb_spec m name) as [->|Hm]; cbn.
  - rewrite IH. apply String.eqb_neq in Hne. rewrite Hne. reflexivity.
  - rewrite IH. reflexivity.
Qed.

Lemma fexists_fremove_iff name (l : folder) n :
  fexists n (fremove name l) = true <-> n <> name /\ fexists n l = true.
Proof.
  unfold fexists. destruct (String.eqb_spec name n) as [->|Hne].
  - rewrite flookup_fremove. split; [discriminate|]. intros [H _]. contradiction.
  - rewrite (flookup_fremove_ne _ _ _ Hne). split; [|tauto].
    intros H. split; [congruence|exact H].
Qed.

(** The loop of [MergePDF.post] when [file.save] works: it saves every file
    whose name ends in [.pdf], and inserts those that PyMuPDF accepts. *)
Lemma merge_loop_run o t :
  save_fault o = None ->
  forall files i temp_files inserted w,
  exists names w',
    merge_loop o t i files temp_files inserted w =
    (Ok (temp_files ++ names,
         inserted ++
         map content
           (List.filter
              (fun f => endswith (PyStr.lower (filename f)) ".pdf" &&
                        match insert_fault t (content f) with
                        | None => true
                        | Some _ => false
                        end) files)), w') /\
    conversion_stats w' = conversion_stats w /\ converted w' = converted w /\
    calls w' = calls w /\ tick w' = tick w /\
    (forall n, fexists n (uploads w') = true <->
               fexists n (uploads w) = true \/ n ∈ names) /\
    (forall j file, files !! j = Some file ->
       endswith (PyStr.lower (filename file)) ".pdf" = true ->
       clean_filename (with_uuid (uuid_seq t (i + j)) o) (filename file) ∈ names).
Proof.
  intros Hsave.
  induction files as [|file files IH]; intros i temp_files inserted w.
  - exists [], w. cbn. rewrite !app_nil_r.
    repeat split; auto.
    + intros [H|H]; [exact H|]. apply not_elem_of_nil in H. contradiction.
    + intros j file H. discriminate H.
  - cbn [merge_loop List.filter].
    destruct (endswith (PyStr.lower (filename file)) ".pdf") eqn:Hpdf.
    + set (safe := clean_filename (with_uuid (uuid_seq t i) o) (filename file)).
      set (w1 := set_uploads
                   (fwrite safe (FEntry true (clock o (tick w)) (content file))) w).
      assert (E1 : file_save o file safe w = (Ok tt, w1)).
      { unfold file_save. rewrite Hsave. reflexivity. }
      rewrite (bind_run _ _ _ _ _ E1).
      assert (E2 : try_except
                     (let* data := read_file UPLOAD_FOLDER safe in
                      match insert_fault t data with
                      | Some detail => raise (EngineError detail)
                      | None => ret (Some data)
                      end)
                     (fun _ => ret None) w1
                   = (Ok (match insert_fault t (content file) with
                          | None => Some (content file)
                          | Some _ => None
                          end), w1)).
      { unfold try_except, bind, read_file. cbn [folder_of].
        replace (flookup safe (uploads w1))
          with (Some (FEntry true (clock o (tick w)) (content file)))
          by (symmetry; apply flookup_fwrite_eq).
        cbn [f_data]. destruct (insert_fault t (content file)); reflexivity. }
      rewrite (bind_run _ _ _ _ _ E2).
      destruct (IH (S i) (temp_files ++ [safe])
                  (match match insert_fault t (content file) with
                         | None => Some (content file)
                         | Some _ => None
                         end with
                   | Some data => inserted ++ [data]
                   | None => inserted
                   end) w1)
        as (names & w' & E & S1 & S2 & S3 & S4 & S5 & S6).
      exists (safe :: names), w'. rewrite E. split.
      { rewrite <- app_assoc. cbn [app andb].
        destruct (insert_fault t (content file)); cbn [map];
          rewrite <- ?app_assoc; reflexivity. }
      split; [exact S1|]. split; [exact S2|]. split; [exact S3|]. split; [exact S4|].
      split.
      * intros n. rewrite S5. subst w1. cbn [uploads set_uploads].
        rewrite fexists_fwrite_iff, elem_of_cons. tauto.
      * intros j f Hj Hf. destruct j as [|j].
        -- injection Hj as <-. rewrite Nat.add_0_r. apply elem_of_cons. left.
           reflexivity.
        -- apply elem_of_cons. right.
           replace (i + S j)%nat with (S i + j)%nat by lia.
           apply S6; assumption.
    + destruct (IH (S i) temp_files inserted w)
        as (names & w' & E & S1 & S2 & S3 & S4 & S5 & S6).
      exists names, w'. rewrite E. cbn [andb].
      repeat split; auto; try apply S5.
      intros j f Hj Hf. destruct j as [|j].
      * injection Hj as <-. congruence.
      * replace (i + S j)%nat with (S i + j)%nat by lia. apply S6; assumption.
Qed.

(** Removing the temporary files when no [os.remove] fails. *)
Lemma cleanup_run o :
  (forall n, remove_fault o UPLOAD_FOLDER n = None) ->
  forall names w,
  exists w',
    for_each names (remove_if_exists o UPLOAD_FOLDER) w = (Ok tt, w') /\
    conversion_stats w' = conversion_stats w /\ converted w' = converted w /\
    calls w' = calls w /\ tick w' = tick w /\
    (forall n, fexists n (uploads w') = true <->
               fexists n (uploads w) = true /\ n ∉ names).
Proof.
  intros Hrm. induction names as [|name names IH]; intros w.
  - exists w. cbn [for_each]. split; [reflexivity|].
    do 4 (split; [reflexivity|]).
    intros n. split; [|tauto].
    intros H. split; [exact H|]. apply not_elem_of_nil.
  - cbn [for_each].
    assert (E : exists w1,
      remove_if_exists o UPLOAD_FOLDER name w = (Ok tt, w1) /\
      conversion_stats w1 = conversion_stats w /\ converted w1 = converted w /\
      calls w1 = calls w /\ tick w1 = tick w /\
      (forall n, fexists n (uploads w1) = true <->
                 fexists n (uploads w) = true /\ n <> name)).
    { unfold remove_if_exists, bind, path_exists. cbn [folder_of].
      destruct (fexists name (uploads w)) eqn:Hex.
      - unfold os_remove. cbn [folder_of]. unfold fexists in Hex.
        destruct (flookup name (uploads w)); [|discriminate Hex].
        rewrite Hrm. eexists. split; [reflexivity|].
        do 4 (split; [reflexivity|]).
        intros n. cbn [set_folder set_uploads uploads].
        rewrite fexists_fremove_iff. tauto.
      - exists w. split; [reflexivity|].
        do 4 (split; [reflexivity|]).
        intros n. split; [|tauto].
        intros H. split; [exact H|]. intros ->. congruence. }
    destruct E as (w1 & E & S1 & S2 & S3 & S4 & S5).
    rewrite (bind_run _ _ _ _ _ E).
    destruct (IH w1) as (w' & E' & T1 & T2 & T3 & T4 & T5).
    exists w'. split; [exact E'|].
    split; [congruence|]. split; [congruence|]. split; [congruence|].
    split; [congruence|].
    intros n. rewrite T5, S5, not_elem_of_cons. tauto.
Qed.

End MergeLoop.

Lemma merge_after_loop cfg o t req w :
  fitz t = true -> (2 <= length (files_list req))%nat -> save_fault o = None ->
  exists names w1,
    MergePDF_post cfg o t req w =
    try_except
      (let docs :=
         map content
           (List.filter
              (fun f => endswith (PyStr.lower (filename f)) ".pdf" &&
                        match insert_fault t (content f) with
                        | None => true
                        | Some _ => false
                        end) (files_list req)) in
       let output_filename :=
         "merged_" ++ str_int (py_int (clock o (S (tick w)))) ++ ".pdf" in
       save_output o (merge_save t docs) output_filename >>
       for_each names (remove_if_exists o UPLOAD_FOLDER) >>
       let* now' := time_time o in
       update_stats cfg o true "merge_pdf" (now' - clock o (tick w))%Q >>
       ret (ToolResponse true "تم دمج الملفات بنجاح!"
                         ("/download/" ++ output_filename) output_filename))
      (tool_except cfg o "merge_pdf" (clock o (tick w))) w1 /\
    conversion_stats w1 = conversion_stats w /\ converted w1 = converted w /\
    calls w1 = calls w /\ tick w1 = S (S (tick w)) /\
    (forall n, fexists n (uploads w1) = true <->
               fexists n (uploads w) = true \/ n ∈ names) /\
    (forall j file, files_list req !! j = Some file ->
       endswith (PyStr.lower (filename file)) ".pdf" = true ->
       clean_filename (with_uuid (uuid_seq t j) o) (filename file) ∈ names).
Proof.
  intros Hfitz Hlen Hsave.
  destruct (merge_loop_run o t Hsave (files_list req) 0 [] [] (set_tick S w))
    as (names & w1 & E & S1 & S2 & S3 & S4 & S5 & S6).
  cbn [app] in E.
  exists names, (set_tick S w1).
  split; [|split; [exact S1|split; [exact S2|split; [exact S3|split]]]].
  - unfold MergePDF_post. rewrite Hfitz.
    assert (Hl : Nat.ltb (length (files_list req)) 2 = false)
      by (apply Nat.ltb_ge; exact Hlen).
    rewrite Hl.
    cbv beta iota zeta delta [negb].
    unfold try_except.
    rewrite (bind_run _ _ w tt w eq_refl).
    rewrite (bind_run _ _ w (clock o (tick w)) (set_tick S w) eq_refl).
    rewrite (bind_run _ _ (set_tick S w) tt (set_tick S w) eq_refl).
    rewrite (bind_run _ _ _ _ _ E).
    cbn [fst snd].
    assert (Ht : time_time o w1 = (Ok (clock o (S (tick w))), set_tick S w1)).
    { unfold time_time. rewrite S4. reflexivity. }
    rewrite (bind_run _ _ _ _ _ Ht).
    reflexivity.
  - cbn. rewrite S4. reflexivity.
  - split; [exact S5|exact S6].
Qed.

(** X26.  A merge request with at least two files, when saving,
    deleting and [result.save] work.  The merged document is made of the
    uploaded files whose name ends in [.pdf], whatever the case, and that
    PyMuPDF can insert, in upload order; the other files are skipped
    without a word.  The output is named after the clock second alone, so
    it replaces whatever [merged_<second>.pdf] is already in the converted
    folder.  No temporary upload is left behind and one successful
    [merge_pdf] is counted. *)
Theorem merge_takes_readable_pdfs cfg o t req w bytes :
  fitz t = true -> (2 <= length (files_list req))%nat -> save_fault o = None ->
  (forall n, remove_fault o UPLOAD_FOLDER n = None) ->
  merge_save t
    (map content
       (List.filter
          (fun f => endswith (PyStr.lower (filename f)) ".pdf" &&
                    match insert_fault t (content f) with
                    | None => true
                    | Some _ => false
                    end) (files_list req))) = EngDone (Some bytes) ->
  is_Some (engine_usage (conversion_stats w) !! "merge_pdf") ->
  total_conversions (conversion_stats w) <> -1 ->
  let name := "merged_" ++ str_int (py_int (clock o (S (tick w)))) ++ ".pdf" in
  let out := MergePDF_post cfg o t req w in
  fst out = Ok (ToolResponse true "تم دمج الملفات بنجاح!" ("/download/" ++ name) name) /\
  converted (snd out) =
    fwrite name (FEntry true (clock o (S (S (tick w)))) bytes) (converted w) /\
  (forall n, fexists n (uploads (snd out)) = true -> fexists n (uploads w) = true) /\
  calls (snd out) = (calls w ++ [CallUpdateStats true "merge_pdf"])%list.
Proof.
  intros Hfitz Hlen Hsave Hrm Hout Hkey Htot. cbn zeta.
  destruct (merge_after_loop cfg o t req w Hfitz Hlen Hsave)
    as (names & w1 & -> & S1 & S2 & S3 & S4 & S5 & _).
  cbn zeta. rewrite Hout.
  set (name := "merged_" ++ str_int (py_int (clock o (S (tick w)))) ++ ".pdf").
  set (w2 := set_converted (fwrite name (FEntry true (clock o (S (S (tick w)))) bytes)) w1).
  assert (E1 : save_output o (EngDone (Some bytes)) name w1 = (Ok tt, w2)).
  { unfold save_output, write_file. rewrite S4. reflexivity. }
  destruct (cleanup_run o Hrm names w2) as (w3 & E2 & T1 & T2 & T3 & T4 & T5).
  pose proof (update_stats_effect cfg o true "merge_pdf"
                (clock o (tick w3) - clock o (tick w))%Q (set_tick S w3)) as U.
  cbn zeta in U.
  destruct (update_stats cfg o true "merge_pdf" _ (set_tick S w3)) as [r w'] eqn:E.
  cbn [fst snd] in U.
  destruct U as (U1 & U2 & _ & _ & _ & U4 & _ & _ & U6).
  rewrite U6 in E.
  2:{ cbn. rewrite T1. cbn. rewrite S1. exact Hkey. }
  2:{ cbn. rewrite T1. cbn. rewrite S1. exact Htot. }
  assert (R : try_except
    (save_output o (EngDone (Some bytes)) name >>
     for_each names (remove_if_exists o UPLOAD_FOLDER) >>
     let* now' := time_time o in
     update_stats cfg o true "merge_pdf" (now' - clock o (tick w))%Q >>
     ret (ToolResponse true "تم دمج الملفات بنجاح!" ("/download/" ++ name) name))
    (tool_except cfg o "merge_pdf" (clock o (tick w))) w1
    = (Ok (ToolResponse true "تم دمج الملفات بنجاح!" ("/download/" ++ name) name), w')).
  { apply try_run_ok.
    rewrite (bind_run _ _ _ _ _ E1). rewrite (bind_run _ _ _ _ _ E2).
    rewrite (bind_run _ _ w3 (clock o (tick w3)) (set_tick S w3) eq_refl).
    rewrite (bind_run _ _ _ _ _ E). reflexivity. }
  rewrite R. cbn [fst snd].
  rewrite U1, U2, U4. cbn [uploads converted calls set_tick].
  rewrite T2, T3. subst w2. cbn [converted calls set_converted]. rewrite S2, S3.
  split; [reflexivity|]. split; [reflexivity|]. split; [|reflexivity].
  intros n Hn. apply T5 in Hn as [Hn Hnot]. cbn [uploads set_converted] in Hn.
  apply S5 in Hn as [Hn|Hn]; [exact Hn|contradiction].
Qed.

Lemma merge_takes_readable_pdfs_witness :
  let t := with_insert_fault
             (fun data => if String.eqb data "broken" then Some "no objects found"
                          else None) sample_tools in
  let out := MergePDF_post Scenario.both_engines Scenario.healthy t
               (MultiRequest [FileStorage "a.PDF" "%PDF-A"; FileStorage "notes.txt" "text";
                              FileStorage "b.pdf" "broken"; FileStorage "c.pdf" "%PDF-C"])
               Scenario.fresh in
  fst out = Ok (ToolResponse true "تم دمج الملفات بنجاح!"
                  "/download/merged_1762200001.pdf" "merged_1762200001.pdf") /\
  converted (snd out) =
    [("merged_1762200001.pdf", FEntry true (clock Scenario.healthy 2) "%PDF-A+%PDF-C")].
Proof.
  destruct (merge_takes_readable_pdfs Scenario.both_engines Scenario.healthy
              (with_insert_fault
                 (fun data => if String.eqb data "broken" then Some "no objects found"
                              else None) sample_tools)
              (MultiRequest [FileStorage "a.PDF" "%PDF-A"; FileStorage "notes.txt" "text";
                             FileStorage "b.pdf" "broken"; FileStorage "c.pdf" "%PDF-C"])
              Scenario.fresh "%PDF-A+%PDF-C")
    as (H1 & H2 & _ & _); try reflexivity.
  - cbn. lia.
  - eexists. vm_compute. reflexivity.
  - discriminate.
  - split; [exact H1|exact H2].
Defined.

(** X27.  When [result.save] raises, as PyMuPDF does for a
    document without pages, [MergePDF.post] answers 500 with that
    exception's text and counts one failed [merge_pdf]; the [except] clause
    deletes nothing, so every file it had saved, one per upload whose name
    ends in [.pdf], is still in the upload folder, and nothing that was
    there before is lost. *)
Theorem failed_merge_keeps_uploads cfg o t req w detail :
  fitz t = true -> (2 <= length (files_list req))%nat -> save_fault o = None ->
  merge_save t
    (map content
       (List.filter
          (fun f => endswith (PyStr.lower (filename f)) ".pdf" &&
                    match insert_fault t (content f) with
                    | None => true
                    | Some _ => false
                    end) (files_list req))) = EngRaise detail ->
  is_Some (engine_usage (conversion_stats w) !! "merge_pdf") ->
  total_conversions (conversion_stats w) <> -1 ->
  let out := MergePDF_post cfg o t req w in
  fst out = Raise (HTTPException 500 detail) /\
  converted (snd out) = converted w /\
  calls (snd out) = (calls w ++ [CallUpdateStats false "merge_pdf"])%list /\
  (forall j file, files_list req !! j = Some file ->
     endswith (PyStr.lower (filename file)) ".pdf" = true ->
     fexists (clean_filename (with_uuid (uuid_seq t j) o) (filename file))
             (uploads (snd out)) = true) /\
  (forall n, fexists n (uploads w) = true -> fexists n (uploads (snd out)) = true).
Proof.
  intros Hfitz Hlen Hsave Hout Hkey Htot. cbn zeta.
  destruct (merge_after_loop cfg o t req w Hfitz Hlen Hsave)
    as (names & w1 & -> & S1 & S2 & S3 & S4 & S5 & S6).
  cbn zeta. rewrite Hout.
  rewrite (try_run_raise _ _ w1 (EngineError detail) w1) by reflexivity.
  pose proof (tool_except_effect cfg o "merge_pdf" (clock o (tick w))
                (EngineError detail) w1) as T.
  cbn zeta in T. destruct T as (T1 & T2 & _ & T4 & _ & _ & T6).
  rewrite T6, T1, T2, T4 by (rewrite S1; assumption).
  rewrite S2, S3.
  split; [reflexivity|]. split; [reflexivity|]. split; [reflexivity|]. split.
  - intros j file Hj Hf. apply S5. right. apply (S6 j file Hj Hf).
  - intros n Hn. apply S5. left. exact Hn.
Qed.

Lemma failed_merge_keeps_uploads_witness :
  let t := with_merge_save (fun _ => EngRaise "cannot save with zero pages")
             sample_tools in
  let out := MergePDF_post Scenario.both_engines Scenario.healthy t
               (MultiRequest [FileStorage "notes.txt" "text"; FileStorage "b.pdf" "%PDF-B"])
               Scenario.fresh in
  fst out = Raise (HTTPException 500 "cannot save with zero pages") /\
  fexists "b_00000001.pdf" (uploads (snd out)) = true.
Proof.
  destruct (failed_merge_keeps_uploads Scenario.both_engines Scenario.healthy
              (with_merge_save (fun _ => EngRaise "cannot save with zero pages")
                 sample_tools)
              (MultiRequest [FileStorage "notes.txt" "text"; FileStorage "b.pdf" "%PDF-B"])
              Scenario.fresh "cannot save with zero pages")
    as (H1 & _ & _ & H4 & _); try reflexivity.
  - eexists. vm_compute. reflexivity.
  - discriminate.
  - split; [exact H1|].
    apply (H4 1%nat (FileStorage "b.pdf" "%PDF-B")); reflexivity.
Defined.

(** *** [ConvertFromImage.post] *)

Section ImageLoop.
Local Open Scope list_scope.

(** The loop of [ConvertFromImage.post] when [file.save] works: it saves
    every file with an image extension and keeps the images Pillow opens. *)
Lemma image_loop_run o t :
  save_fault o = None ->
  forall files i temp_files images w,
  exists names w',
    image_loop o t i files temp_files images w =
    (Ok (temp_files ++ names,
         images ++
         omap (fun f =>
                 if bool_decide (last_extension (filename f) ∈ ["jpg"; "jpeg"; "png"])
                 then image_open t (content f) else None) files), w') /\
    conversion_stats w' = conversion_stats w /\ converted w' = converted w /\
    calls w' = calls w /\ tick w' = tick w /\
    (forall n, fexists n (uploads w') = true <->
               fexists n (uploads w) = true \/ n ∈ names) /\
    (forall j file, files !! j = Some file ->
       last_extension (filename file) ∈ ["jpg"; "jpeg"; "png"] ->
       clean_filename (with_uuid (uuid_seq t (i + j)) o) (filename file) ∈ names).
Proof.
  intros Hsave.
  induction files as [|file files IH]; intros i temp_files images w.
  - exists [], w. cbn. rewrite !app_nil_r.
    split; [reflexivity|]. do 4 (split; [reflexivity|]). split.
    + intros n. split; [tauto|]. intros [H|H]; [exact H|].
      apply not_elem_of_nil in H. contradiction.
    + intros j file H. discriminate H.
  - cbn [image_loop omap list_omap].
    destruct (bool_decide (last_extension (filename file) ∈ ["jpg"; "jpeg"; "png"]))
      eqn:Hext.
    + set (safe := clean_filename (with_uuid (uuid_seq t i) o) (filename file)).
      set (w1 := set_uploads
                   (fwrite safe (FEntry true (clock o (tick w)) (content file))) w).
      assert (E1 : file_save o file safe w = (Ok tt, w1)).
      { unfold file_save. rewrite Hsave. reflexivity. }
      rewrite (bind_run _ _ _ _ _ E1).
      assert (E2 : exists w2,
        try_except
          (let* data := read_file UPLOAD_FOLDER safe in
           match image_open t data with
           | Some img => ret (Some img)
           | None => raise (OSError "cannot identify image file")
           end)
          (fun _ => logger WARNING ("صورة غير صالحة: " ++ safe)%string >> ret None) w1
        = (Ok (image_open t (content file)), w2) /\
        conversion_stats w2 = conversion_stats w1 /\ converted w2 = converted w1 /\
        calls w2 = calls w1 /\ tick w2 = tick w1 /\ uploads w2 = uploads w1).
      { unfold try_except, bind, read_file. cbn [folder_of].
        replace (flookup safe (uploads w1))
          with (Some (FEntry true (clock o (tick w)) (content file)))
          by (symmetry; apply flookup_fwrite_eq).
        cbn [f_data]. destruct (image_open t (content file)).
        - exists w1. repeat split; reflexivity.
        - eexists. split; [reflexivity|]. repeat split; reflexivity. }
      destruct E2 as (w2 & E2 & R1 & R2 & R3 & R4 & R5).
      rewrite (bind_run _ _ _ _ _ E2).
      destruct (IH (S i) (temp_files ++ [safe])
                  (match image_open t (content file) with
                   | Some img => images ++ [img]
                   | None => images
                   end) w2)
        as (names & w' & E & S1 & S2 & S3 & S4 & S5 & S6).
      exists (safe :: names), w'. rewrite E. split.
      { rewrite <- app_assoc. cbn [app].
        destruct (image_open t (content file)); rewrite <- ?app_assoc; reflexivity. }
      assert (W : conversion_stats w1 = conversion_stats w /\
                  converted w1 = converted w /\
                  calls w1 = calls w /\ tick w1 = tick w)
        by (repeat split; reflexivity).
      destruct W as (W1 & W2 & W3 & W4).
      split; [congruence|]. split; [congruence|]. split; [congruence|].
      split; [congruence|]. split.
      * intros n. rewrite S5, R5. subst w1. cbn [uploads set_uploads].
        rewrite fexists_fwrite_iff, elem_of_cons. tauto.
      * intros j f Hj Hf. destruct j as [|j].
        -- injection Hj as <-. rewrite Nat.add_0_r. apply elem_of_cons. left.
           reflexivity.
        -- apply elem_of_cons. right.
           replace (i + S j)%nat with (S i + j)%nat by lia.
           apply S6; assumption.
    + destruct (IH (S i) temp_files images w)
        as (names & w' & E & S1 & S2 & S3 & S4 & S5 & S6).
      exists names, w'. rewrite E.
      split; [reflexivity|]. do 4 (split; [assumption|]). split; [exact S5|].
      intros j f Hj Hf. destruct j as [|j].
      * injection Hj as <-. apply bool_decide_eq_false in Hext. contradiction.
      * replace (i + S j)%nat with (S i + j)%nat by lia. apply S6; assumption.
Qed.

End ImageLoop.

Lemma from_image_after_loop cfg o t req w :
  match files_list req with
  | [] => true
  | file :: _ => String.eqb (filename file) EmptyString
  end = false ->
  save_fault o = None ->
  exists names w1,
    ConvertFromImage_post cfg o t req w =
    try_except
      (let images :=
         omap (fun f =>
                 if bool_decide (last_extension (filename f) ∈ ["jpg"; "jpeg"; "png"])
                 then image_open t (content f) else None) (files_list req) in
       (if match images with [] => true | _ => false end
        then abort 400 "لم يتم العثور على صور صالحة."
        else ret tt) >>
       let* now := time_time o in
       let pdf_filename := "images_merged_" ++ str_int (py_int now) ++ ".pdf" in
       save_output o (images_save t images) pdf_filename >>
       for_each names (remove_if_exists o UPLOAD_FOLDER) >>
       let* now' := time_time o in
       update_stats cfg o true "image_to_pdf" (now' - clock o (tick w))%Q >>
       ret (ToolResponse true "تم دمج الصور في PDF بنجاح!"
                         ("/download/" ++ pdf_filename) pdf_filename))
      (fun e =>
         logger ERROR ("خطأ في تحويل الصور إلى PDF: " ++ str_exn o e) >>
         let* now := time_time o in
         update_stats cfg o false "image_to_pdf" (now - clock o (tick w))%Q >>
         abort 500 (str_exn o e)) w1 /\
    conversion_stats w1 = conversion_stats w /\ converted w1 = converted w /\
    calls w1 = calls w /\ tick w1 = S (tick w) /\
    (forall n, fexists n (uploads w1) = true <->
               fexists n (uploads w) = true \/ n ∈ names) /\
    (forall j file, files_list req !! j = Some file ->
       last_extension (filename file) ∈ ["jpg"; "jpeg"; "png"] ->
       clean_filename (with_uuid (uuid_seq t j) o) (filename file) ∈ names).
Proof.
  intros Hfirst Hsave.
  destruct (image_loop_run o t Hsave (files_list req) 0 [] [] (set_tick S w))
    as (names & w1 & E & S1 & S2 & S3 & S4 & S5 & S6).
  cbn [app] in E.
  exists names, w1.
  split; [|split; [exact S1|split; [exact S2|split; [exact S3|split;
           [exact S4|split; [exact S5|exact S6]]]]]].
  unfold ConvertFromImage_post. rewrite Hfirst.
  unfold try_except.
  rewrite (bind_run _ _ w (clock o (tick w)) (set_tick S w) eq_refl).
  rewrite (bind_run _ _ (set_tick S w) tt (set_tick S w) eq_refl).
  rewrite (bind_run _ _ _ _ _ E).
  reflexivity.
Qed.

(** X28.  [ConvertFromImage.post], when saving, deleting and
    Pillow's [save] work and at least one upload is a readable image.  The
    PDF is made of the uploads whose last extension is [jpg], [jpeg] or
    [png], whatever the case, and that Pillow opens, in upload order; the
    others are skipped.  The output is named after the clock second alone
    and replaces a file of that name; no temporary upload is left behind
    and one successful [image_to_pdf] is counted. *)
Theorem from_image_takes_readable_images cfg o t req w bytes :
  match files_list req with
  | [] => true
  | file :: _ => String.eqb (filename file) EmptyString
  end = false ->
  save_fault o = None ->
  (forall n, remove_fault o UPLOAD_FOLDER n = None) ->
  let images :=
    omap (fun f =>
            if bool_decide (last_extension (filename f) ∈ ["jpg"; "jpeg"; "png"])
            then image_open t (content f) else None) (files_list req) in
  images <> [] ->
  images_save t images = EngDone (Some bytes) ->
  is_Some (engine_usage (conversion_stats w) !! "image_to_pdf") ->
  total_conversions (conversion_stats w) <> -1 ->
  let name := "images_merged_" ++ str_int (py_int (clock o (S (tick w)))) ++ ".pdf" in
  let out := ConvertFromImage_post cfg o t req w in
  fst out = Ok (ToolResponse true "تم دمج الصور في PDF بنجاح!"
                             ("/download/" ++ name) name) /\
  converted (snd out) =
    fwrite name (FEntry true (clock o (S (S (tick w)))) bytes) (converted w) /\
  (forall n, fexists n (uploads (snd out)) = true -> fexists n (uploads w) = true) /\
  calls (snd out) = (calls w ++ [CallUpdateStats true "image_to_pdf"])%list.
Proof.
  intros Hfirst Hsave Hrm images Himg Hout Hkey Htot. cbn zeta.
  destruct (from_image_after_loop cfg o t req w Hfirst Hsave)
    as (names & w1 & -> & S1 & S2 & S3 & S4 & S5 & _).
  cbn zeta. fold images. rewrite Hout.
  assert (Hne : match images with [] => true | _ => false end = false)
    by (destruct images; [contradiction|reflexivity]).
  rewrite Hne.
  set (name := "images_merged_" ++ str_int (py_int (clock o (S (tick w)))) ++ ".pdf").
  set (w2 := set_converted (fwrite name (FEntry true (clock o (S (S (tick w)))) bytes))
               (set_tick S w1)).
  assert (Ht : time_time o w1 = (Ok (clock o (S (tick w))), set_tick S w1)).
  { unfold time_time. rewrite S4. reflexivity. }
  assert (E1 : save_output o (EngDone (Some bytes)) name (set_tick S w1) = (Ok tt, w2)).
  { unfold save_output, write_file. cbn [tick set_tick]. rewrite S4. reflexivity. }
  destruct (cleanup_run o Hrm names w2) as (w3 & E2 & T1 & T2 & T3 & T4 & T5).
  pose proof (update_stats_effect cfg o true "image_to_pdf"
                (clock o (tick w3) - clock o (tick w))%Q (set_tick S w3)) as U.
  cbn zeta in U.
  destruct (update_stats cfg o true "image_to_pdf" _ (set_tick S w3)) as [r w'] eqn:E.
  cbn [fst snd] in U.
  destruct U as (U1 & U2 & _ & _ & _ & U4 & _ & _ & U6).
  rewrite U6 in E.
  2:{ cbn. rewrite T1. cbn. rewrite S1. exact Hkey. }
  2:{ cbn. rewrite T1. cbn. rewrite S1. exact Htot. }
  rewrite (try_run_ok _ _ w1
             (ToolResponse true "تم دمج الصور في PDF بنجاح!" ("/download/" ++ name) name)
             w').
  2:{ rewrite (bind_run _ _ w1 tt w1 eq_refl).
      rewrite (bind_run _ _ _ _ _ Ht).
      rewrite (bind_run _ _ _ _ _ E1). rewrite (bind_run _ _ _ _ _ E2).
      rewrite (bind_run _ _ w3 (clock o (tick w3)) (set_tick S w3) eq_refl).
      rewrite (bind_run _ _ _ _ _ E). reflexivity. }
  cbn [fst snd].
  rewrite U1, U2, U4. cbn [uploads converted calls set_tick].
  rewrite T2, T3. subst w2. cbn [converted calls set_converted set_tick].
  rewrite S2, S3.
  split; [reflexivity|]. split; [reflexivity|]. split; [|reflexivity].
  intros n Hn. apply T5 in Hn as [Hn Hnot]. cbn [uploads set_converted set_tick] in Hn.
  apply S5 in Hn as [Hn|Hn]; [exact Hn|contradiction].
Qed.

Lemma from_image_takes_readable_images_witness :
  let out := ConvertFromImage_post Scenario.both_engines Scenario.healthy sample_tools
               (MultiRequest [FileStorage "one.JPG" "A"; FileStorage "two.gif" "B";
                              FileStorage "three.v2.png" "C"])
               Scenario.fresh in
  fst out = Ok (ToolResponse true "تم دمج الصور في PDF بنجاح!"
                  "/download/images_merged_1762200001.pdf"
                  "images_merged_1762200001.pdf") /\
  converted (snd out) =
    [("images_merged_1762200001.pdf",
      FEntry true (clock Scenario.healthy 2) "rgb(A)+rgb(C)")].
Proof.
  destruct (from_image_takes_readable_images Scenario.both_engines Scenario.healthy
              sample_tools
              (MultiRequest [FileStorage "one.JPG" "A"; FileStorage "two.gif" "B";
                             FileStorage "three.v2.png" "C"])
              Scenario.fresh "rgb(A)+rgb(C)")
    as (H1 & H2 & _ & _); try reflexivity.
  - vm_compute. discriminate.
  - eexists. vm_compute. reflexivity.
  - discriminate.
  - split; [exact H1|exact H2].
Defined.

(** X29.  When none of the uploads yields an image,
    [ConvertFromImage.post] aborts with 400 after it has saved the files:
    the caller gets a 500 carrying the framework's text for a 400, one
    failed [image_to_pdf] is counted, nothing is written to the converted
    folder, and every upload that had an image extension stays in the
    upload folder. *)
Theorem unreadable_images_stay_uploaded cfg o t req w :
  match files_list req with
  | [] => true
  | file :: _ => String.eqb (filename file) EmptyString
  end = false ->
  save_fault o = None ->
  omap (fun f =>
          if bool_decide (last_extension (filename f) ∈ ["jpg"; "jpeg"; "png"])
          then image_open t (content f) else None) (files_list req) = [] ->
  is_Some (engine_usage (conversion_stats w) !! "image_to_pdf") ->
  total_conversions (conversion_stats w) <> -1 ->
  let out := ConvertFromImage_post cfg o t req w in
  fst out = Raise (HTTPException 500 (http_str o 400)) /\
  converted (snd out) = converted w /\
  calls (snd out) = (calls w ++ [CallUpdateStats false "image_to_pdf"])%list /\
  (forall j file, files_list req !! j = Some file ->
     last_extension (filename file) ∈ ["jpg"; "jpeg"; "png"] ->
     fexists (clean_filename (with_uuid (uuid_seq t j) o) (filename file))
             (uploads (snd out)) = true) /\
  (forall n, fexists n (uploads w) = true -> fexists n (uploads (snd out)) = true).
Proof.
  intros Hfirst Hsave Himg Hkey Htot. cbn zeta.
  destruct (from_image_after_loop cfg o t req w Hfirst Hsave)
    as (names & w1 & -> & S1 & S2 & S3 & S4 & S5 & S6).
  cbn zeta. rewrite Himg.
  rewrite (try_run_raise _ _ w1 (HTTPException 400 "لم يتم العثور على صور صالحة.") w1)
    by reflexivity.
  pose proof (from_image_except_effect cfg o (clock o (tick w))
                (HTTPException 400 "لم يتم العثور على صور صالحة.") w1) as T.
  cbn zeta in T. destruct T as (T1 & T2 & T4 & _ & _ & T6).
  rewrite T6, T1, T2, T4 by (rewrite S1; assumption).
  rewrite S2, S3.
  split; [reflexivity|]. split; [reflexivity|]. split; [reflexivity|]. split.
  - intros j file Hj Hf. apply S5. right. apply (S6 j file Hj Hf).
  - intros n Hn. apply S5. left. exact Hn.
Qed.

Lemma unreadable_images_stay_uploaded_witness :
  let t := with_image_open (fun _ => None) sample_tools in
  let out := ConvertFromImage_post Scenario.both_engines Scenario.healthy t
               (MultiRequest [FileStorage "photo.png" "not an image"])
               Scenario.fresh in
  fst out = Raise (HTTPException 500 "HTTP 400") /\
  fexists "photo_00000000.png" (uploads (snd out)) = true.
Proof.
  destruct (unreadable_images_stay_uploaded Scenario.both_engines Scenario.healthy
              (with_image_open (fun _ => None) sample_tools)
              (MultiRequest [FileStorage "photo.png" "not an image"])
              Scenario.fresh)
    as (H1 & _ & _ & H4 & _); try reflexivity.
  - eexists. vm_compute. reflexivity.
  - discriminate.
  - split; [exact H1|].
    apply (H4 0%nat (FileStorage "photo.png" "not an image")); [reflexivity|].
    apply list_elem_of_In. vm_compute. auto.
Defined.
